(** * Phone one-time-code login: issuance and verification

    A shallow embedding of [src/lib/phone-auth.ts].  The two exported
    operations, [issuePhoneLoginCode] and [verifyPhoneLoginCode], run against
    the [PhoneLoginCode] table; here the table is an explicit store threaded
    through a small state-and-exception monad, the clock and the random
    generator are inputs of each call, and the two library primitives the
    module imports (HMAC-SHA256 and the language's string-to-number
    conversion) are parameters of the development. *)

From Stdlib Require Import ZArith NArith QArith Qround List Bool Lia String Ascii.
Import ListNotations.

Local Open Scope Z_scope.

(** ** JavaScript strings

    A string is its sequence of UTF-16 code units. *)

Definition jsstring : Type := list N.

(** Literals of the source are ASCII; [js] reads them. *)
Definition js (s : string) : jsstring :=
  List.map N_of_ascii (list_ascii_of_string s).

Fixpoint jsstring_eqb (a b : jsstring) : bool :=
  match a, b with
  | [], [] => true
  | x :: a', y :: b' => N.eqb x y && jsstring_eqb a' b'
  | _, _ => false
  end.

(** [\d] of a regular expression without the unicode flag: [0-9]. *)
Definition isDigit (c : N) : bool := (N.leb 48 c && N.leb c 57)%bool.

(** [\s] of a regular expression: the white space and line terminator code
    units of ECMAScript. *)
Definition isWhiteSpace (c : N) : bool :=
  (N.leb 9 c && N.leb c 13
   || N.eqb c 32 || N.eqb c 160 || N.eqb c 5760
   || N.leb 8192 c && N.leb c 8202
   || N.eqb c 8232 || N.eqb c 8233 || N.eqb c 8239 || N.eqb c 8287
   || N.eqb c 12288 || N.eqb c 65279)%bool.

(** [input.replace(/\s+/g, '')]: every run of white space is removed. *)
Definition stripWhiteSpace (input : jsstring) : jsstring :=
  List.filter (fun c => negb (isWhiteSpace c)) input.

(** [new RegExp(`^\\d{${n}}$`).test(s)]: the whole string is [n] digits. *)
Fixpoint testDigits (n : nat) (s : jsstring) : bool :=
  match n, s with
  | O, [] => true
  | S n', c :: s' => isDigit c && testDigits n' s'
  | _, _ => false
  end.

(** *** [String(n)] and [padStart] for integers *)

Fixpoint digitsFuel (fuel : nat) (n : N) (acc : jsstring) : jsstring :=
  match fuel with
  | O => acc
  | S fuel' =>
      let acc' := (48 + n mod 10)%N :: acc in
      if N.eqb (n / 10) 0 then acc' else digitsFuel fuel' (n / 10)%N acc'
  end.

(** The decimal digits of [n], most significant first.  A number below
    [2 ^ k] has at most [k] decimal digits, so the fuel never runs out
    (lemma [decimalDigits_value]). *)
Definition decimalDigits (n : N) : jsstring :=
  digitsFuel (S (N.to_nat (N.log2 n))) n [].

(** [String(z)] for an integer [z]. *)
Definition numberToString (z : Z) : jsstring :=
  if z <? 0 then 45%N :: decimalDigits (Z.to_N (- z))
  else decimalDigits (Z.to_N z).

(** [s.padStart(len, '0')]. *)
Definition padStart (s : jsstring) (len : nat) : jsstring :=
  List.repeat 48%N (len - List.length s) ++ s.

(** The value a digit string denotes (used to state that [decimalDigits]
    loses nothing). *)
Definition digitsValue (s : jsstring) : N :=
  List.fold_left (fun v c => (10 * v + (c - 48))%N) s 0%N.

(** ** JavaScript numbers, as far as [getOtpTtlMinutes] looks at them

    A double is NaN, an infinity or a finite rational; the function only
    tests finiteness and takes the floor. *)

Inductive JsNumber : Type :=
| JsNaN
| JsInfinity (negative : bool)
| JsFinite (q : Q).

(** ** Errors and results *)

Record HttpError : Type := mkHttpError { status : Z; message : jsstring }.

Inductive result (A : Type) : Type :=
| Ok (a : A)
| Throw (e : HttpError).
Arguments Ok {A} a.
Arguments Throw {A} e.

(** ** The [PhoneLoginCode] table

    Columns as in the migration that creates the table; time stamps are
    milliseconds since the epoch, [attempts] defaults to 0 and [createdAt] to
    the time of insertion. *)

Record PhoneLoginCode : Type := mkPhoneLoginCode {
  id : N;
  phoneNumber : jsstring;
  codeHash : jsstring;
  expiresAt : Z;
  attempts : Z;
  consumedAt : option Z;
  requestedByIp : option jsstring;
  createdAt : Z
}.

(** The table together with the source of fresh primary keys (the ORM draws
    a new unique key for every created row; a counter stands for it). *)
Record Store : Type := mkStore { rows : list PhoneLoginCode; nextId : N }.

Definition emptyStore : Store := {| rows := []; nextId := 0 |}.

(** *** The monad of store operations: state plus exceptions

    A thrown error keeps the store as the operations before it left it. *)

Definition M (A : Type) : Type := Store -> result A * Store.

Definition ret {A} (a : A) : M A := fun s => (Ok a, s).
Definition throw {A} (e : HttpError) : M A := fun s => (Throw e, s).
Definition bind {A B} (m : M A) (k : A -> M B) : M B :=
  fun s => match m s with
           | (Ok a, s') => k a s'
           | (Throw e, s') => (Throw e, s')
           end.

Declare Scope store_scope.
Delimit Scope store_scope with store.
Notation "x <- m ;; k" := (bind m (fun x => k))
  (at level 61, m at next level, right associativity) : store_scope.
Notation "m ;; k" := (bind m (fun _ => k))
  (at level 61, right associativity) : store_scope.

(** *** The ORM calls the module makes *)

(** [deleteMany({ where })]. *)
Definition deleteMany (where_ : PhoneLoginCode -> bool) : M unit :=
  fun s => (Ok tt, {| rows := List.filter (fun r => negb (where_ r)) (rows s);
                      nextId := nextId s |}).

(** [count({ where })]. *)
Definition count (where_ : PhoneLoginCode -> bool) : M Z :=
  fun s => (Ok (Z.of_nat (List.length (List.filter where_ (rows s)))), s).

(** The first row of [l] in the order [createdAt desc].  Rows with equal
    [createdAt] have no order of their own in the database; the model takes
    the one inserted first. *)
Definition newer (best : option PhoneLoginCode) (r : PhoneLoginCode)
  : option PhoneLoginCode :=
  match best with
  | None => Some r
  | Some b => if createdAt b <? createdAt r then Some r else Some b
  end.

Definition newest (l : list PhoneLoginCode) : option PhoneLoginCode :=
  List.fold_left newer l None.

(** [findFirst({ where, orderBy: { createdAt: 'desc' } })]. *)
Definition findFirst (where_ : PhoneLoginCode -> bool) : M (option PhoneLoginCode) :=
  fun s => (Ok (newest (List.filter where_ (rows s))), s).

(** [create({ data })]: the columns not in [data] take their defaults;
    [stamp] is the store's clock at insertion. *)
Definition newRow (key : N) (phone hash : jsstring) (expires : Z)
  (ip : option jsstring) (stamp : Z) : PhoneLoginCode :=
  {| id := key; phoneNumber := phone; codeHash := hash; expiresAt := expires;
     attempts := 0; consumedAt := None; requestedByIp := ip;
     createdAt := stamp |}.

Definition create (phone hash : jsstring) (expires : Z) (ip : option jsstring)
  (stamp : Z) : M unit :=
  fun s => (Ok tt,
            {| rows := rows s ++ [newRow (nextId s) phone hash expires ip stamp];
               nextId := N.succ (nextId s) |}).

(** [update({ where: { id }, data })]. *)
Definition update (key : N) (data : PhoneLoginCode -> PhoneLoginCode) : M unit :=
  fun s => (Ok tt,
            {| rows := List.map (fun r => if N.eqb (id r) key then data r else r) (rows s);
               nextId := nextId s |}).

(** [data: { attempts: { increment: 1 } }]. *)
Definition incrementAttempts (r : PhoneLoginCode) : PhoneLoginCode :=
  {| id := id r; phoneNumber := phoneNumber r; codeHash := codeHash r;
     expiresAt := expiresAt r; attempts := attempts r + 1;
     consumedAt := consumedAt r; requestedByIp := requestedByIp r;
     createdAt := createdAt r |}.

(** [data: { consumedAt: now, attempts: { increment: 1 } }]. *)
Definition consume (now : Z) (r : PhoneLoginCode) : PhoneLoginCode :=
  {| id := id r; phoneNumber := phoneNumber r; codeHash := codeHash r;
     expiresAt := expiresAt r; attempts := attempts r + 1;
     consumedAt := Some now; requestedByIp := requestedByIp r;
     createdAt := createdAt r |}.

(** ** Constants of the module *)

Definition OTP_CODE_LENGTH : nat := 6.
Definition MAX_VERIFY_ATTEMPTS : Z := 5.
Definition MAX_REQUESTS_PER_WINDOW : Z := 5.
Definition REQUEST_WINDOW_MINUTES : Z := 15.
Definition RESEND_COOLDOWN_SECONDS : Z := 60.

(** The part of [process.env] the module reads. *)
Record Env : Type := mkEnv {
  PHONE_OTP_TTL_MINUTES : option jsstring;
  PHONE_OTP_SECRET : option jsstring;
  NEXTAUTH_SECRET : option jsstring
}.

(** [a || b] on an optional string: [undefined] and [''] are falsy. *)
Definition orElse (a : option jsstring) (b : jsstring) : jsstring :=
  match a with
  | Some (c :: s) => c :: s
  | _ => b
  end.

Definition getOtpSecret (env : Env) : jsstring :=
  orElse (PHONE_OTP_SECRET env)
    (orElse (NEXTAUTH_SECRET env) (js "phone-otp-fallback-secret-change-me")).

(** [Buffer.from(s, 'hex')]: pairs of hexadecimal digits, up to the first
    pair that is not one.  The decoder looks a code unit up by its low
    byte only, so a code unit above [0xFF] counts as the character of its
    low byte. *)
Definition lowByte (c : N) : N := (c mod 256)%N.

Definition hexValue (c : N) : option N :=
  let b := lowByte c in
  if (N.leb 48 b && N.leb b 57)%bool then Some (b - 48)%N
  else if (N.leb 65 b && N.leb b 70)%bool then Some (b - 55)%N
  else if (N.leb 97 b && N.leb b 102)%bool then Some (b - 87)%N
  else None.

Fixpoint bufferFromHex (s : jsstring) : list N :=
  match s with
  | a :: b :: rest =>
      match hexValue a, hexValue b with
      | Some x, Some y => (16 * x + y)%N :: bufferFromHex rest
      | _, _ => []
      end
  | _ => []
  end.

(** [crypto.timingSafeEqual] on buffers of one length: equality of the bytes. *)
Fixpoint timingSafeEqual (a b : list N) : bool :=
  match a, b with
  | [], [] => true
  | x :: a', y :: b' => N.eqb x y && timingSafeEqual a' b'
  | _, _ => false
  end.

Definition secureEqualHex (left right : jsstring) : bool :=
  let leftBuffer := bufferFromHex left in
  let rightBuffer := bufferFromHex right in
  if negb (Nat.eqb (List.length leftBuffer) (List.length rightBuffer)) then false
  else timingSafeEqual leftBuffer rightBuffer.

Definition normalizeOtpCode (input : jsstring) : result jsstring :=
  let compact := stripWhiteSpace input in
  if negb (testDigits OTP_CODE_LENGTH compact)
  then Throw (mkHttpError 400 (js "Codul trebuie sa aiba 6 cifre"))
  else Ok compact.

Record IssueInput : Type := mkIssueInput {
  issue_phoneNumber : jsstring;
  issue_requestedByIp : option jsstring
}.

Record IssueOutput : Type := mkIssueOutput {
  out_code : jsstring;
  out_expiresAt : Z
}.

Record VerifyInput : Type := mkVerifyInput {
  verify_phoneNumber : jsstring;
  verify_code : jsstring
}.

Definition isSome {A} (o : option A) : bool :=
  match o with Some _ => true | None => false end.

(** ** Calls

    A call with everything it reads from outside the store, and what it
    returns. *)

Inductive Op : Type :=
| OpIssue (env : Env) (now rnd stamp : Z) (input : IssueInput)
| OpVerify (env : Env) (now : Z) (input : VerifyInput).

Inductive Outcome : Type :=
| Issued (r : result IssueOutput)
| Verified (r : result bool).

(** ** Phone numbers ([normalizePhoneNumber], [maskPhoneNumber])

    The regular expressions of the module, as tests on code units. *)

(** A character of the class [[+0-9()\-.\s]]. *)
Definition isPhoneAllowedChar (c : N) : bool :=
  (N.eqb c 43 || isDigit c || N.eqb c 40 || N.eqb c 41 || N.eqb c 45
   || N.eqb c 46 || isWhiteSpace c)%bool.

(** [PHONE_ALLOWED_PATTERN.test(s)], the pattern [/^[+0-9()\-.\s]{7,24}$/]. *)
Definition testPhoneAllowed (s : jsstring) : bool :=
  (Nat.leb 7 (List.length s) && Nat.leb (List.length s) 24
   && List.forallb isPhoneAllowedChar s)%bool.

(** [PHONE_E164_PATTERN.test(s)], the pattern [/^\+\d{8,15}$/]. *)
Definition testPhoneE164 (s : jsstring) : bool :=
  match s with
  | c :: digits =>
      (N.eqb c 43 && Nat.leb 8 (List.length digits)
       && Nat.leb (List.length digits) 15 && List.forallb isDigit digits)%bool
  | [] => false
  end.

(** A character of the class [[()\-.\s]]. *)
Definition isPhoneSeparator (c : N) : bool :=
  (N.eqb c 40 || N.eqb c 41 || N.eqb c 45 || N.eqb c 46 || isWhiteSpace c)%bool.

(** [s.replace(/[()\-.\s]/g, '')]. *)
Definition stripPhoneSeparators (s : jsstring) : jsstring :=
  List.filter (fun c => negb (isPhoneSeparator c)) s.

(** [s.startsWith(prefix)]. *)
Fixpoint startsWith (prefix s : jsstring) : bool :=
  match prefix, s with
  | [], _ => true
  | p :: prefix', c :: s' => N.eqb p c && startsWith prefix' s'
  | _ :: _, [] => false
  end.

(** [maskPhoneNumber]: [slice(0, n)] is [firstn n], [slice(-2)] the last
    two code units. *)
Definition maskPhoneNumber (phoneNumber : option jsstring) : jsstring :=
  match phoneNumber with
  | None | Some [] => js "-"
  | Some p =>
      if Nat.leb (List.length p) 5 then List.firstn 2 p ++ js "***"
      else List.firstn 3 p ++ js "***" ++ List.skipn (List.length p - 2) p
  end.

(** ** The requester's address ([getRequestIp] of the request-code route) *)

Fixpoint dropWhile {A} (p : A -> bool) (l : list A) : list A :=
  match l with
  | [] => []
  | x :: l' => if p x then dropWhile p l' else l
  end.

Fixpoint takeWhile {A} (p : A -> bool) (l : list A) : list A :=
  match l with
  | [] => []
  | x :: l' => if p x then x :: takeWhile p l' else []
  end.

(** [s.trim()]: white space and line terminators removed at both ends. *)
Definition trim (s : jsstring) : jsstring :=
  List.rev (dropWhile isWhiteSpace (List.rev (dropWhile isWhiteSpace s))).

(** [s.split(',')[0]]: the part before the first comma. *)
Definition firstCommaField (s : jsstring) : jsstring :=
  takeWhile (fun c => negb (N.eqb c 44)) s.

(** [a || null] on an optional string. *)
Definition orNull (a : option jsstring) : option jsstring :=
  match a with
  | Some (c :: s) => Some (c :: s)
  | _ => None
  end.

(** The two arguments are what [request.headers.get] returns for
    [x-forwarded-for] and [x-real-ip]. *)
Definition getRequestIp (forwarded realIp : option jsstring) : option jsstring :=
  match forwarded with
  | Some (c :: f) => orNull (Some (trim (firstCommaField (c :: f))))
  | _ => orNull realIp
  end.

(** ** The request-code route ([POST] of the route that calls the issuer)

    What the handler reads besides the code table: the environment, the
    users, the outcome of the call to the SMS gateway; and what it leaves
    behind: the messages it hands to the gateway or to the console. *)

Record RouteEnv : Type := mkRouteEnv {
  SMS_WEBHOOK_URL : option jsstring;
  NODE_ENV : option jsstring;
  PHONE_OTP_DEBUG : option jsstring
}.

(** The columns of a user the route looks at. *)
Record User : Type := mkUser {
  user_phoneNumber : option jsstring;
  user_phoneAuthEnabled : bool
}.

(** [fetch] resolves with [response.ok] true or false, or rejects. *)
Inductive FetchOutcome : Type := FetchOk | FetchNotOk | FetchRejected.

Record Sms : Type := mkSms {
  sms_to : jsstring;
  sms_message : jsstring;
  sms_channel : jsstring
}.

Inductive Dispatch : Type :=
| ToWebhook (url : jsstring) (body : Sms)
| ToConsole (line : jsstring).

(** The JSON object of a response of the route. *)
Record RouteResponse : Type := mkRouteResponse {
  resp_ok : bool;
  resp_message : jsstring;
  resp_expiresAt : option jsstring;
  resp_debugCode : option jsstring
}.

(** What the [try] block of the handler ends with: a response, a thrown
    [HttpError], the schema's rejection of the body, or the rejection of
    [fetch]; the [catch] hands the last three to [jsonError]. *)
Inductive RouteOutcome : Type :=
| Responded (r : RouteResponse)
| ThrewHttp (e : HttpError)
| ThrewSchema
| ThrewFetch.

(** [a !== 'literal'] on an optional string. *)
Definition differsFrom (a : option jsstring) (literal : jsstring) : bool :=
  match a with
  | Some v => negb (jsstring_eqb v literal)
  | None => true
  end.

(** [prisma.user.findFirst({ where: { phoneNumber, phoneAuthEnabled: true } })],
    of which the route only asks whether it found a user. *)
Definition findPhoneUser (users : list User) (phone : jsstring) : bool :=
  List.existsb
    (fun u => match user_phoneNumber u with
              | Some p => jsstring_eqb p phone && user_phoneAuthEnabled u
              | None => false
              end) users.

Definition smsText (code : jsstring) : jsstring :=
  js "Codul tau de autentificare este " ++ code ++ js ". Valabil 5 minute.".

(** The call hands one message to the gateway, or to the console when no
    gateway is configured; it throws when the gateway answers not ok or
    [fetch] rejects.  The result is what is thrown, if anything, and what was
    handed over. *)
Definition dispatchPhoneCode (renv : RouteEnv) (gateway : FetchOutcome)
  (phone code : jsstring) : option RouteOutcome * list Dispatch :=
  match SMS_WEBHOOK_URL renv with
  | Some (u :: url) =>
      (match gateway with
       | FetchRejected => Some ThrewFetch
       | FetchNotOk =>
           Some (ThrewHttp (mkHttpError 502
                   (js "Nu am putut trimite codul prin serviciul SMS")))
       | FetchOk => None
       end,
       [ToWebhook (u :: url)
          {| sms_to := phone; sms_message := smsText code;
             sms_channel := js "sms" |}])
  | _ => (None, [ToConsole (js "[phone-auth] OTP code for " ++ phone
                            ++ js ": " ++ code)])
  end.

(** ** Stand-ins for the two library primitives

    Used only to run the model on concrete inputs in the examples at the
    end; every general statement is about arbitrary primitives. *)

Definition hexDigit (n : N) : N :=
  if N.ltb n 10 then (48 + n)%N else (87 + n)%N.

(** A keyed function with hexadecimal output: it spells the low byte of
    every code unit of key and message. *)
Definition sampleHmac (key message : jsstring) : jsstring :=
  List.flat_map
    (fun c => [hexDigit ((c / 16) mod 16); hexDigit (c mod 16)])
    (key ++ message).

(** The conversion on the strings the examples pass: the empty string is 0,
    a string of decimal digits is its value, anything else is read as NaN. *)
Definition sampleNumber (s : jsstring) : JsNumber :=
  if List.forallb isDigit s then JsFinite (Z.of_N (digitsValue s) # 1)
  else JsNaN.

(** A sanitizer for the examples: it trims, cuts at the maximal length and
    gives [null] for nothing left. *)
Definition sampleSanitize (input : option jsstring) (maxLength : nat)
  : option jsstring :=
  match input with
  | None => None
  | Some s => orNull (Some (List.firstn maxLength (trim s)))
  end.

(** A printer of instants for the examples: the milliseconds in decimal. *)
Definition sampleToISOString (ms : Z) : jsstring := numberToString ms.

Definition sampleEnv : Env :=
  {| PHONE_OTP_TTL_MINUTES := None; PHONE_OTP_SECRET := None;
     NEXTAUTH_SECRET := None |}.

Definition samplePhone : jsstring := js "+40711111111".

Definition sampleIssueInput : IssueInput :=
  {| issue_phoneNumber := samplePhone; issue_requestedByIp := None |}.

Definition sampleUsers : list User :=
  [ {| user_phoneNumber := Some samplePhone; user_phoneAuthEnabled := true |} ].

(** No gateway, no [NODE_ENV]; and a production setting with a gateway. *)
Definition sampleRouteEnv : RouteEnv :=
  {| SMS_WEBHOOK_URL := None; NODE_ENV := None; PHONE_OTP_DEBUG := None |}.

Definition sampleProductionEnv : RouteEnv :=
  {| SMS_WEBHOOK_URL := Some (js "https://sms.example/send");
     NODE_ENV := Some (js "production"); PHONE_OTP_DEBUG := None |}.

(** A request for a code at time [t], drawing [rnd], the row stamped [t];
    and a submission of [code] at time [t]. *)
Definition issueAt (t rnd : Z) : Op :=
  OpIssue sampleEnv t rnd t sampleIssueInput.

Definition verifyAt (t : Z) (code : string) : Op :=
  OpVerify sampleEnv t
    {| verify_phoneNumber := samplePhone; verify_code := js code |}.

Section PhoneAuth.

(** [createHmac('sha256', key).update(message).digest('hex')] of Node's
    [crypto]. *)
Variable hmacSha256Hex : jsstring -> jsstring -> jsstring.

(** [Number(s)] on a string: the language's string-to-number conversion. *)
Variable Number : jsstring -> JsNumber.

Definition getOtpTtlMinutes (env : Env) : Z :=
  let parsed :=
    match PHONE_OTP_TTL_MINUTES env with
    | Some s => Number s
    | None => JsFinite (5 # 1)
    end in
  match parsed with
  | JsFinite q => Z.max 1 (Z.min 15 (Qfloor q))
  | _ => 5
  end.

Definition hashOtpCode (env : Env) (phone code : jsstring) : jsstring :=
  hmacSha256Hex (getOtpSecret env) (phone ++ 58%N :: code).

(** The [where] clauses of the module. *)
Definition purgeable (now : Z) (r : PhoneLoginCode) : bool :=
  (expiresAt r <? now) || isSome (consumedAt r)
  || (MAX_VERIFY_ATTEMPTS <=? attempts r).

Definition recentFor (phone : jsstring) (windowStart : Z) (r : PhoneLoginCode) : bool :=
  jsstring_eqb (phoneNumber r) phone && (windowStart <=? createdAt r).

Definition isFor (phone : jsstring) (r : PhoneLoginCode) : bool :=
  jsstring_eqb (phoneNumber r) phone.

Definition activeFor (phone : jsstring) (now : Z) (r : PhoneLoginCode) : bool :=
  jsstring_eqb (phoneNumber r) phone && negb (isSome (consumedAt r))
  && (now <? expiresAt r).

Definition rateLimitError : HttpError :=
  mkHttpError 429
    (js "Prea multe coduri solicitate. Incearca din nou in cateva minute.").

Definition cooldownError (secondsSinceLast : Z) : HttpError :=
  mkHttpError 429
    (js "Asteapta " ++ numberToString (RESEND_COOLDOWN_SECONDS - secondsSinceLast)
     ++ js "s inainte de o noua solicitare").

(** [now] is [new Date()] at entry, [rnd] the value [randomInt(0, 10 ** 6)]
    returns and [stamp] the [createdAt] default the store gives the row. *)
Definition issuePhoneLoginCode (env : Env) (now rnd stamp : Z) (input : IssueInput)
  : M IssueOutput :=
  (let windowStart := now - REQUEST_WINDOW_MINUTES * 60 * 1000 in
   deleteMany (purgeable now) ;;
   recentCount <- count (recentFor (issue_phoneNumber input) windowStart) ;;
   (if MAX_REQUESTS_PER_WINDOW <=? recentCount then throw rateLimitError else ret tt) ;;
   latest <- findFirst (isFor (issue_phoneNumber input)) ;;
   match latest with
   | Some l =>
       let secondsSinceLast := (now - createdAt l) / 1000 in
       if secondsSinceLast <? RESEND_COOLDOWN_SECONDS
       then throw (cooldownError secondsSinceLast)
       else ret tt
   | None => ret tt
   end ;;
   let code := padStart (numberToString rnd) OTP_CODE_LENGTH in
   let expires := now + getOtpTtlMinutes env * 60 * 1000 in
   create (issue_phoneNumber input) (hashOtpCode env (issue_phoneNumber input) code)
          expires (issue_requestedByIp input) stamp ;;
   ret {| out_code := code; out_expiresAt := expires |})%store.

Definition verifyPhoneLoginCode (env : Env) (now : Z) (input : VerifyInput)
  : M bool :=
  (match normalizeOtpCode (verify_code input) with
   | Throw e => throw e
   | Ok normalizedCode =>
       activeCode <- findFirst (activeFor (verify_phoneNumber input) now) ;;
       match activeCode with
       | None => ret false
       | Some active =>
           if MAX_VERIFY_ATTEMPTS <=? attempts active then ret false
           else
             let expectedHash :=
               hashOtpCode env (verify_phoneNumber input) normalizedCode in
             let valid := secureEqualHex (codeHash active) expectedHash in
             if negb valid then
               update (id active) incrementAttempts ;; ret false
             else
               update (id active) (consume now) ;; ret true
       end
   end)%store.

(** ** Sequences of calls *)

Definition exec (op : Op) (s : Store) : Outcome * Store :=
  match op with
  | OpIssue env now rnd stamp input =>
      let (r, s') := issuePhoneLoginCode env now rnd stamp input s in (Issued r, s')
  | OpVerify env now input =>
      let (r, s') := verifyPhoneLoginCode env now input s in (Verified r, s')
  end.

Definition step (s : Store) (op : Op) : Store := snd (exec op s).

(** The store after the calls [ops], made one after the other. *)
Definition run (ops : list Op) (s : Store) : Store := List.fold_left step ops s.

(** What the calls returned, in order. *)
Fixpoint trace (ops : list Op) (s : Store) : list Outcome :=
  match ops with
  | [] => []
  | op :: ops' => fst (exec op s) :: trace ops' (step s op)
  end.

(** ** Predicates on stores *)

(** Primary keys are unique and below the next fresh key. *)
Definition keysFresh (s : Store) : Prop :=
  List.Forall (fun r => (id r < nextId s)%N) (rows s).

Definition wellFormed (s : Store) : Prop :=
  keysFresh s /\ List.NoDup (List.map id (rows s)).

Definition attemptsBounded (s : Store) : Prop :=
  List.Forall (fun r => 0 <= attempts r <= MAX_VERIFY_ATTEMPTS) (rows s).

(** The rows [deleteMany] of the issuer leaves. *)
Definition purge (now : Z) (s : Store) : Store :=
  {| rows := List.filter (fun r => negb (purgeable now r)) (rows s);
     nextId := nextId s |}.

(** The row [verifyPhoneLoginCode] selects. *)
Definition activeCode (phone : jsstring) (now : Z) (s : Store)
  : option PhoneLoginCode :=
  newest (List.filter (activeFor phone now) (rows s)).

(** A string of exactly six decimal digits. *)
Definition sixDigits (s : jsstring) : Prop :=
  List.length s = 6%nat /\ List.Forall (fun c => isDigit c = true) s.

(** The store after [update({ where: { id: key }, data })]. *)
Definition updateRow (key : N) (data : PhoneLoginCode -> PhoneLoginCode)
  (s : Store) : Store :=
  {| rows := List.map (fun r => if N.eqb (id r) key then data r else r) (rows s);
     nextId := nextId s |}.

(** What the issuer reads from the purged store. *)
Definition recentCount (phone : jsstring) (now : Z) (s : Store) : Z :=
  Z.of_nat (List.length
    (List.filter (recentFor phone (now - REQUEST_WINDOW_MINUTES * 60 * 1000)) (rows s))).

Definition latestFor (phone : jsstring) (s : Store) : option PhoneLoginCode :=
  newest (List.filter (isFor phone) (rows s)).

(** The code the issuer derives from the random integer, and the row it
    creates for it in the (purged) store [s]. *)
Definition issuedCode (rnd : Z) : jsstring :=
  padStart (numberToString rnd) OTP_CODE_LENGTH.

Definition createdRow (env : Env) (now rnd stamp : Z) (input : IssueInput)
  (s : Store) : PhoneLoginCode :=
  newRow (nextId s) (issue_phoneNumber input)
    (hashOtpCode env (issue_phoneNumber input) (issuedCode rnd))
    (now + getOtpTtlMinutes env * 60 * 1000) (issue_requestedByIp input) stamp.

(** The row [r] after [k] counted attempts. *)
Definition withAttempts (k : Z) (r : PhoneLoginCode) : PhoneLoginCode :=
  {| id := id r; phoneNumber := phoneNumber r; codeHash := codeHash r;
     expiresAt := expiresAt r; attempts := k; consumedAt := consumedAt r;
     requestedByIp := requestedByIp r; createdAt := createdAt r |}.

(** A row that nothing changes any more: every row of [s] under its key is
    the row itself. *)
Definition frozen (r : PhoneLoginCode) (s : Store) : Prop :=
  forall r', List.In r' (rows s) -> id r' = id r -> r' = r.

(** [r] is sealed in [s]: the store is well formed, the key of [r] has been
    given out, and [r] is frozen. *)
Definition sealed (r : PhoneLoginCode) (s : Store) : Prop :=
  wellFormed s /\ (id r < nextId s)%N /\ frozen r s.

(** ** Phone number normalization

    [sanitizeOptionalText] comes from the sanitizing module, which this
    development takes as given. *)
Variable sanitizeOptionalText : option jsstring -> nat -> option jsstring.

Definition invalidPhoneError : HttpError :=
  mkHttpError 400 (js "Numar de telefon invalid").

Definition normalizePhoneNumber (input : option jsstring) : result (option jsstring) :=
  match sanitizeOptionalText input 32 with
  | None | Some [] => Ok None
  | Some cleaned =>
      if negb (testPhoneAllowed cleaned) then Throw invalidPhoneError
      else
        let normalized := stripPhoneSeparators cleaned in
        let normalized :=
          if startsWith (js "00") normalized
          then 43%N :: List.skipn 2 normalized else normalized in
        let normalized :=
          if negb (startsWith (js "+") normalized)
          then 43%N :: normalized else normalized in
        if negb (testPhoneE164 normalized) then Throw invalidPhoneError
        else Ok (Some normalized)
  end.

(** ** The request-code handler

    [Date.prototype.toISOString] is taken as given. *)
Variable toISOString : Z -> jsstring.

Definition unknownNumberResponse : RouteResponse :=
  {| resp_ok := true;
     resp_message := js "Daca numarul exista in sistem, codul a fost trimis.";
     resp_expiresAt := None; resp_debugCode := None |}.

(** The body of the [try] block.  [body] is the [phoneNumber] member of the
    request's JSON when it is a string ([None] for every body the schema
    rejects outright); [forwarded] and [realIp] are the two headers;
    [gateway] is what the call to the gateway, if one is made, comes back
    with.  The result is the outcome, the code table and what was
    dispatched. *)
Definition requestCode (env : Env) (renv : RouteEnv) (users : list User)
  (now rnd stamp : Z) (gateway : FetchOutcome)
  (forwarded realIp body : option jsstring) (s : Store)
  : RouteOutcome * Store * list Dispatch :=
  match body with
  | None => (ThrewSchema, s, [])
  | Some raw =>
      if negb (Nat.leb 7 (List.length raw) && Nat.leb (List.length raw) 32)
      then (ThrewSchema, s, [])
      else
        match normalizePhoneNumber (Some raw) with
        | Throw e => (ThrewHttp e, s, [])
        | Ok None | Ok (Some []) => (ThrewHttp invalidPhoneError, s, [])
        | Ok (Some phoneNumber) =>
            if negb (findPhoneUser users phoneNumber)
            then (Responded unknownNumberResponse, s, [])
            else
              match issuePhoneLoginCode env now rnd stamp
                      {| issue_phoneNumber := phoneNumber;
                         issue_requestedByIp := getRequestIp forwarded realIp |} s
              with
              | (Throw e, s1) => (ThrewHttp e, s1, [])
              | (Ok result, s1) =>
                  match dispatchPhoneCode renv gateway phoneNumber (out_code result) with
                  | (Some failure, sent) => (failure, s1, sent)
                  | (None, sent) =>
                      let allowDebugCode :=
                        differsFrom (NODE_ENV renv) (js "production")
                        && differsFrom (PHONE_OTP_DEBUG renv) (js "false") in
                      (Responded
                         {| resp_ok := true;
                            resp_message :=
                              js "Codul de autentificare a fost trimis catre "
                              ++ maskPhoneNumber (Some phoneNumber) ++ js ".";
                            resp_expiresAt := Some (toISOString (out_expiresAt result));
                            resp_debugCode :=
                              if allowDebugCode then Some (out_code result) else None |},
                       s1, sent)
                  end
              end
        end
  end.

(** ** Notions for the further properties *)

(** A number in the form the normalizer returns: a plus sign and 8 to 15
    digits. *)
Definition isE164 (s : jsstring) : Prop :=
  exists digits, s = 43%N :: digits
                 /\ (8 <= List.length digits <= 15)%nat
                 /\ List.Forall (fun c => isDigit c = true) digits.

(** The text the keyed hash is taken of. *)
Definition otpMessage (phone code : jsstring) : jsstring := phone ++ 58%N :: code.

(** A digest as [digest('hex')] prints it: lower-case hexadecimal digits,
    two per byte. *)
Definition isLowerHex (c : N) : bool :=
  (N.leb 48 c && N.leb c 57 || N.leb 97 c && N.leb c 102)%bool.

Definition isHexDigest (s : jsstring) : Prop :=
  Nat.Even (List.length s) /\ List.Forall (fun c => isLowerHex c = true) s.

(** The rows of one phone number. *)
Definition restrictTo (phone : jsstring) (s : Store) : Store :=
  {| rows := List.filter (isFor phone) (rows s); nextId := nextId s |}.

(** What no call of the verifier changes in a row. *)
Definition rowCore (r : PhoneLoginCode)
  : N * jsstring * jsstring * Z * option jsstring * Z :=
  (id r, phoneNumber r, codeHash r, expiresAt r, requestedByIp r, createdAt r).

(** The store stamps a row not before the call that creates it read the
    clock. *)
Definition clockSane (op : Op) : Prop :=
  match op with
  | OpIssue _ now _ stamp _ => now <= stamp
  | OpVerify _ _ _ => True
  end.

(** What holds of every table reached with sane clocks: keys are well
    formed, a row expires at most 15 minutes after its creation, two rows of
    one phone number were created at least a cooldown apart, and a phone
    number has at most five rows. *)
Definition orderly (s : Store) : Prop :=
  wellFormed s
  /\ (forall r, List.In r (rows s) -> expiresAt r <= createdAt r + 900000)
  /\ (forall r1 r2, List.In r1 (rows s) -> List.In r2 (rows s) ->
         phoneNumber r1 = phoneNumber r2 ->
         id r1 = id r2 \/ 60000 <= Z.abs (createdAt r1 - createdAt r2))
  /\ (forall p, (List.length (List.filter (isFor p) (rows s)) <= 5)%nat).

(** * Properties *)

(** ** Strings, digits and the code format *)

Lemma jsstring_eqb_eq (a b : jsstring) : jsstring_eqb a b = true <-> a = b.
Proof.
  revert b; induction a as [|x a IH]; intros [|y b]; simpl; split;
    try congruence; try reflexivity.
  - intros H. apply andb_true_iff in H as [Hx Hab].
    apply N.eqb_eq in Hx. apply IH in Hab. congruence.
  - intros H. injection H as -> ->. rewrite N.eqb_refl. simpl. now apply IH.
Qed.

Lemma jsstring_eqb_refl (a : jsstring) : jsstring_eqb a a = true.
Proof. now apply jsstring_eqb_eq. Qed.

Lemma testDigits_spec (n : nat) (s : jsstring) :
  testDigits n s = true <->
  List.length s = n /\ List.Forall (fun c => isDigit c = true) s.
Proof.
  revert s; induction n as [|n IH]; intros [|c s]; simpl.
  - split; auto.
  - split; [discriminate | intros [H _]; discriminate].
  - split; [discriminate | intros [H _]; discriminate].
  - rewrite andb_true_iff, IH. split.
    + intros [Hc [Hl Hf]]. split; [congruence | now constructor].
    + intros [Hl Hf]. inversion Hf; subst. repeat split; auto.
Qed.

Lemma testDigits_sixDigits (s : jsstring) :
  testDigits OTP_CODE_LENGTH s = true <-> sixDigits s.
Proof. apply testDigits_spec. Qed.

Lemma isDigit_not_space (c : N) : isDigit c = true -> isWhiteSpace c = false.
Proof.
  unfold isDigit, isWhiteSpace. intros H.
  apply andb_true_iff in H as [H1 H2].
  apply N.leb_le in H1. apply N.leb_le in H2.
  repeat match goal with
         | |- context [N.leb ?a ?b] => destruct (N.leb_spec a b); try lia
         | |- context [N.eqb ?a ?b] => destruct (N.eqb_spec a b); try lia
         end.
Qed.

Lemma stripWhiteSpace_digits (s : jsstring) :
  List.Forall (fun c => isDigit c = true) s -> stripWhiteSpace s = s.
Proof.
  unfold stripWhiteSpace. induction 1 as [|c s Hc _ IH]; simpl; auto.
  rewrite (isDigit_not_space c Hc). simpl. now rewrite IH.
Qed.

Lemma digitsFuel_app (fuel : nat) (n : N) (acc : jsstring) :
  digitsFuel fuel n acc = digitsFuel fuel n [] ++ acc.
Proof.
  revert n acc; induction fuel as [|fuel IH]; intros n acc;
    cbn [digitsFuel]; cbv zeta; auto.
  destruct (N.eqb (n / 10) 0); auto.
  rewrite IH, (IH _ [_]). now rewrite <- app_assoc.
Qed.

Lemma digitsFuel_digits (fuel : nat) (n : N) (acc : jsstring) :
  List.Forall (fun c => isDigit c = true) acc ->
  List.Forall (fun c => isDigit c = true) (digitsFuel fuel n acc).
Proof.
  revert n acc; induction fuel as [|fuel IH]; intros n acc Hacc;
    cbn [digitsFuel]; cbv zeta; auto.
  assert (Hd : isDigit (48 + n mod 10) = true).
  { unfold isDigit. assert (n mod 10 < 10)%N by (apply N.mod_upper_bound; lia).
    generalize dependent (n mod 10)%N. intros d Hd.
    apply andb_true_iff; split; apply N.leb_le; lia. }
  destruct (N.eqb (n / 10) 0); [|apply IH]; now constructor.
Qed.

Lemma digitsFuel_length (fuel : nat) (n : N) (acc : jsstring) (k : nat) :
  (n < 10 ^ N.of_nat (S k))%N ->
  (List.length (digitsFuel fuel n acc) <= S k + List.length acc)%nat.
Proof.
  revert n acc k; induction fuel as [|fuel IH]; intros n acc k Hn;
    cbn [digitsFuel]; cbv zeta; [lia|].
  destruct (N.eqb_spec (n / 10) 0) as [E|E]; cbn [List.length]; [lia|].
  destruct k as [|k].
  - exfalso. apply E. apply N.div_small. simpl in Hn. lia.
  - assert (Hq : (n / 10 < 10 ^ N.of_nat (S k))%N).
    { apply N.Div0.div_lt_upper_bound.
      replace (N.of_nat (S (S k))) with (N.succ (N.of_nat (S k))) in Hn by lia.
      now rewrite N.pow_succ_r' in Hn. }
    specialize (IH _ ((48 + n mod 10)%N :: acc) _ Hq).
    cbn [List.length] in IH. lia.
Qed.

Lemma digitsValue_snoc (s : jsstring) (c : N) :
  digitsValue (s ++ [c]) = (10 * digitsValue s + (c - 48))%N.
Proof. unfold digitsValue. now rewrite fold_left_app. Qed.

Lemma digitsFuel_value (fuel : nat) (n : N) :
  (n < 2 ^ N.of_nat fuel)%N -> digitsValue (digitsFuel fuel n []) = n.
Proof.
  revert n; induction fuel as [|fuel IH]; intros n Hn.
  - simpl in *. assert (n = 0%N) by lia. now subst.
  - cbn [digitsFuel]. cbv zeta.
    assert (Hdm : (n = 10 * (n / 10) + n mod 10)%N) by apply N.div_mod'.
    assert (Hq : (n / 10 < 2 ^ N.of_nat fuel)%N).
    { replace (N.of_nat (S fuel)) with (N.succ (N.of_nat fuel)) in Hn by lia.
      rewrite N.pow_succ_r' in Hn.
      apply N.Div0.div_lt_upper_bound. lia. }
    specialize (IH _ Hq).
    destruct (N.eqb_spec (n / 10) 0) as [E|E].
    + unfold digitsValue. cbn [List.fold_left].
      generalize dependent (n mod 10)%N. intros d. rewrite E. lia.
    + rewrite digitsFuel_app, digitsValue_snoc, IH.
      generalize dependent (n mod 10)%N. generalize dependent (n / 10)%N.
      intros q _ _ _ d. lia.
Qed.

(** The fuel of [decimalDigits] is enough: the digits denote the number. *)
Lemma decimalDigits_value (n : N) : digitsValue (decimalDigits n) = n.
Proof.
  unfold decimalDigits. apply digitsFuel_value.
  destruct (N.eq_dec n 0) as [->|Hn]; [reflexivity|].
  replace (N.of_nat (S (N.to_nat (N.log2 n)))) with (N.succ (N.log2 n)) by lia.
  apply N.log2_spec. lia.
Qed.

Lemma padStart_sixDigits (s : jsstring) :
  (List.length s <= 6)%nat -> List.Forall (fun c => isDigit c = true) s ->
  sixDigits (padStart s OTP_CODE_LENGTH).
Proof.
  intros Hl Hd. unfold sixDigits, padStart, OTP_CODE_LENGTH. split.
  - rewrite length_app, repeat_length. lia.
  - apply Forall_app. split; auto.
    apply Forall_forall. intros c Hc. apply repeat_spec in Hc. now subst.
Qed.

(** Every value [randomInt(0, 10 ** 6)] can return is printed and padded to
    six digits. *)
Lemma code_sixDigits (rnd : Z) :
  0 <= rnd < 10 ^ 6 -> sixDigits (issuedCode rnd).
Proof.
  intros Hr. unfold issuedCode, numberToString.
  destruct (Z.ltb_spec rnd 0); [lia|].
  apply padStart_sixDigits.
  - unfold decimalDigits.
    pose proof (digitsFuel_length (S (N.to_nat (N.log2 (Z.to_N rnd))))
                  (Z.to_N rnd) [] 5) as Hlen.
    simpl List.length in Hlen. rewrite Nat.add_0_r in Hlen. apply Hlen.
    change (10 ^ N.of_nat 6)%N with (Z.to_N (10 ^ 6)). lia.
  - apply digitsFuel_digits. constructor.
Qed.

Lemma normalizeOtpCode_sixDigits (c : jsstring) :
  sixDigits c -> normalizeOtpCode c = Ok c.
Proof.
  intros H. unfold normalizeOtpCode.
  rewrite (stripWhiteSpace_digits c (proj2 H)).
  apply testDigits_sixDigits in H. now rewrite H.
Qed.

Lemma normalizeOtpCode_Ok (input c : jsstring) :
  normalizeOtpCode input = Ok c -> c = stripWhiteSpace input /\ sixDigits c.
Proof.
  unfold normalizeOtpCode.
  destruct (testDigits OTP_CODE_LENGTH (stripWhiteSpace input)) eqn:E; simpl;
    [|discriminate].
  intros H; injection H as <-. split; auto. now apply testDigits_sixDigits.
Qed.

Lemma normalizeOtpCode_Throw (input : jsstring) :
  ~ sixDigits (stripWhiteSpace input) ->
  normalizeOtpCode input = Throw (mkHttpError 400 (js "Codul trebuie sa aiba 6 cifre")).
Proof.
  intros H. unfold normalizeOtpCode.
  destruct (testDigits OTP_CODE_LENGTH (stripWhiteSpace input)) eqn:E; auto.
  exfalso. apply H. now apply testDigits_sixDigits.
Qed.

Lemma timingSafeEqual_refl (b : list N) : timingSafeEqual b b = true.
Proof. induction b; simpl; auto. now rewrite N.eqb_refl. Qed.

Lemma secureEqualHex_refl (h : jsstring) : secureEqualHex h h = true.
Proof.
  unfold secureEqualHex. rewrite Nat.eqb_refl. simpl. apply timingSafeEqual_refl.
Qed.

(** ** The two operations in direct style *)

Lemma issuePhoneLoginCode_eq (env : Env) (now rnd stamp : Z) (input : IssueInput)
  (s : Store) :
  issuePhoneLoginCode env now rnd stamp input s =
  let s1 := purge now s in
  let issued :=
    (Ok {| out_code := issuedCode rnd;
           out_expiresAt := now + getOtpTtlMinutes env * 60 * 1000 |},
     {| rows := rows s1 ++ [createdRow env now rnd stamp input s1];
        nextId := N.succ (nextId s1) |}) in
  if MAX_REQUESTS_PER_WINDOW <=? recentCount (issue_phoneNumber input) now s1
  then (Throw rateLimitError, s1)
  else match latestFor (issue_phoneNumber input) s1 with
       | Some l =>
           if (now - createdAt l) / 1000 <? RESEND_COOLDOWN_SECONDS
           then (Throw (cooldownError ((now - createdAt l) / 1000)), s1)
           else issued
       | None => issued
       end.
Proof.
  unfold issuePhoneLoginCode, bind, deleteMany, count, findFirst, create, ret,
    throw, recentCount, latestFor, createdRow, issuedCode, purge.
  cbv zeta. cbn [rows nextId].
  destruct (MAX_REQUESTS_PER_WINDOW <=? _); [reflexivity|].
  destruct (newest _) as [l|]; [|reflexivity].
  destruct (_ <? RESEND_COOLDOWN_SECONDS); reflexivity.
Qed.

Lemma verifyPhoneLoginCode_eq (env : Env) (now : Z) (input : VerifyInput) (s : Store) :
  verifyPhoneLoginCode env now input s =
  match normalizeOtpCode (verify_code input) with
  | Throw e => (Throw e, s)
  | Ok c =>
      match activeCode (verify_phoneNumber input) now s with
      | None => (Ok false, s)
      | Some a =>
          if MAX_VERIFY_ATTEMPTS <=? attempts a then (Ok false, s)
          else if secureEqualHex (codeHash a)
                    (hashOtpCode env (verify_phoneNumber input) c)
               then (Ok true, updateRow (id a) (consume now) s)
               else (Ok false, updateRow (id a) incrementAttempts s)
      end
  end.
Proof.
  unfold verifyPhoneLoginCode, bind, findFirst, update, ret, throw, activeCode,
    updateRow.
  destruct (normalizeOtpCode _); [|reflexivity].
  destruct (newest _) as [active|]; [|reflexivity].
  destruct (MAX_VERIFY_ATTEMPTS <=? _); [reflexivity|].
  destruct (secureEqualHex _ _); reflexivity.
Qed.

(** ** The newest row of a list *)

Lemma fold_newer_Some (l : list PhoneLoginCode) (b : PhoneLoginCode) :
  exists r, List.fold_left newer l (Some b) = Some r
            /\ (r = b \/ List.In r l)
            /\ createdAt b <= createdAt r
            /\ (forall x, List.In x l -> createdAt x <= createdAt r).
Proof.
  revert b; induction l as [|y l IH]; intros b; simpl.
  - exists b. repeat split; auto; try lia; intros x [].
  - destruct (Z.ltb_spec (createdAt b) (createdAt y)).
    + destruct (IH y) as (r & Hr & Hin & Hb & Hmax). exists r.
      repeat split; auto; try lia.
      * destruct Hin; auto.
      * intros x [<-|Hx]; auto.
    + destruct (IH b) as (r & Hr & Hin & Hb & Hmax). exists r.
      repeat split; auto.
      * destruct Hin; auto.
      * intros x [<-|Hx]; auto. lia.
Qed.

Lemma newest_Some (l : list PhoneLoginCode) (r : PhoneLoginCode) :
  newest l = Some r ->
  List.In r l /\ (forall x, List.In x l -> createdAt x <= createdAt r).
Proof.
  unfold newest. destruct l as [|b l]; simpl; [discriminate|].
  destruct (fold_newer_Some l b) as (r' & Hr & Hin & Hb & Hmax).
  rewrite Hr. intros H; injection H as <-. split.
  - destruct Hin; auto.
  - intros x [<-|Hx]; auto.
Qed.

Lemma newest_None (l : list PhoneLoginCode) : newest l = None -> l = [].
Proof.
  unfold newest. destruct l as [|b l]; simpl; auto.
  destruct (fold_newer_Some l b) as (r' & Hr & _). rewrite Hr. discriminate.
Qed.

(** A row strictly newer than every other row of the list is the one found. *)
Lemma newest_strict (l : list PhoneLoginCode) (r : PhoneLoginCode) :
  List.In r l ->
  (forall x, List.In x l -> x = r \/ createdAt x < createdAt r) ->
  newest l = Some r.
Proof.
  intros Hin Hmax. destruct (newest l) as [r'|] eqn:E.
  - apply newest_Some in E as [Hin' Hmax'].
    destruct (Hmax r' Hin') as [->|Hlt]; auto.
    specialize (Hmax' r Hin). lia.
  - apply newest_None in E. subst. destruct Hin.
Qed.

(** ** Keys *)

Lemma wellFormed_empty : wellFormed emptyStore.
Proof. split; [constructor | constructor]. Qed.

Lemma purge_rows_incl (now : Z) (s : Store) (r : PhoneLoginCode) :
  List.In r (rows (purge now s)) -> List.In r (rows s) /\ purgeable now r = false.
Proof.
  unfold purge; cbn [rows]. intros H. apply filter_In in H as [H1 H2].
  split; auto. now apply negb_true_iff.
Qed.

Lemma NoDup_map_filter {A B} (f : A -> B) (p : A -> bool) (l : list A) :
  List.NoDup (List.map f l) -> List.NoDup (List.map f (List.filter p l)).
Proof.
  induction l as [|a l IH]; simpl; auto.
  intros H. inversion H as [|? ? Hn Hd]; subst.
  destruct (p a); simpl; auto. constructor; auto.
  intros Hin. apply Hn. apply in_map_iff in Hin as (x & Hx & Hin).
  apply in_map_iff. exists x. split; auto. now apply filter_In in Hin as [? _].
Qed.

Lemma wellFormed_purge (now : Z) (s : Store) :
  wellFormed s -> wellFormed (purge now s).
Proof.
  intros [Hk Hd]. split.
  - unfold keysFresh, purge in *; cbn [rows nextId].
    apply Forall_forall. intros r Hr. apply filter_In in Hr as [Hr _].
    revert r Hr. now apply Forall_forall.
  - unfold purge; cbn [rows]. now apply NoDup_map_filter.
Qed.

Lemma updateRow_ids (key : N) (data : PhoneLoginCode -> PhoneLoginCode) (s : Store) :
  (forall r, id (data r) = id r) ->
  List.map id (rows (updateRow key data s)) = List.map id (rows s).
Proof.
  intros Hid. unfold updateRow; cbn [rows]. rewrite map_map.
  apply map_ext. intros r. destruct (N.eqb (id r) key); auto.
Qed.

Lemma wellFormed_updateRow (key : N) (data : PhoneLoginCode -> PhoneLoginCode)
  (s : Store) :
  (forall r, id (data r) = id r) -> wellFormed s -> wellFormed (updateRow key data s).
Proof.
  intros Hid [Hk Hd]. split.
  - unfold keysFresh in *. apply Forall_forall. intros r Hr.
    assert (Hin : List.In (id r) (List.map id (rows (updateRow key data s))))
      by now apply in_map.
    rewrite updateRow_ids in Hin by assumption.
    apply in_map_iff in Hin as (x & Hx & Hin). rewrite <- Hx.
    cbn [nextId updateRow]. rewrite Forall_forall in Hk. now apply Hk.
  - now rewrite updateRow_ids.
Qed.

Lemma wellFormed_create (s : Store) (r : PhoneLoginCode) :
  id r = nextId s -> wellFormed s ->
  wellFormed {| rows := rows s ++ [r]; nextId := N.succ (nextId s) |}.
Proof.
  intros Hr [Hk Hd]. unfold keysFresh in Hk. split.
  - unfold keysFresh; cbn [rows nextId]. apply Forall_app. split.
    + eapply Forall_impl; [|exact Hk]. cbv beta. intros; lia.
    + constructor; [lia | constructor].
  - cbn [rows]. rewrite map_app. cbn [List.map].
    apply NoDup_app; [exact Hd | repeat constructor; intros [] |].
    intros k Hin [<-|[]]. apply in_map_iff in Hin as (x & Hx & Hin).
    rewrite Forall_forall in Hk. specialize (Hk x Hin). lia.
Qed.

(** In a well-formed store an update by key touches the one row it names. *)
Lemma updateRow_In (key : N) (data : PhoneLoginCode -> PhoneLoginCode)
  (s : Store) (r' : PhoneLoginCode) :
  List.In r' (rows (updateRow key data s)) ->
  exists r, List.In r (rows s)
            /\ ((id r = key /\ r' = data r) \/ (id r <> key /\ r' = r)).
Proof.
  unfold updateRow; cbn [rows]. intros H.
  apply in_map_iff in H as (r & Hr & Hin). exists r. split; auto.
  destruct (N.eqb_spec (id r) key); auto.
Qed.

Lemma updateRow_In_data (key : N) (data : PhoneLoginCode -> PhoneLoginCode)
  (s : Store) (r : PhoneLoginCode) :
  List.In r (rows s) -> id r = key -> List.In (data r) (rows (updateRow key data s)).
Proof.
  intros Hin Hk. unfold updateRow; cbn [rows]. apply in_map_iff.
  exists r. split; auto. now rewrite Hk, N.eqb_refl.
Qed.

Lemma updateRow_In_other (key : N) (data : PhoneLoginCode -> PhoneLoginCode)
  (s : Store) (r : PhoneLoginCode) :
  List.In r (rows s) -> id r <> key -> List.In r (rows (updateRow key data s)).
Proof.
  intros Hin Hk. unfold updateRow; cbn [rows]. apply in_map_iff.
  exists r. split; auto. destruct (N.eqb_spec (id r) key); congruence.
Qed.

Lemma wellFormed_same_key (s : Store) (a b : PhoneLoginCode) :
  wellFormed s -> List.In a (rows s) -> List.In b (rows s) -> id a = id b -> a = b.
Proof.
  intros [_ Hd]. revert Hd. induction (rows s) as [|x l IH]; simpl; [tauto|].
  intros Hd Ha Hb Hab. inversion Hd as [|? ? Hn Hd']; subst.
  destruct Ha as [->|Ha], Hb as [->|Hb]; auto.
  - exfalso. apply Hn. rewrite Hab. now apply in_map.
  - exfalso. apply Hn. rewrite <- Hab. now apply in_map.
Qed.

(** ** Time to live *)

Lemma getOtpTtlMinutes_range (env : Env) : 1 <= getOtpTtlMinutes env <= 15.
Proof.
  unfold getOtpTtlMinutes.
  destruct (match PHONE_OTP_TTL_MINUTES env with
            | Some s => Number s
            | None => JsFinite (5 # 1)
            end); lia.
Qed.

Lemma getOtpTtlMinutes_unset (env : Env) :
  PHONE_OTP_TTL_MINUTES env = None -> getOtpTtlMinutes env = 5.
Proof. unfold getOtpTtlMinutes. intros ->. reflexivity. Qed.

Lemma getOtpTtlMinutes_NaN (env : Env) (v : jsstring) :
  PHONE_OTP_TTL_MINUTES env = Some v -> Number v = JsNaN ->
  getOtpTtlMinutes env = 5.
Proof. unfold getOtpTtlMinutes. intros -> ->. reflexivity. Qed.

(** ** Both operations keep the store well formed *)

Lemma step_issue (s : Store) (env : Env) (now rnd stamp : Z) (input : IssueInput) :
  step s (OpIssue env now rnd stamp input)
  = snd (issuePhoneLoginCode env now rnd stamp input s).
Proof.
  unfold step, exec. now destruct (issuePhoneLoginCode env now rnd stamp input s).
Qed.

Lemma step_verify (s : Store) (env : Env) (now : Z) (input : VerifyInput) :
  step s (OpVerify env now input) = snd (verifyPhoneLoginCode env now input s).
Proof.
  unfold step, exec. now destruct (verifyPhoneLoginCode env now input s).
Qed.

Lemma wellFormed_issue (env : Env) (now rnd stamp : Z) (input : IssueInput) (s : Store) :
  wellFormed s -> wellFormed (snd (issuePhoneLoginCode env now rnd stamp input s)).
Proof.
  intros Hwf. apply (wellFormed_purge now) in Hwf.
  rewrite issuePhoneLoginCode_eq. cbv zeta.
  destruct (MAX_REQUESTS_PER_WINDOW <=? _); [exact Hwf|].
  destruct (latestFor _ _) as [l|];
    [destruct (_ <? RESEND_COOLDOWN_SECONDS); [exact Hwf|]|];
    cbn [snd]; now apply wellFormed_create.
Qed.

Lemma wellFormed_verify (env : Env) (now : Z) (input : VerifyInput) (s : Store) :
  wellFormed s -> wellFormed (snd (verifyPhoneLoginCode env now input s)).
Proof.
  intros Hwf. rewrite verifyPhoneLoginCode_eq.
  destruct (normalizeOtpCode _); [|exact Hwf].
  destruct (activeCode _ _ _) as [active|]; [|exact Hwf].
  destruct (MAX_VERIFY_ATTEMPTS <=? _); [exact Hwf|].
  destruct (secureEqualHex _ _); cbn [snd];
    now apply wellFormed_updateRow.
Qed.

Lemma wellFormed_step (s : Store) (op : Op) : wellFormed s -> wellFormed (step s op).
Proof.
  destruct op; [rewrite step_issue | rewrite step_verify];
    auto using wellFormed_issue, wellFormed_verify.
Qed.

Lemma wellFormed_run (ops : list Op) (s : Store) :
  wellFormed s -> wellFormed (run ops s).
Proof.
  revert s; induction ops as [|op ops IH]; intros s Hwf; simpl; auto.
  apply IH. now apply wellFormed_step.
Qed.

(** The selected row is a row of the store, for the phone number asked,
    neither consumed nor expired. *)
Lemma activeCode_Some (phone : jsstring) (now : Z) (s : Store) (a : PhoneLoginCode) :
  activeCode phone now s = Some a ->
  List.In a (rows s) /\ phoneNumber a = phone /\ consumedAt a = None
  /\ now < expiresAt a.
Proof.
  unfold activeCode. intros H. apply newest_Some in H as [H _].
  apply filter_In in H as [Hin Hact]. unfold activeFor in Hact.
  apply andb_true_iff in Hact as [Hact Hexp].
  apply andb_true_iff in Hact as [Hph Hcons].
  apply jsstring_eqb_eq in Hph. apply Z.ltb_lt in Hexp.
  destruct (consumedAt a); [discriminate|]. auto.
Qed.

(** ** The attempt counter stays within bounds *)

Lemma attemptsBounded_issue (env : Env) (now rnd stamp : Z) (input : IssueInput)
  (s : Store) :
  attemptsBounded s ->
  attemptsBounded (snd (issuePhoneLoginCode env now rnd stamp input s)).
Proof.
  intros Hb.
  assert (Hp : attemptsBounded (purge now s)).
  { unfold attemptsBounded in *. apply Forall_forall. intros r Hr.
    apply purge_rows_incl in Hr as [Hr _]. rewrite Forall_forall in Hb. auto. }
  assert (Hc : attemptsBounded
                 {| rows := rows (purge now s)
                            ++ [createdRow env now rnd stamp input (purge now s)];
                    nextId := N.succ (nextId (purge now s)) |}).
  { unfold attemptsBounded in *. cbn [rows]. apply Forall_app. split; auto.
    constructor; [|constructor]. unfold MAX_VERIFY_ATTEMPTS. simpl. lia. }
  rewrite issuePhoneLoginCode_eq. cbv zeta.
  destruct (MAX_REQUESTS_PER_WINDOW <=? _); [exact Hp|].
  destruct (latestFor _ _) as [l|];
    [destruct (_ <? RESEND_COOLDOWN_SECONDS); [exact Hp|]|]; exact Hc.
Qed.

Lemma attemptsBounded_updateRow (s : Store) (a : PhoneLoginCode)
  (data : PhoneLoginCode -> PhoneLoginCode) :
  wellFormed s -> attemptsBounded s -> List.In a (rows s) ->
  attempts a < MAX_VERIFY_ATTEMPTS -> attempts (data a) = attempts a + 1 ->
  attemptsBounded (updateRow (id a) data s).
Proof.
  intros Hwf Hb Hin Hlt Hdata. unfold attemptsBounded in *.
  rewrite Forall_forall in Hb. apply Forall_forall. intros r' Hr'.
  apply updateRow_In in Hr' as (r & Hr & [[Hk ->]|[Hk ->]]); auto.
  assert (r = a) by (eapply wellFormed_same_key; eauto). subst r.
  specialize (Hb a Hin). lia.
Qed.

Lemma attemptsBounded_verify (env : Env) (now : Z) (input : VerifyInput) (s : Store) :
  wellFormed s -> attemptsBounded s ->
  attemptsBounded (snd (verifyPhoneLoginCode env now input s)).
Proof.
  intros Hwf Hb. rewrite verifyPhoneLoginCode_eq.
  destruct (normalizeOtpCode _); [|exact Hb].
  destruct (activeCode _ _ _) as [active|] eqn:Ha; [|exact Hb].
  apply activeCode_Some in Ha as (Hin & _).
  destruct (Z.leb_spec MAX_VERIFY_ATTEMPTS (attempts active)); [exact Hb|].
  destruct (secureEqualHex _ _); cbn [snd];
    now apply attemptsBounded_updateRow.
Qed.

Lemma attemptsBounded_run (ops : list Op) (s : Store) :
  wellFormed s -> attemptsBounded s -> attemptsBounded (run ops s).
Proof.
  revert s; induction ops as [|op ops IH]; intros s Hwf Hb; simpl; auto.
  apply IH; [now apply wellFormed_step|].
  destruct op; [rewrite step_issue | rewrite step_verify];
    auto using attemptsBounded_issue, attemptsBounded_verify.
Qed.

(** C9.  Whatever calls of the issuer and of the verifier are made, one
    after the other, on the empty table, with whatever environment, clock
    readings, random integers and inputs, the attempt counter of every row
    of the table is between 0 and the maximum of 5. *)
Theorem attempts_within_maximum (ops : list Op) :
  List.Forall (fun r => 0 <= attempts r <= MAX_VERIFY_ATTEMPTS)
    (rows (run ops emptyStore)).
Proof.
  apply (attemptsBounded_run ops emptyStore).
  - exact wellFormed_empty.
  - constructor.
Qed.

(** C8.  A submitted code that is not exactly six digits once its white
    space is removed makes the verifier throw the validation error 400; the
    outcome is the same whatever the table holds, and the table is
    returned as it was. *)
Theorem malformed_code_rejected (env : Env) (now : Z) (input : VerifyInput)
  (s : Store) :
  ~ sixDigits (stripWhiteSpace (verify_code input)) ->
  verifyPhoneLoginCode env now input s
  = (Throw (mkHttpError 400 (js "Codul trebuie sa aiba 6 cifre")), s).
Proof.
  intros H. rewrite verifyPhoneLoginCode_eq.
  now rewrite (normalizeOtpCode_Throw _ H).
Qed.


(** ** What a successful issuance tells *)

(** Whole seconds against the cooldown: [Math.floor(ms / 1000) < 60] says
    that fewer than 60000 milliseconds passed. *)
Lemma seconds_lt_cooldown (ms : Z) :
  ms / 1000 < RESEND_COOLDOWN_SECONDS <-> ms < 60000.
Proof.
  unfold RESEND_COOLDOWN_SECONDS.
  pose proof (Z.mod_pos_bound ms 1000 ltac:(lia)) as Hm.
  pose proof (Z.div_mod ms 1000 ltac:(lia)) as Hd.
  split; intros H; [lia|]. apply Z.div_lt_upper_bound; lia.
Qed.

Lemma filter_none {A} (p : A -> bool) (l : list A) :
  (forall x, List.In x l -> p x = false) -> List.filter p l = [].
Proof.
  induction l as [|x l IH]; simpl; auto. intros H.
  rewrite (H x (or_introl eq_refl)). apply IH. intros y Hy. apply H. now right.
Qed.

Lemma issue_Ok_inv (env : Env) (now rnd stamp : Z) (input : IssueInput)
  (s s1 : Store) (out : IssueOutput) :
  issuePhoneLoginCode env now rnd stamp input s = (Ok out, s1) ->
  out = {| out_code := issuedCode rnd;
           out_expiresAt := now + getOtpTtlMinutes env * 60 * 1000 |}
  /\ s1 = {| rows := rows (purge now s)
                     ++ [createdRow env now rnd stamp input (purge now s)];
             nextId := N.succ (nextId s) |}
  /\ recentCount (issue_phoneNumber input) now (purge now s) < MAX_REQUESTS_PER_WINDOW
  /\ (forall x, List.In x (rows (purge now s)) ->
                phoneNumber x = issue_phoneNumber input ->
                createdAt x + 60000 <= now).
Proof.
  rewrite issuePhoneLoginCode_eq. cbv zeta.
  destruct (Z.leb_spec MAX_REQUESTS_PER_WINDOW
              (recentCount (issue_phoneNumber input) now (purge now s)));
    [discriminate|].
  unfold latestFor.
  destruct (newest _) as [l|] eqn:El.
  - destruct (Z.ltb_spec ((now - createdAt l) / 1000) RESEND_COOLDOWN_SECONDS)
      as [Hlt|Hge]; [discriminate|].
    intros Heq; injection Heq as <- <-. repeat split; auto.
    intros x Hx Hph. apply newest_Some in El as [_ Hmax].
    assert (Hle : createdAt x <= createdAt l).
    { apply Hmax. apply filter_In. split; auto.
      unfold isFor. now apply jsstring_eqb_eq. }
    assert (~ now - createdAt l < 60000)
      by (intros Hc; apply seconds_lt_cooldown in Hc; lia).
    lia.
  - intros Heq; injection Heq as <- <-. repeat split; auto.
    intros x Hx Hph. apply newest_None in El.
    assert (Hin : List.In x (List.filter (isFor (issue_phoneNumber input))
                               (rows (purge now s)))).
    { apply filter_In. split; auto. unfold isFor. now apply jsstring_eqb_eq. }
    rewrite El in Hin. destruct Hin.
Qed.

(** With no row for the phone number the issuer succeeds. *)
Lemma issue_no_rows (env : Env) (now rnd stamp : Z) (input : IssueInput) (s : Store) :
  (forall r, List.In r (rows s) -> phoneNumber r <> issue_phoneNumber input) ->
  issuePhoneLoginCode env now rnd stamp input s
  = (Ok {| out_code := issuedCode rnd;
           out_expiresAt := now + getOtpTtlMinutes env * 60 * 1000 |},
     {| rows := rows (purge now s)
                ++ [createdRow env now rnd stamp input (purge now s)];
        nextId := N.succ (nextId s) |}).
Proof.
  intros Hno. rewrite issuePhoneLoginCode_eq. cbv zeta.
  assert (Hf : forall x, List.In x (rows (purge now s)) ->
                         jsstring_eqb (phoneNumber x) (issue_phoneNumber input) = false).
  { intros x Hx. apply purge_rows_incl in Hx as [Hx _].
    destruct (jsstring_eqb _ _) eqn:E; auto.
    apply jsstring_eqb_eq in E. now apply Hno in Hx. }
  unfold recentCount, latestFor.
  rewrite (filter_none (recentFor _ _)), (filter_none (isFor _)).
  - reflexivity.
  - exact Hf.
  - intros x Hx. unfold recentFor. now rewrite (Hf x Hx).
Qed.

(** C7.  A successful call of the issuer leaves the rows that survive its
    purge and adds exactly one row after them: for the phone number asked,
    holding the keyed hash of phone number and code, with no attempt and not
    consumed, expiring at the call time plus the time to live.  The code
    enters the table only through that hash: a call that draws another
    code with the same hash leaves the same table.  The time to live is a
    whole number of minutes from 1 to 15, and 5 when the variable is unset
    or does not read as a number.  The call returns the code and that
    expiry. *)
Theorem issue_postcondition (env : Env) (now rnd stamp : Z) (input : IssueInput)
  (s s1 : Store) (out : IssueOutput) :
  issuePhoneLoginCode env now rnd stamp input s = (Ok out, s1) ->
  let ttl := getOtpTtlMinutes env in
  let phone := issue_phoneNumber input in
  rows s1
  = rows (purge now s)
    ++ [ {| id := nextId s;
            phoneNumber := phone;
            codeHash := hmacSha256Hex (getOtpSecret env) (phone ++ 58%N :: out_code out);
            expiresAt := out_expiresAt out;
            attempts := 0;
            consumedAt := None;
            requestedByIp := issue_requestedByIp input;
            createdAt := stamp |} ]
  /\ out_code out = padStart (numberToString rnd) OTP_CODE_LENGTH
  /\ out_expiresAt out = now + ttl * 60 * 1000
  /\ 1 <= ttl <= 15
  /\ (PHONE_OTP_TTL_MINUTES env = None -> ttl = 5)
  /\ (forall v, PHONE_OTP_TTL_MINUTES env = Some v -> Number v = JsNaN -> ttl = 5)
  /\ (forall rnd' out' s1',
        issuePhoneLoginCode env now rnd' stamp input s = (Ok out', s1') ->
        hashOtpCode env phone (out_code out') = hashOtpCode env phone (out_code out) ->
        s1' = s1).
Proof.
  intros H ttl phone.
  apply issue_Ok_inv in H as (-> & -> & _ & _).
  cbn [rows out_code out_expiresAt].
  split; [reflexivity|]. split; [reflexivity|]. split; [reflexivity|].
  split; [apply getOtpTtlMinutes_range|].
  split; [apply getOtpTtlMinutes_unset|].
  split; [apply getOtpTtlMinutes_NaN|].
  intros rnd' out' s1' H' Hhash.
  apply issue_Ok_inv in H' as (-> & -> & _ & _).
  cbn [out_code] in Hhash. unfold createdRow. subst phone. now rewrite Hhash.
Qed.

(** ** A table whose newest row for a phone number is its last row *)

Section OneLiveCode.

Variables (others : list PhoneLoginCode) (r : PhoneLoginCode) (nid : N)
  (phone : jsstring).
Hypothesis r_phone : phoneNumber r = phone.
Hypothesis r_unconsumed : consumedAt r = None.
Hypothesis others_older :
  forall x, List.In x others -> phoneNumber x = phone -> createdAt x < createdAt r.
Hypothesis others_keys : forall x, List.In x others -> id x <> id r.

(** The table after [k] counted attempts on [r]. *)
Let st (k : Z) : Store :=
  {| rows := others ++ [withAttempts k r]; nextId := nid |}.

Lemma activeCode_last (now k : Z) :
  now < expiresAt r -> activeCode phone now (st k) = Some (withAttempts k r).
Proof.
  intros Hexp. unfold activeCode, st; cbn [rows]. apply newest_strict.
  - apply filter_In. split; [apply in_or_app; right; now left|].
    unfold activeFor; cbn [withAttempts phoneNumber consumedAt expiresAt].
    rewrite r_phone, jsstring_eqb_refl, r_unconsumed. simpl.
    now apply Z.ltb_lt.
  - intros x Hx. apply filter_In in Hx as [Hx Hact].
    apply in_app_or in Hx as [Hx|[<-|[]]]; auto. right.
    unfold activeFor in Hact. apply andb_true_iff in Hact as [Hact _].
    apply andb_true_iff in Hact as [Hph _]. apply jsstring_eqb_eq in Hph.
    cbn [withAttempts createdAt]. now apply others_older.
Qed.

Lemma updateRow_last (k : Z) (data : PhoneLoginCode -> PhoneLoginCode) :
  updateRow (id r) data (st k)
  = {| rows := others ++ [data (withAttempts k r)]; nextId := nid |}.
Proof.
  unfold updateRow, st; cbn [rows nextId]. f_equal.
  rewrite map_app. cbn [List.map withAttempts id]. rewrite N.eqb_refl. f_equal.
  rewrite <- (map_id others) at 2. apply map_ext_in. intros x Hx.
  destruct (N.eqb_spec (id x) (id r)) as [E|E]; auto.
  now apply others_keys in Hx.
Qed.

(** A well-formed code that does not match counts one attempt. *)
Lemma verify_mismatch_last (env : Env) (now k : Z) (w c : jsstring) :
  now < expiresAt r -> k < MAX_VERIFY_ATTEMPTS ->
  normalizeOtpCode w = Ok c ->
  secureEqualHex (codeHash r) (hashOtpCode env phone c) = false ->
  verifyPhoneLoginCode env now
    {| verify_phoneNumber := phone; verify_code := w |} (st k)
  = (Ok false, st (k + 1)).
Proof.
  intros Hexp Hk Hw Hne. rewrite verifyPhoneLoginCode_eq.
  cbn [verify_phoneNumber verify_code]. rewrite Hw, (activeCode_last _ _ Hexp).
  cbn [withAttempts attempts codeHash id].
  destruct (Z.leb_spec MAX_VERIFY_ATTEMPTS k); [lia|].
  rewrite Hne. change (id r) with (id (withAttempts k r)) at 1.
  cbn [id withAttempts]. now rewrite updateRow_last.
Qed.

(** Once the counter is at the maximum the verifier answers false and
    leaves the table alone, whatever the code. *)
Lemma verify_exhausted_last (env : Env) (now k : Z) (w c : jsstring) :
  now < expiresAt r -> MAX_VERIFY_ATTEMPTS <= k ->
  normalizeOtpCode w = Ok c ->
  verifyPhoneLoginCode env now
    {| verify_phoneNumber := phone; verify_code := w |} (st k)
  = (Ok false, st k).
Proof.
  intros Hexp Hk Hw. rewrite verifyPhoneLoginCode_eq.
  cbn [verify_phoneNumber verify_code]. rewrite Hw, (activeCode_last _ _ Hexp).
  cbn [withAttempts attempts].
  destruct (Z.leb_spec MAX_VERIFY_ATTEMPTS k); [reflexivity|lia].
Qed.

(** Wrong codes, submitted while the row is live, are each answered false
    and counted. *)
Lemma wrong_attempts_last (env : Env) (wrong : list (Z * jsstring)) (k : Z) :
  k + Z.of_nat (List.length wrong) <= MAX_VERIFY_ATTEMPTS ->
  (forall tw, List.In tw wrong ->
     fst tw < expiresAt r
     /\ exists c, normalizeOtpCode (snd tw) = Ok c
                  /\ secureEqualHex (codeHash r) (hashOtpCode env phone c) = false) ->
  let ops := List.map (fun tw => OpVerify env (fst tw)
               {| verify_phoneNumber := phone; verify_code := snd tw |}) wrong in
  trace ops (st k) = List.repeat (Verified (Ok false)) (List.length wrong)
  /\ run ops (st k) = st (k + Z.of_nat (List.length wrong)).
Proof.
  revert k; induction wrong as [|[t w] wrong IH]; intros k Hk Hw ops.
  - simpl. split; auto. f_equal. lia.
  - destruct (Hw (t, w) (or_introl eq_refl)) as (Ht & c & Hc & Hne).
    cbn [fst snd] in Ht, Hc.
    assert (Hstep : verifyPhoneLoginCode env t
                      {| verify_phoneNumber := phone; verify_code := w |} (st k)
                    = (Ok false, st (k + 1))).
    { apply (verify_mismatch_last env t k w c); auto.
      cbn [List.length] in Hk. lia. }
    destruct (IH (k + 1)) as [IHt IHr].
    { cbn [List.length] in Hk. lia. }
    { intros tw Htw. apply Hw. now right. }
    subst ops. cbn [List.map trace run List.fold_left fst snd List.length List.repeat].
    unfold run in IHr. rewrite step_verify.
    unfold exec. rewrite Hstep. cbn [fst snd]. split.
    + f_equal. exact IHt.
    + rewrite IHr. f_equal. lia.
Qed.

End OneLiveCode.

(** ** Issue, then verify *)

(** C1.  On a table with no row for the phone number the issuer succeeds:
    it returns a code of six digits and an expiry and appends the row for
    them.  A verification of that code for that phone number made next, at
    any time before the expiry, returns true and replaces the created row by
    its consumed version: afterwards every row under the created row's key
    carries the time of the call as its consumed stamp. *)
Theorem issue_then_verify (env : Env) (now rnd stamp : Z) (input : IssueInput)
  (s : Store) :
  0 <= rnd < 10 ^ 6 ->
  (forall r, List.In r (rows s) -> phoneNumber r <> issue_phoneNumber input) ->
  exists code expires s1 created,
    issuePhoneLoginCode env now rnd stamp input s
    = (Ok {| out_code := code; out_expiresAt := expires |}, s1)
    /\ sixDigits code
    /\ rows s1 = rows (purge now s) ++ [created]
    /\ id created = nextId s
    /\ phoneNumber created = issue_phoneNumber input
    /\ consumedAt created = None
    /\ expiresAt created = expires
    /\ forall t, t < expires ->
         verifyPhoneLoginCode env t
           {| verify_phoneNumber := issue_phoneNumber input; verify_code := code |} s1
         = (Ok true, updateRow (id created) (consume t) s1)
         /\ List.In (consume t created)
              (rows (updateRow (id created) (consume t) s1))
         /\ (forall r, List.In r (rows (updateRow (id created) (consume t) s1)) ->
                id r = id created -> consumedAt r = Some t).
Proof.
  intros Hrnd Hno.
  set (created := createdRow env now rnd stamp input (purge now s)).
  exists (issuedCode rnd), (now + getOtpTtlMinutes env * 60 * 1000),
    {| rows := rows (purge now s) ++ [created]; nextId := N.succ (nextId s) |},
    created.
  split; [now apply issue_no_rows|].
  split; [now apply code_sixDigits|].
  repeat (split; [reflexivity|]).
  intros t Ht.
  assert (Hact : activeCode (issue_phoneNumber input) t
                   {| rows := rows (purge now s) ++ [withAttempts 0 created];
                      nextId := N.succ (nextId s) |}
                 = Some (withAttempts 0 created)).
  { apply activeCode_last; auto.
    intros x Hx Hph. apply purge_rows_incl in Hx as [Hx _].
    now apply Hno in Hx. }
  change (withAttempts 0 created) with created in Hact.
  split; [|split].
  - rewrite verifyPhoneLoginCode_eq. cbn [verify_phoneNumber verify_code].
    rewrite (normalizeOtpCode_sixDigits _ (code_sixDigits rnd Hrnd)), Hact.
    change (codeHash created)
      with (hashOtpCode env (issue_phoneNumber input) (issuedCode rnd)).
    now rewrite secureEqualHex_refl.
  - apply updateRow_In_data; auto. cbn [rows]. apply in_or_app. right. now left.
  - intros r Hr Hid. apply updateRow_In in Hr as (r0 & _ & [[_ ->]|[Hne ->]]);
      [reflexivity | contradiction].
Qed.

(** ** Exhausted attempts *)

(** C3.  If the row the verifier selects already has 5 attempts, the
    verifier answers false and leaves the table as it is, whatever the
    submitted (well-formed) code and whatever the hashes.  In particular:
    after a code was issued, five submissions of well-formed codes that do
    not match it, made while it is live, are each answered false, and a
    sixth submission, of the issued code itself and still before its expiry,
    is answered false too. *)
Theorem attempts_exhausted :
  (forall (env : Env) (now : Z) (input : VerifyInput) (s : Store)
          (c : jsstring) (a : PhoneLoginCode),
      normalizeOtpCode (verify_code input) = Ok c ->
      activeCode (verify_phoneNumber input) now s = Some a ->
      MAX_VERIFY_ATTEMPTS <= attempts a ->
      verifyPhoneLoginCode env now input s = (Ok false, s))
  /\
  (forall (env : Env) (now rnd stamp : Z) (input : IssueInput) (s s1 : Store)
          (out : IssueOutput) (wrong : list (Z * jsstring)) (t6 : Z),
      wellFormed s -> now <= stamp -> 0 <= rnd < 10 ^ 6 ->
      issuePhoneLoginCode env now rnd stamp input s = (Ok out, s1) ->
      List.length wrong = 5%nat ->
      (forall tw, List.In tw wrong ->
         fst tw < out_expiresAt out
         /\ exists c, normalizeOtpCode (snd tw) = Ok c
              /\ secureEqualHex
                   (hashOtpCode env (issue_phoneNumber input) (out_code out))
                   (hashOtpCode env (issue_phoneNumber input) c) = false) ->
      t6 < out_expiresAt out ->
      let ops := List.map (fun tw => OpVerify env (fst tw)
                   {| verify_phoneNumber := issue_phoneNumber input;
                      verify_code := snd tw |}) wrong in
      trace ops s1 = List.repeat (Verified (Ok false)) 5
      /\ verifyPhoneLoginCode env t6
           {| verify_phoneNumber := issue_phoneNumber input;
              verify_code := out_code out |} (run ops s1)
         = (Ok false, run ops s1)).
Proof.
  split.
  - intros env now input s c a Hc Ha Hmax. rewrite verifyPhoneLoginCode_eq, Hc, Ha.
    destruct (Z.leb_spec MAX_VERIFY_ATTEMPTS (attempts a)); [reflexivity|lia].
  - intros env now rnd stamp input s s1 out wrong t6 Hwf Hstamp Hrnd Hissue
      Hlen Hwrong Ht6 ops.
    apply issue_Ok_inv in Hissue as (-> & -> & _ & Hold).
    cbn [out_code out_expiresAt] in *.
    set (created := createdRow env now rnd stamp input (purge now s)) in *.
    change created with (withAttempts 0 created) in ops |- *.
    assert (Holder : forall x, List.In x (rows (purge now s)) ->
              phoneNumber x = issue_phoneNumber input ->
              createdAt x < createdAt created).
    { intros x Hx Hph. specialize (Hold x Hx Hph). cbn. lia. }
    assert (Hkeys : forall x, List.In x (rows (purge now s)) -> id x <> id created).
    { intros x Hx. apply purge_rows_incl in Hx as [Hx _].
      destruct Hwf as [Hk _]. unfold keysFresh in Hk.
      rewrite Forall_forall in Hk. specialize (Hk x Hx). cbn. lia. }
    destruct (wrong_attempts_last (rows (purge now s)) created
                (N.succ (nextId s)) (issue_phoneNumber input)
                eq_refl eq_refl Holder Hkeys env wrong 0) as [Htr Hrun].
    { rewrite Hlen. unfold MAX_VERIFY_ATTEMPTS. lia. }
    { exact Hwrong. }
    fold ops in Htr, Hrun. rewrite Hlen in Htr, Hrun. split; [exact Htr|].
    rewrite Hrun.
    apply (verify_exhausted_last (rows (purge now s)) created
             (N.succ (nextId s)) (issue_phoneNumber input)
             eq_refl eq_refl Holder env t6 (0 + Z.of_nat 5) _ (issuedCode rnd)).
    + exact Ht6.
    + unfold MAX_VERIFY_ATTEMPTS. simpl. lia.
    + apply normalizeOtpCode_sixDigits. now apply code_sixDigits.
Qed.

(** ** Which checks count an attempt *)

Lemma updateRow_wellFormed_In (s : Store) (a r' : PhoneLoginCode)
  (data : PhoneLoginCode -> PhoneLoginCode) :
  wellFormed s -> List.In a (rows s) ->
  List.In r' (rows (updateRow (id a) data s)) ->
  r' = data a \/ (List.In r' (rows s) /\ id r' <> id a).
Proof.
  intros Hwf Ha Hr'. apply updateRow_In in Hr' as (r & Hr & [[Hk ->]|[Hk ->]]).
  - left. f_equal. eapply wellFormed_same_key; eauto.
  - right. auto.
Qed.

(** C6, as the code has it.  A verification with a well-formed code counts
    an attempt exactly when it gets to compare hashes, that is when a live
    row exists for the phone number and the newest one has fewer than 5
    attempts: that row's counter then goes up by one, on a mismatch and on a
    match alike, a match also sets its consumed stamp, and no other row
    changes.  With no live row, or with the newest live row at 5 attempts,
    the answer is false and the table is left as it is. *)
Theorem attempt_counted_on_comparison (env : Env) (now : Z) (input : VerifyInput)
  (s : Store) (c : jsstring) :
  wellFormed s ->
  normalizeOtpCode (verify_code input) = Ok c ->
  match activeCode (verify_phoneNumber input) now s with
  | None => verifyPhoneLoginCode env now input s = (Ok false, s)
  | Some a =>
      if MAX_VERIFY_ATTEMPTS <=? attempts a
      then verifyPhoneLoginCode env now input s = (Ok false, s)
      else
        let valid :=
          secureEqualHex (codeHash a)
            (hashOtpCode env (verify_phoneNumber input) c) in
        let a' := if valid then consume now a else incrementAttempts a in
        exists s',
          verifyPhoneLoginCode env now input s = (Ok valid, s')
          /\ List.In a' (rows s')
          /\ attempts a' = attempts a + 1
          /\ consumedAt a' = (if valid then Some now else None)
          /\ (forall r, List.In r (rows s') ->
                 r = a' \/ (List.In r (rows s) /\ id r <> id a))
          /\ (forall r, List.In r (rows s) -> id r <> id a -> List.In r (rows s'))
  end.
Proof.
  intros Hwf Hc. rewrite verifyPhoneLoginCode_eq, Hc.
  destruct (activeCode _ _ _) as [a|] eqn:Ha; [|reflexivity].
  apply activeCode_Some in Ha as (Hin & _ & Hcons & _).
  destruct (MAX_VERIFY_ATTEMPTS <=? attempts a); [reflexivity|].
  cbv zeta.
  destruct (secureEqualHex _ _).
  - exists (updateRow (id a) (consume now) s). repeat split; auto.
    + now apply updateRow_In_data.
    + intros r Hr. now apply updateRow_wellFormed_In.
    + intros r Hr Hk. now apply updateRow_In_other.
  - exists (updateRow (id a) incrementAttempts s). repeat split; auto.
    + now apply updateRow_In_data.
    + intros r Hr. now apply updateRow_wellFormed_In.
    + intros r Hr Hk. now apply updateRow_In_other.
Qed.

(** C10, as the code has it.  When a phone number has an older live row
    beside its newest live row, submitting the older row's code (one whose
    hash is not the newest row's) is answered false; it is the newest row
    whose counter goes up by one, provided that counter is below 5, and the
    older row and every other row stay as they are.  When the newest row is
    already at 5 attempts the answer is false and nothing changes. *)
Theorem older_code_checked_against_newest (env : Env) (now : Z) (phone : jsstring)
  (s : Store) (newestRow older : PhoneLoginCode) (code : jsstring) :
  wellFormed s ->
  activeCode phone now s = Some newestRow ->
  List.In older (rows s) -> activeFor phone now older = true ->
  id older <> id newestRow ->
  sixDigits code -> codeHash older = hashOtpCode env phone code ->
  secureEqualHex (codeHash newestRow) (hashOtpCode env phone code) = false ->
  createdAt older <= createdAt newestRow
  /\ (attempts newestRow < MAX_VERIFY_ATTEMPTS ->
      exists s',
        verifyPhoneLoginCode env now
          {| verify_phoneNumber := phone; verify_code := code |} s
        = (Ok false, s')
        /\ List.In (incrementAttempts newestRow) (rows s')
        /\ List.In older (rows s')
        /\ (forall r, List.In r (rows s') ->
               r = incrementAttempts newestRow
               \/ (List.In r (rows s) /\ id r <> id newestRow)))
  /\ (MAX_VERIFY_ATTEMPTS <= attempts newestRow ->
      verifyPhoneLoginCode env now
        {| verify_phoneNumber := phone; verify_code := code |} s
      = (Ok false, s)).
Proof.
  intros Hwf Hnew Hold Hact Hkey Hcode Hhash Hne.
  assert (Hle : createdAt older <= createdAt newestRow).
  { unfold activeCode in Hnew. apply newest_Some in Hnew as [_ Hmax].
    apply Hmax. apply filter_In. auto. }
  pose proof (activeCode_Some _ _ _ _ Hnew) as (Hin & _).
  split; [exact Hle|]. split.
  - intros Hlt. exists (updateRow (id newestRow) incrementAttempts s).
    repeat split.
    + rewrite verifyPhoneLoginCode_eq. cbn [verify_phoneNumber verify_code].
      rewrite (normalizeOtpCode_sixDigits _ Hcode), Hnew.
      destruct (Z.leb_spec MAX_VERIFY_ATTEMPTS (attempts newestRow)); [lia|].
      now rewrite Hne.
    + now apply updateRow_In_data.
    + now apply updateRow_In_other.
    + intros r Hr. now apply updateRow_wellFormed_In.
  - intros Hmax. rewrite verifyPhoneLoginCode_eq.
    cbn [verify_phoneNumber verify_code].
    rewrite (normalizeOtpCode_sixDigits _ Hcode), Hnew.
    destruct (Z.leb_spec MAX_VERIFY_ATTEMPTS (attempts newestRow));
      [reflexivity|lia].
Qed.

(** ** The two refusals of the issuer *)

(** What the issuer answers on the purged table when 5 or more of its rows
    for the phone number were created in the last 15 minutes. *)
Lemma issue_rate_limited (env : Env) (now rnd stamp : Z) (input : IssueInput)
  (s : Store) :
  MAX_REQUESTS_PER_WINDOW <= recentCount (issue_phoneNumber input) now (purge now s) ->
  issuePhoneLoginCode env now rnd stamp input s = (Throw rateLimitError, purge now s).
Proof.
  intros H. rewrite issuePhoneLoginCode_eq. cbv zeta.
  destruct (Z.leb_spec MAX_REQUESTS_PER_WINDOW
              (recentCount (issue_phoneNumber input) now (purge now s)));
    [reflexivity|lia].
Qed.

Lemma issue_cooldown (env : Env) (now rnd stamp : Z) (input : IssueInput)
  (s : Store) (l : PhoneLoginCode) :
  recentCount (issue_phoneNumber input) now (purge now s) < MAX_REQUESTS_PER_WINDOW ->
  latestFor (issue_phoneNumber input) (purge now s) = Some l ->
  now - createdAt l < 60000 ->
  issuePhoneLoginCode env now rnd stamp input s
  = (Throw (cooldownError ((now - createdAt l) / 1000)), purge now s).
Proof.
  intros Hcount Hl Hms. rewrite issuePhoneLoginCode_eq. cbv zeta.
  destruct (Z.leb_spec MAX_REQUESTS_PER_WINDOW
              (recentCount (issue_phoneNumber input) now (purge now s)));
    [lia|].
  rewrite Hl. apply seconds_lt_cooldown in Hms.
  apply Z.ltb_lt in Hms. now rewrite Hms.
Qed.

(** A filter that selects live rows only reads the same from the purged
    table as from the table itself. *)
Lemma filter_purge_live (now : Z) (q : PhoneLoginCode -> bool) (s : Store) :
  (forall r, List.In r (rows s) -> q r = true -> purgeable now r = false) ->
  List.filter q (rows (purge now s)) = List.filter q (rows s).
Proof.
  unfold purge; cbn [rows]. induction (rows s) as [|x l IH]; intros H; simpl; auto.
  assert (IH' : List.filter q (List.filter (fun r => negb (purgeable now r)) l)
                = List.filter q l).
  { apply IH. intros r Hr. apply H. now right. }
  destruct (q x) eqn:Eq.
  - rewrite (H x (or_introl eq_refl) Eq). simpl. rewrite Eq. now f_equal.
  - destruct (purgeable now x); simpl; rewrite ?Eq; exact IH'.
Qed.

(** A row that is unexpired, unconsumed and below 5 attempts is not one the
    issuer deletes. *)
Lemma live_not_purgeable (now : Z) (r : PhoneLoginCode) :
  now <= expiresAt r -> consumedAt r = None -> attempts r < MAX_VERIFY_ATTEMPTS ->
  purgeable now r = false.
Proof.
  intros He Hc Ha. unfold purgeable. rewrite Hc. simpl.
  destruct (Z.ltb_spec (expiresAt r) now); [lia|].
  destruct (Z.leb_spec MAX_VERIFY_ATTEMPTS (attempts r)); [lia|reflexivity].
Qed.

(** C5, as the code has it.  Take a table in which every row of the phone
    number is live at the time of the call: unexpired, unconsumed and below
    5 attempts.  If the most recent row of the phone number in that table
    was created less than 60 seconds before the call, the issuer throws a
    429 error and creates no row.  The rate limit is tested first: with 5
    or more rows of the phone number created in the last 15 minutes the
    error is the rate-limit error, which reports no seconds, however recent
    the last row; with fewer it is the cooldown error, whose message
    carries the seconds left, 60 minus the whole seconds elapsed, a positive
    number.  In particular a request made less than 60 seconds after a
    successful one for the same number, with nothing in between, is refused
    with a 429 error, the cooldown one unless the rate limit is met. *)
Theorem cooldown_after_rate_limit (env : Env) (now rnd stamp : Z)
  (input : IssueInput) (s : Store) :
  let phone := issue_phoneNumber input in
  (forall l,
     (forall r, List.In r (rows s) -> phoneNumber r = phone ->
        now <= expiresAt r /\ consumedAt r = None
        /\ attempts r < MAX_VERIFY_ATTEMPTS) ->
     latestFor phone s = Some l ->
     now - createdAt l < 60000 ->
     let elapsed := (now - createdAt l) / 1000 in
     0 < RESEND_COOLDOWN_SECONDS - elapsed
     /\ issuePhoneLoginCode env now rnd stamp input s
        = (Throw (if MAX_REQUESTS_PER_WINDOW <=? recentCount phone now s
                  then rateLimitError
                  else {| status := 429;
                          message :=
                            js "Asteapta "
                            ++ numberToString (RESEND_COOLDOWN_SECONDS - elapsed)
                            ++ js "s inainte de o noua solicitare" |}),
           purge now s)
     /\ List.filter (isFor phone) (rows (purge now s))
        = List.filter (isFor phone) (rows s))
  /\
  (forall env0 now0 rnd0 stamp0 s0 out,
     issuePhoneLoginCode env0 now0 rnd0 stamp0 input s0 = (Ok out, s) ->
     now0 <= stamp0 -> now - now0 < 60000 ->
     exists e, fst (issuePhoneLoginCode env now rnd stamp input s) = Throw e
               /\ status e = 429
               /\ (e = rateLimitError
                   \/ exists elapsed, elapsed < RESEND_COOLDOWN_SECONDS
                                      /\ e = cooldownError elapsed)).
Proof.
  intros phone. split.
  - intros l Hlive Hl Hms elapsed.
    assert (Hq : forall q, (forall r, q r = true -> isFor phone r = true) ->
                 List.filter q (rows (purge now s)) = List.filter q (rows s)).
    { intros q Hq. apply filter_purge_live. intros r Hr Hqr.
      apply Hq in Hqr. unfold isFor in Hqr. apply jsstring_eqb_eq in Hqr.
      destruct (Hlive r Hr Hqr) as (He & Hc & Ha).
      now apply live_not_purgeable. }
    assert (Hcount : recentCount phone now (purge now s) = recentCount phone now s).
    { unfold recentCount. rewrite Hq; [reflexivity|].
      intros r Hr. unfold recentFor in Hr. now apply andb_true_iff in Hr as [Hr _]. }
    assert (Hlatest : latestFor phone (purge now s) = Some l).
    { unfold latestFor. rewrite Hq; auto. }
    split; [|split].
    + apply seconds_lt_cooldown in Hms. subst elapsed. lia.
    + rewrite <- Hcount.
      destruct (Z.leb_spec MAX_REQUESTS_PER_WINDOW (recentCount phone now (purge now s)))
        as [Hfull|Hroom].
      * now apply issue_rate_limited.
      * now apply issue_cooldown.
    + apply Hq. auto.
  - intros env0 now0 rnd0 stamp0 s0 out Hprev Hstamp Hms.
    apply issue_Ok_inv in Hprev as (_ & -> & _ & _).
    set (c0 := createdRow env0 now0 rnd0 stamp0 input (purge now0 s0)).
    set (s := {| rows := rows (purge now0 s0) ++ [c0];
                 nextId := N.succ (nextId s0) |}).
    destruct (Z.leb_spec MAX_REQUESTS_PER_WINDOW (recentCount phone now (purge now s)))
      as [Hfull|Hroom].
    { exists rateLimitError. rewrite issue_rate_limited by exact Hfull. auto. }
    assert (Hc0 : List.In c0 (List.filter (isFor phone) (rows (purge now s)))).
    { apply filter_In. split.
      - unfold purge; cbn [rows]. apply filter_In. split.
        + apply in_or_app. right. now left.
        + unfold purgeable, MAX_VERIFY_ATTEMPTS. cbn.
          pose proof (getOtpTtlMinutes_range env0).
          destruct (Z.ltb_spec (now0 + getOtpTtlMinutes env0 * 60 * 1000) now);
            [lia|reflexivity].
      - unfold isFor. cbn. apply jsstring_eqb_refl. }
    destruct (latestFor phone (purge now s)) as [l|] eqn:El.
    + unfold latestFor in El. pose proof (newest_Some _ _ El) as [_ Hmax].
      specialize (Hmax c0 Hc0). cbn in Hmax.
      assert (Hl : now - createdAt l < 60000) by lia.
      exists (cooldownError ((now - createdAt l) / 1000)).
      rewrite (issue_cooldown env now rnd stamp input s l Hroom El Hl).
      repeat split. right. exists ((now - createdAt l) / 1000).
      split; [now apply seconds_lt_cooldown | reflexivity].
    + unfold latestFor in El. apply newest_None in El.
      rewrite El in Hc0. destruct Hc0.
Qed.

(** ** Consumed rows *)

(** The rows after a call of the issuer: rows that were there, or the row
    it created under the fresh key. *)
Lemma issue_rows (env : Env) (now rnd stamp : Z) (input : IssueInput) (s : Store)
  (r' : PhoneLoginCode) :
  List.In r' (rows (snd (issuePhoneLoginCode env now rnd stamp input s))) ->
  List.In r' (rows s) \/ id r' = nextId s.
Proof.
  assert (Hp : List.In r' (rows (purge now s)) -> List.In r' (rows s) \/ id r' = nextId s).
  { intros H. left. now apply purge_rows_incl in H as [H _]. }
  rewrite issuePhoneLoginCode_eq. cbv zeta.
  destruct (MAX_REQUESTS_PER_WINDOW <=? _); [exact Hp|].
  destruct (latestFor _ _) as [l|];
    [destruct (_ <? RESEND_COOLDOWN_SECONDS); [exact Hp|]|];
    cbn [snd rows]; intros H; apply in_app_or in H as [H|[<-|[]]]; auto.
Qed.

Lemma issue_nextId (env : Env) (now rnd stamp : Z) (input : IssueInput) (s : Store) :
  (nextId s <= nextId (snd (issuePhoneLoginCode env now rnd stamp input s)))%N.
Proof.
  rewrite issuePhoneLoginCode_eq. cbv zeta.
  destruct (MAX_REQUESTS_PER_WINDOW <=? _); [cbn; lia|].
  destruct (latestFor _ _) as [l|];
    [destruct (_ <? RESEND_COOLDOWN_SECONDS)|]; cbn; lia.
Qed.

(** The rows after a call of the verifier: rows that were there, or the new
    version of a row that was not consumed. *)
Lemma verify_rows (env : Env) (now : Z) (input : VerifyInput) (s : Store)
  (r' : PhoneLoginCode) :
  List.In r' (rows (snd (verifyPhoneLoginCode env now input s))) ->
  List.In r' (rows s)
  \/ exists a, List.In a (rows s) /\ consumedAt a = None /\ id r' = id a.
Proof.
  rewrite verifyPhoneLoginCode_eq.
  destruct (normalizeOtpCode _) as [c|e]; [|now left].
  destruct (activeCode _ _ _) as [a|] eqn:Ha; [|now left].
  apply activeCode_Some in Ha as (Hin & _ & Hcons & _).
  destruct (MAX_VERIFY_ATTEMPTS <=? _); [now left|].
  destruct (secureEqualHex _ _); cbn [snd]; intros H;
    apply updateRow_In in H as (r & Hr & [[Hk ->]|[Hk ->]]); auto;
    right; exists a; repeat split; auto.
Qed.

Lemma verify_nextId (env : Env) (now : Z) (input : VerifyInput) (s : Store) :
  nextId (snd (verifyPhoneLoginCode env now input s)) = nextId s.
Proof.
  rewrite verifyPhoneLoginCode_eq.
  destruct (normalizeOtpCode _) as [c|e]; [|reflexivity].
  destruct (activeCode _ _ _) as [a|]; [|reflexivity].
  destruct (MAX_VERIFY_ATTEMPTS <=? _); [reflexivity|].
  destruct (secureEqualHex _ _); reflexivity.
Qed.

(** No call changes a consumed row: the issuer only deletes it, the
    verifier only selects rows that are not consumed. *)
Lemma sealed_step (r : PhoneLoginCode) (s : Store) (op : Op) :
  consumedAt r <> None -> sealed r s -> sealed r (step s op).
Proof.
  intros Hcons (Hwf & Hkey & Hfrozen). split; [now apply wellFormed_step|].
  destruct op as [env now rnd stamp input | env now input].
  - rewrite step_issue. split.
    + pose proof (issue_nextId env now rnd stamp input s). lia.
    + intros r' Hr' Hid. apply issue_rows in Hr' as [Hr'|Hr']; auto. lia.
  - rewrite step_verify. split.
    + now rewrite verify_nextId.
    + intros r' Hr' Hid. apply verify_rows in Hr' as [Hr'|(a & Ha & Hnone & Hida)];
        auto.
      exfalso. apply Hcons. rewrite <- (Hfrozen a Ha); [exact Hnone | congruence].
Qed.

Lemma sealed_run (r : PhoneLoginCode) (ops : list Op) (s : Store) :
  consumedAt r <> None -> sealed r s -> sealed r (run ops s).
Proof.
  intros Hcons. revert s; induction ops as [|op ops IH]; intros s Hs; simpl; auto.
  apply IH. now apply sealed_step.
Qed.

(** What a verification that returns true did. *)
Lemma verify_true_inv (env : Env) (now : Z) (input : VerifyInput) (s s1 : Store) :
  verifyPhoneLoginCode env now input s = (Ok true, s1) ->
  exists c a,
    normalizeOtpCode (verify_code input) = Ok c
    /\ activeCode (verify_phoneNumber input) now s = Some a
    /\ attempts a < MAX_VERIFY_ATTEMPTS
    /\ secureEqualHex (codeHash a) (hashOtpCode env (verify_phoneNumber input) c) = true
    /\ s1 = updateRow (id a) (consume now) s.
Proof.
  rewrite verifyPhoneLoginCode_eq.
  destruct (normalizeOtpCode _) as [c|]; [|discriminate].
  destruct (activeCode _ _ _) as [a|]; [|discriminate].
  destruct (Z.leb_spec MAX_VERIFY_ATTEMPTS (attempts a)); [discriminate|].
  destruct (secureEqualHex _ _) eqn:E; [|discriminate].
  intros Heq; injection Heq as <-. exists c, a. auto.
Qed.

(** C2, as the code has it.  When a verification returns true, the row it
    selected is replaced by its consumed version.  From then on, through any
    calls of the issuer and the verifier, the table never holds another
    version of that row: its consumed stamp is never cleared, its counter
    never moves, it can only be deleted.  A later verification with the same
    phone number and code never throws; it returns false, unless another
    row, not consumed, not expired, below 5 attempts and holding the same
    hash, is the newest live row of the phone number then; the consumed row
    itself is never selected again. *)
Theorem consumed_row_never_validated_again (env : Env) (t : Z)
  (input : VerifyInput) (s s1 : Store) :
  wellFormed s ->
  verifyPhoneLoginCode env t input s = (Ok true, s1) ->
  exists a,
    activeCode (verify_phoneNumber input) t s = Some a
    /\ List.In (consume t a) (rows s1)
    /\ forall ops,
         let s' := run ops s1 in
         (forall r', List.In r' (rows s') -> id r' = id a -> r' = consume t a)
         /\ forall env' t' res s2,
              verifyPhoneLoginCode env' t' input s' = (res, s2) ->
              res = Ok false
              \/ (res = Ok true
                  /\ exists b c,
                       activeCode (verify_phoneNumber input) t' s' = Some b
                       /\ id b <> id a
                       /\ consumedAt b = None
                       /\ t' < expiresAt b
                       /\ attempts b < MAX_VERIFY_ATTEMPTS
                       /\ normalizeOtpCode (verify_code input) = Ok c
                       /\ secureEqualHex (codeHash b)
                            (hashOtpCode env' (verify_phoneNumber input) c) = true
                       /\ List.In (consume t' b) (rows s2)).
Proof.
  intros Hwf Hv.
  pose proof (verify_true_inv _ _ _ _ _ Hv) as (c & a & Hc & Ha & Hlt & Heq & ->).
  pose proof (activeCode_Some _ _ _ _ Ha) as (Hin & _ & Hnone & _).
  exists a. split; [exact Ha|]. split; [now apply updateRow_In_data|].
  assert (Hsealed : sealed (consume t a) (updateRow (id a) (consume t) s)).
  { split; [now apply wellFormed_updateRow|]. split.
    - destruct Hwf as [Hk _]. unfold keysFresh in Hk. rewrite Forall_forall in Hk.
      cbn. now apply Hk.
    - intros r' Hr' Hid.
      apply updateRow_wellFormed_In in Hr' as [->|[_ Hne]]; auto.
      exfalso. apply Hne. exact Hid. }
  intros ops s'.
  assert (Hs' : sealed (consume t a) s').
  { apply sealed_run; [discriminate | exact Hsealed]. }
  destruct Hs' as (Hwf' & _ & Hfrozen). split; [exact Hfrozen|].
  intros env' t' res s2 Hv'.
  rewrite verifyPhoneLoginCode_eq, Hc in Hv'.
  destruct (activeCode (verify_phoneNumber input) t' s') as [b|] eqn:Hb;
    [|injection Hv' as <- <-; now left].
  pose proof (activeCode_Some _ _ _ _ Hb) as (Hinb & _ & Hnoneb & Hexpb).
  destruct (Z.leb_spec MAX_VERIFY_ATTEMPTS (attempts b));
    [injection Hv' as <- <-; now left|].
  destruct (secureEqualHex (codeHash b) _) eqn:Eb; injection Hv' as <- <-;
    [right|now left].
  split; [reflexivity|]. exists b, c. repeat split; auto.
  - intros Hid. specialize (Hfrozen b Hinb Hid). subst b. discriminate.
  - now apply updateRow_In_data.
Qed.

(** * Further properties of the module *)

(** ** The submitted code *)

Lemma stripWhiteSpace_no_space (input : jsstring) :
  List.Forall (fun c => isWhiteSpace c = false) (stripWhiteSpace input).
Proof.
  unfold stripWhiteSpace. apply Forall_forall. intros c Hc.
  apply filter_In in Hc as [_ Hc]. now apply negb_true_iff in Hc.
Qed.

Lemma stripWhiteSpace_idem (input : jsstring) :
  stripWhiteSpace (stripWhiteSpace input) = stripWhiteSpace input.
Proof.
  unfold stripWhiteSpace. induction input as [|c s IH]; simpl; auto.
  destruct (isWhiteSpace c) eqn:E; simpl; auto. now rewrite E, IH.
Qed.

Lemma stripWhiteSpace_app (a b : jsstring) :
  stripWhiteSpace (a ++ b) = stripWhiteSpace a ++ stripWhiteSpace b.
Proof. unfold stripWhiteSpace. apply filter_app. Qed.

Lemma stripWhiteSpace_spaces (w : jsstring) :
  List.Forall (fun c => isWhiteSpace c = true) w -> stripWhiteSpace w = [].
Proof.
  unfold stripWhiteSpace. induction 1 as [|c w Hc _ IH]; simpl; auto.
  now rewrite Hc.
Qed.

(** X1.  A code the normalizer accepts comes back as exactly six decimal
    digits, free of white space, and is a fixed point: normalizing it again
    gives it back. *)
Theorem normalizeOtpCode_canonical (input c : jsstring) :
  normalizeOtpCode input = Ok c ->
  sixDigits c
  /\ List.Forall (fun ch => isWhiteSpace ch = false) c
  /\ c = stripWhiteSpace input
  /\ normalizeOtpCode c = Ok c.
Proof.
  intros H. apply normalizeOtpCode_Ok in H as [-> Hsix].
  repeat split; try apply Hsix.
  - apply stripWhiteSpace_no_space.
  - now apply normalizeOtpCode_sixDigits.
Qed.

(** X2.  White space in the submitted code is immaterial to the verifier:
    with white space inserted anywhere in the code the call returns the
    same result and leaves the same table. *)
Theorem verify_ignores_white_space (env : Env) (now : Z) (phone : jsstring)
  (a w b : jsstring) (s : Store) :
  List.Forall (fun c => isWhiteSpace c = true) w ->
  verifyPhoneLoginCode env now
    {| verify_phoneNumber := phone; verify_code := a ++ w ++ b |} s
  = verifyPhoneLoginCode env now
      {| verify_phoneNumber := phone; verify_code := a ++ b |} s.
Proof.
  intros Hw. rewrite !verifyPhoneLoginCode_eq. cbn [verify_code verify_phoneNumber].
  assert (Hn : normalizeOtpCode (a ++ w ++ b) = normalizeOtpCode (a ++ b)).
  { unfold normalizeOtpCode.
    now rewrite !stripWhiteSpace_app, (stripWhiteSpace_spaces w Hw). }
  now rewrite Hn.
Qed.

(** ** The comparison of digests *)

Lemma timingSafeEqual_eq (a b : list N) : timingSafeEqual a b = true <-> a = b.
Proof.
  revert b; induction a as [|x a IH]; intros [|y b]; simpl; split;
    try congruence; try reflexivity.
  - intros H. apply andb_true_iff in H as [Hx Hab].
    apply N.eqb_eq in Hx. apply IH in Hab. congruence.
  - intros H. injection H as -> ->. rewrite N.eqb_refl. simpl. now apply IH.
Qed.

(** The comparison is equality of the decoded bytes. *)
Lemma secureEqualHex_buffers (a b : jsstring) :
  secureEqualHex a b = true <-> bufferFromHex a = bufferFromHex b.
Proof.
  unfold secureEqualHex.
  destruct (Nat.eqb_spec (List.length (bufferFromHex a)) (List.length (bufferFromHex b)))
    as [E|E]; simpl.
  - apply timingSafeEqual_eq.
  - split; [discriminate|]. intros H. rewrite H in E. now elim E.
Qed.

Ltac split_leb :=
  repeat match goal with
         | |- context [N.leb ?x ?y] => destruct (N.leb_spec x y); simpl in *
         | H : context [N.leb ?x ?y] |- _ => destruct (N.leb_spec x y); simpl in *
         end.

(** A lower-case hexadecimal digit is its own low byte. *)
Lemma isLowerHex_lowByte (c : N) : isLowerHex c = true -> lowByte c = c.
Proof.
  unfold isLowerHex, lowByte. intros H. apply N.mod_small.
  split_leb; try discriminate; lia.
Qed.

Lemma hexValue_lower (c : N) :
  isLowerHex c = true -> exists v, hexValue c = Some v /\ (v < 16)%N.
Proof.
  intros H. unfold hexValue. rewrite (isLowerHex_lowByte c H). cbv zeta.
  unfold isLowerHex in H. split_leb;
    try discriminate; try (exfalso; lia);
    eexists; (split; [reflexivity | lia]).
Qed.

Lemma hexValue_lower_inj (c d : N) :
  isLowerHex c = true -> isLowerHex d = true -> hexValue c = hexValue d -> c = d.
Proof.
  intros Hc Hd. unfold hexValue.
  rewrite (isLowerHex_lowByte c Hc), (isLowerHex_lowByte d Hd). cbv zeta.
  unfold isLowerHex in Hc, Hd. split_leb;
    try discriminate; try (exfalso; lia);
    intros Heq; injection Heq as Heq; lia.
Qed.

Lemma bufferFromHex_digest_inj (a : jsstring) :
  forall b, isHexDigest a -> isHexDigest b ->
            bufferFromHex a = bufferFromHex b -> a = b.
Proof.
  assert (Hpairs : forall n (a b : jsstring), (List.length a <= n)%nat ->
            isHexDigest a -> isHexDigest b ->
            bufferFromHex a = bufferFromHex b -> a = b).
  { induction n as [|n IH]; intros x y Hlen [Hex Hax] [Hey Hay] Heq.
    - destruct x; [|simpl in Hlen; lia].
      destruct y as [|y1 [|y2 y]]; auto.
      + destruct Hey as [k Hk]. simpl in Hk. lia.
      + inversion Hay as [|? ? H1 Hay']; subst. inversion Hay' as [|? ? H2 _]; subst.
        destruct (hexValue_lower _ H1) as (v1 & E1 & _).
        destruct (hexValue_lower _ H2) as (v2 & E2 & _).
        simpl in Heq. rewrite E1, E2 in Heq. discriminate.
    - destruct x as [|x1 [|x2 x]], y as [|y1 [|y2 y]]; auto;
        try (destruct Hex as [k Hk]; simpl in Hk; lia);
        try (destruct Hey as [k Hk]; simpl in Hk; lia).
      + inversion Hay as [|? ? H1 Hay']; subst. inversion Hay' as [|? ? H2 _]; subst.
        destruct (hexValue_lower _ H1) as (v1 & E1 & _).
        destruct (hexValue_lower _ H2) as (v2 & E2 & _).
        simpl in Heq. rewrite E1, E2 in Heq. discriminate.
      + inversion Hax as [|? ? H1 Hax']; subst. inversion Hax' as [|? ? H2 _]; subst.
        destruct (hexValue_lower _ H1) as (v1 & E1 & _).
        destruct (hexValue_lower _ H2) as (v2 & E2 & _).
        simpl in Heq. rewrite E1, E2 in Heq. discriminate.
      + inversion Hax as [|? ? Hx1 Hax']; subst.
        inversion Hax' as [|? ? Hx2 Hax'']; subst.
        inversion Hay as [|? ? Hy1 Hay']; subst.
        inversion Hay' as [|? ? Hy2 Hay'']; subst.
        destruct (hexValue_lower _ Hx1) as (u1 & Eu1 & Hu1).
        destruct (hexValue_lower _ Hx2) as (u2 & Eu2 & Hu2).
        destruct (hexValue_lower _ Hy1) as (v1 & Ev1 & Hv1).
        destruct (hexValue_lower _ Hy2) as (v2 & Ev2 & Hv2).
        cbn [bufferFromHex] in Heq. rewrite Eu1, Eu2, Ev1, Ev2 in Heq.
        assert (Hbyte : (16 * u1 + u2 = 16 * v1 + v2)%N) by congruence.
        assert (Hrest : bufferFromHex x = bufferFromHex y) by congruence.
        assert (u1 = v1 /\ u2 = v2) as [-> ->] by lia.
        assert (x1 = y1) by (apply hexValue_lower_inj; congruence).
        assert (x2 = y2) by (apply hexValue_lower_inj; congruence).
        subst. f_equal. f_equal. apply (IH x y); auto.
        * simpl in Hlen. lia.
        * split; auto. destruct Hex as [k Hk]. exists (k - 1)%nat. simpl in Hk. lia.
        * split; auto. destruct Hey as [k Hk]. exists (k - 1)%nat. simpl in Hk. lia. }
  intros b. now apply (Hpairs (List.length a)).
Qed.

(** X3.  On digests as the hash prints them (lower-case hexadecimal, two
    digits per byte) the comparison is equality of the strings. *)
Theorem secureEqualHex_digests (a b : jsstring) :
  isHexDigest a -> isHexDigest b ->
  (secureEqualHex a b = true <-> a = b).
Proof.
  intros Ha Hb. rewrite secureEqualHex_buffers. split.
  - now apply bufferFromHex_digest_inj.
  - now intros ->.
Qed.

(** The decoder reads a code unit through its low byte. *)
Lemma hexValue_lowByte (c : N) : hexValue (lowByte c) = hexValue c.
Proof.
  unfold hexValue. replace (lowByte (lowByte c)) with (lowByte c); [reflexivity|].
  unfold lowByte. symmetry. apply N.Div0.mod_mod.
Qed.

Lemma bufferFromHex_lowByte (a : jsstring) :
  bufferFromHex (List.map lowByte a) = bufferFromHex a.
Proof.
  assert (H : forall n (x : jsstring), (List.length x <= n)%nat ->
              bufferFromHex (List.map lowByte x) = bufferFromHex x).
  { induction n as [|n IH]; intros [|x1 [|x2 x]] Hn;
      cbn [List.length] in Hn; try reflexivity; try lia.
    cbn [List.map bufferFromHex]. rewrite !hexValue_lowByte, IH by lia.
    reflexivity. }
  now apply (H (List.length a)).
Qed.

(** X4.  On other strings the comparison is coarser than equality.  It is
    symmetric and transitive.  It reads only up to the first pair that is
    not two hexadecimal digits, so two strings whose first code units both
    have a low byte that is no hexadecimal digit compare equal whatever
    follows.  And it reads each code unit through its low byte only, so
    two strings with the same low bytes compare equal: the code unit
    [U+0130] counts as the digit [0], and the string of two of them decodes
    to the one byte 0 and differs from a string that decodes to nothing. *)
Theorem secureEqualHex_decoded_prefix :
  (forall a b, secureEqualHex a b = secureEqualHex b a)
  /\ (forall a b c, secureEqualHex a b = true -> secureEqualHex b c = true ->
                     secureEqualHex a c = true)
  /\ (forall x y r1 r2, hexValue x = None -> hexValue y = None ->
                        secureEqualHex (x :: r1) (y :: r2) = true)
  /\ (forall a b, List.map lowByte a = List.map lowByte b ->
                  secureEqualHex a b = true)
  /\ hexValue 304 = Some 0%N
  /\ bufferFromHex [304; 304]%N = [0%N]
  /\ secureEqualHex [304; 304]%N (js "zz") = false.
Proof.
  split; [|split; [|split; [|split]]].
  - intros a b. destruct (secureEqualHex a b) eqn:E1, (secureEqualHex b a) eqn:E2; auto.
    + apply secureEqualHex_buffers in E1. symmetry in E1.
      apply secureEqualHex_buffers in E1. congruence.
    + apply secureEqualHex_buffers in E2. symmetry in E2.
      apply secureEqualHex_buffers in E2. congruence.
  - intros a b c Hab Hbc. apply secureEqualHex_buffers in Hab, Hbc.
    apply secureEqualHex_buffers. congruence.
  - intros x y r1 r2 Hx Hy. apply secureEqualHex_buffers.
    destruct r1, r2; cbn [bufferFromHex]; rewrite ?Hx, ?Hy; reflexivity.
  - intros a b Hab. apply secureEqualHex_buffers.
    rewrite <- (bufferFromHex_lowByte a), <- (bufferFromHex_lowByte b).
    now rewrite Hab.
  - vm_compute. repeat split.
Qed.

(** ** The secret and the hashed text *)

(** X5.  The key of the hash is never empty: it is [PHONE_OTP_SECRET] when
    that is set to a non-empty string, otherwise [NEXTAUTH_SECRET] when that
    is set to a non-empty string, otherwise the built-in fallback; a
    variable set to the empty string counts as unset. *)
Theorem getOtpSecret_precedence (env : Env) :
  getOtpSecret env <> []
  /\ (forall k, k <> [] -> PHONE_OTP_SECRET env = Some k -> getOtpSecret env = k)
  /\ (forall k, k <> [] ->
        PHONE_OTP_SECRET env = None \/ PHONE_OTP_SECRET env = Some [] ->
        NEXTAUTH_SECRET env = Some k -> getOtpSecret env = k)
  /\ (PHONE_OTP_SECRET env = None \/ PHONE_OTP_SECRET env = Some [] ->
      NEXTAUTH_SECRET env = None \/ NEXTAUTH_SECRET env = Some [] ->
      getOtpSecret env = js "phone-otp-fallback-secret-change-me").
Proof.
  unfold getOtpSecret, orElse. repeat split.
  - destruct (PHONE_OTP_SECRET env) as [[|c k]|];
      destruct (NEXTAUTH_SECRET env) as [[|c' k']|]; discriminate.
  - intros k Hk ->. destruct k; [now elim Hk | reflexivity].
  - intros k Hk [->| ->] ->; (destruct k; [now elim Hk | reflexivity]).
  - intros [->| ->] [->| ->]; reflexivity.
Qed.

Lemma app_inj_same_length {A} (l1 l2 r1 r2 : list A) :
  List.length r1 = List.length r2 -> l1 ++ r1 = l2 ++ r2 -> l1 = l2 /\ r1 = r2.
Proof.
  revert l2; induction l1 as [|x l1 IH]; intros [|y l2] Hlen Heq; simpl in *.
  - auto.
  - apply (f_equal (@List.length A)) in Heq. simpl in Heq.
    rewrite length_app in Heq. lia.
  - apply (f_equal (@List.length A)) in Heq. simpl in Heq.
    rewrite length_app in Heq. lia.
  - injection Heq as -> Heq. destruct (IH l2 Hlen Heq) as [-> ->]. auto.
Qed.

(** X6.  The text that is hashed is the phone number, a colon and the
    code; for six-digit codes it determines both, so a hash computed for one
    phone number and code is never the hash of the same text split
    otherwise. *)
Theorem otpMessage_determines_phone_and_code (env : Env)
  (phone1 code1 phone2 code2 : jsstring) :
  sixDigits code1 -> sixDigits code2 ->
  hashOtpCode env phone1 code1
  = hmacSha256Hex (getOtpSecret env) (otpMessage phone1 code1)
  /\ (otpMessage phone1 code1 = otpMessage phone2 code2 ->
      phone1 = phone2 /\ code1 = code2).
Proof.
  intros [H1 _] [H2 _]. split; [reflexivity|].
  unfold otpMessage. intros Heq.
  apply app_inj_same_length in Heq as [Hp Hc].
  - injection Hc as Hc. auto.
  - simpl. congruence.
Qed.

(** ** Phone numbers *)

Lemma testPhoneE164_isE164 (s : jsstring) : testPhoneE164 s = true <-> isE164 s.
Proof.
  unfold testPhoneE164, isE164. destruct s as [|c digits].
  - split; [discriminate | intros (d & H & _); discriminate].
  - rewrite !andb_true_iff, N.eqb_eq, !Nat.leb_le, forallb_forall, <- Forall_forall.
    split.
    + intros [[[-> H8] H15] Hd]. exists digits. repeat split; auto.
    + intros (d & H & Hlen & Hd). injection H as -> ->. repeat split; auto; lia.
Qed.

Lemma isDigit_not_separator (c : N) : isDigit c = true -> isPhoneSeparator c = false.
Proof.
  intros H. unfold isPhoneSeparator. rewrite (isDigit_not_space c H).
  unfold isDigit in H. apply andb_true_iff in H as [H1 H2].
  apply N.leb_le in H1. apply N.leb_le in H2.
  repeat match goal with
         | |- context [N.eqb ?a ?b] => destruct (N.eqb_spec a b); try lia
         end.
Qed.

Lemma isDigit_allowed (c : N) : isDigit c = true -> isPhoneAllowedChar c = true.
Proof.
  intros H. unfold isPhoneAllowedChar. rewrite H.
  now rewrite orb_true_r.
Qed.

Lemma stripPhoneSeparators_digits (s : jsstring) :
  List.Forall (fun c => isDigit c = true) s -> stripPhoneSeparators s = s.
Proof.
  unfold stripPhoneSeparators. induction 1 as [|c s Hc _ IH]; simpl; auto.
  rewrite (isDigit_not_separator c Hc). simpl. now rewrite IH.
Qed.

(** A number the normalizer returns has passed its last test. *)
Lemma normalizePhoneNumber_Some_isE164 (input : option jsstring) (n : jsstring) :
  normalizePhoneNumber input = Ok (Some n) -> isE164 n.
Proof.
  unfold normalizePhoneNumber.
  destruct (sanitizeOptionalText input 32) as [[|c cleaned]|]; try discriminate.
  destruct (testPhoneAllowed (c :: cleaned)); cbn [negb]; [|discriminate].
  cbv zeta.
  match goal with
  | |- context [testPhoneE164 ?m] => destruct (testPhoneE164 m) eqn:E
  end; cbn [negb]; [|discriminate].
  intros H; injection H as <-. now apply testPhoneE164_isE164.
Qed.

(** X7.  The normalizer has three outcomes only: no number ([null]), the
    one validation error 400, or a number made of a plus sign followed by 8
    to 15 decimal digits.  It answers no number exactly when the sanitizer
    leaves nothing, that is when the sanitizer returns [null] or the empty
    string: then it does not throw, and on any other sanitized text it does
    not answer [null]. *)
Theorem normalizePhoneNumber_outcomes (input : option jsstring) :
  (normalizePhoneNumber input = Ok None
   <-> (sanitizeOptionalText input 32 = None
        \/ sanitizeOptionalText input 32 = Some []))
  /\ (normalizePhoneNumber input = Ok None
      \/ normalizePhoneNumber input = Throw invalidPhoneError
      \/ exists n, normalizePhoneNumber input = Ok (Some n) /\ isE164 n).
Proof.
  unfold normalizePhoneNumber.
  destruct (sanitizeOptionalText input 32) as [[|c cleaned]|].
  - split; [split; auto | auto].
  - assert (Hno : Some (c :: cleaned) = None \/ Some (c :: cleaned) = Some [] -> False).
    { intros [H|H]; discriminate H. }
    destruct (testPhoneAllowed (c :: cleaned)); cbn [negb].
    + cbv zeta.
      match goal with
      | |- context [testPhoneE164 ?n] => destruct (testPhoneE164 n) eqn:E
      end; cbn [negb].
      * split; [split; [discriminate | intros H; now elim Hno] |].
        right; right. eexists. split; [reflexivity|].
        now apply testPhoneE164_isE164.
      * split; [split; [discriminate | intros H; now elim Hno] | auto].
    + split; [split; [discriminate | intros H; now elim Hno] | auto].
  - split; [split; auto | auto].
Qed.

(** The normalizer on a sanitized text that passes the character test. *)
Lemma normalizePhoneNumber_cleaned (input : option jsstring) (cleaned : jsstring) :
  sanitizeOptionalText input 32 = Some cleaned ->
  testPhoneAllowed cleaned = true ->
  normalizePhoneNumber input
  = let n0 := stripPhoneSeparators cleaned in
    let n1 := if startsWith (js "00") n0 then 43%N :: List.skipn 2 n0 else n0 in
    let n2 := if startsWith (js "+") n1 then n1 else 43%N :: n1 in
    if testPhoneE164 n2 then Ok (Some n2) else Throw invalidPhoneError.
Proof.
  intros Hs Ha. unfold normalizePhoneNumber. rewrite Hs.
  destruct cleaned as [|c l]; [discriminate Ha|].
  rewrite Ha. cbv zeta.
  set (n0 := stripPhoneSeparators (c :: l)).
  destruct (startsWith (js "00") n0);
    match goal with
    | |- context [startsWith (js "+") ?n] => destruct (startsWith (js "+") n)
    end; cbn [negb];
    match goal with
    | |- context [testPhoneE164 ?n] => destruct (testPhoneE164 n)
    end; reflexivity.
Qed.

Lemma testPhoneAllowed_digits (s : jsstring) :
  (7 <= List.length s <= 24)%nat ->
  List.Forall (fun c => isDigit c = true \/ c = 43%N) s ->
  testPhoneAllowed s = true.
Proof.
  intros Hlen Hd. unfold testPhoneAllowed.
  rewrite !andb_true_iff, !Nat.leb_le. repeat split; try lia.
  apply forallb_forall. intros c Hc. rewrite Forall_forall in Hd.
  destruct (Hd c Hc) as [H| ->]; [now apply isDigit_allowed | reflexivity].
Qed.

(** The three spellings of a number, once sanitized. *)
Lemma normalizePhoneNumber_plus (input : option jsstring) (digits : jsstring) :
  (8 <= List.length digits <= 15)%nat ->
  List.Forall (fun c => isDigit c = true) digits ->
  sanitizeOptionalText input 32 = Some (43%N :: digits) ->
  normalizePhoneNumber input = Ok (Some (43%N :: digits)).
Proof.
  intros Hlen Hd Hs.
  rewrite (normalizePhoneNumber_cleaned input _ Hs).
  - assert (Hstrip : stripPhoneSeparators (43%N :: digits) = 43%N :: digits).
    { unfold stripPhoneSeparators. cbn [List.filter].
      change (negb (isPhoneSeparator 43)) with true. cbv iota.
      change (List.filter _ digits) with (stripPhoneSeparators digits).
      now rewrite stripPhoneSeparators_digits. }
    cbv zeta. rewrite Hstrip.
    change (startsWith (js "00") (43%N :: digits)) with false. cbv iota.
    change (startsWith (js "+") (43%N :: digits)) with true. cbv iota.
    assert (He : testPhoneE164 (43%N :: digits) = true).
    { apply testPhoneE164_isE164. exists digits. auto. }
    now rewrite He.
  - apply testPhoneAllowed_digits; [simpl; lia|].
    constructor; [now right|]. eapply Forall_impl; [|exact Hd]. cbv beta. auto.
Qed.

(** X8.  A number written with a leading plus sign, with a leading 00, or
    bare (not beginning with 00) normalizes to the same result, the plus
    sign followed by the digits, when the digits are 8 to 15. *)
Theorem normalizePhoneNumber_spellings (digits : jsstring) :
  (8 <= List.length digits <= 15)%nat ->
  List.Forall (fun c => isDigit c = true) digits ->
  forall input,
    (sanitizeOptionalText input 32 = Some (43%N :: digits)
     \/ sanitizeOptionalText input 32 = Some (js "00" ++ digits)
     \/ (sanitizeOptionalText input 32 = Some digits
         /\ startsWith (js "00") digits = false)) ->
    normalizePhoneNumber input = Ok (Some (43%N :: digits)).
Proof.
  intros Hlen Hd input Hcases.
  assert (He : testPhoneE164 (43%N :: digits) = true).
  { apply testPhoneE164_isE164. exists digits. auto. }
  destruct Hcases as [Hs|[Hs|[Hs H00]]].
  - now apply normalizePhoneNumber_plus.
  - assert (Hd2 : List.Forall (fun c => isDigit c = true) (js "00" ++ digits)).
    { apply Forall_app. split; auto. repeat constructor. }
    rewrite (normalizePhoneNumber_cleaned input _ Hs).
    + cbv zeta. rewrite (stripPhoneSeparators_digits _ Hd2).
      change (js "00" ++ digits) with (48%N :: 48%N :: digits).
      change (startsWith (js "00") (48%N :: 48%N :: digits)) with true. cbv iota.
      cbn [List.skipn].
      change (startsWith (js "+") (43%N :: digits)) with true. cbv iota.
      now rewrite He.
    + apply testPhoneAllowed_digits.
      * rewrite length_app. simpl. lia.
      * eapply Forall_impl; [|exact Hd2]. cbv beta. auto.
  - rewrite (normalizePhoneNumber_cleaned input _ Hs).
    + cbv zeta. rewrite (stripPhoneSeparators_digits _ Hd), H00.
      assert (Hplus : startsWith (js "+") digits = false).
      { destruct digits as [|d digits]; [simpl in Hlen; lia|].
        inversion Hd as [|? ? Hdd _]; subst.
        unfold isDigit in Hdd. apply andb_true_iff in Hdd as [H1 _].
        apply N.leb_le in H1. cbn [startsWith js List.map list_ascii_of_string].
        change (N_of_ascii "+") with 43%N.
        destruct (N.eqb_spec 43 d); [lia|reflexivity]. }
      rewrite Hplus. now rewrite He.
    + apply testPhoneAllowed_digits; [lia|].
      eapply Forall_impl; [|exact Hd]. cbv beta. auto.
Qed.

(** X9.  The normalizer is idempotent on its results: a number it returned,
    passed in again and left alone by the sanitizer, comes back
    unchanged. *)
Theorem normalizePhoneNumber_idempotent (input : option jsstring) (n : jsstring) :
  normalizePhoneNumber input = Ok (Some n) ->
  sanitizeOptionalText (Some n) 32 = Some n ->
  normalizePhoneNumber (Some n) = Ok (Some n).
Proof.
  intros Hn Hs.
  destruct (normalizePhoneNumber_Some_isE164 _ _ Hn) as (digits & -> & Hlen & Hd).
  now apply normalizePhoneNumber_plus.
Qed.

(** X10.  Separators are immaterial: two sanitized inputs that pass the
    character test and differ only in parentheses, hyphens, dots and white
    space normalize to the same result. *)
Theorem normalizePhoneNumber_separators (input1 input2 : option jsstring)
  (cleaned1 cleaned2 : jsstring) :
  sanitizeOptionalText input1 32 = Some cleaned1 ->
  sanitizeOptionalText input2 32 = Some cleaned2 ->
  testPhoneAllowed cleaned1 = true -> testPhoneAllowed cleaned2 = true ->
  stripPhoneSeparators cleaned1 = stripPhoneSeparators cleaned2 ->
  normalizePhoneNumber input1 = normalizePhoneNumber input2.
Proof.
  intros H1 H2 Ha1 Ha2 Hstrip. unfold normalizePhoneNumber.
  rewrite H1, H2.
  destruct cleaned1 as [|c1 l1]; [discriminate Ha1|].
  destruct cleaned2 as [|c2 l2]; [discriminate Ha2|].
  now rewrite Ha1, Ha2, Hstrip.
Qed.

(** X11.  The mask shows at most five characters of a number: it is never
    longer than 8 characters, it is a hyphen for no number, and for a
    normalized number it is the plus sign and the first two digits, three
    asterisks and the last two digits, so that at least four digits are
    hidden and numbers that agree on those five characters are masked
    alike. *)
Theorem maskPhoneNumber_hides :
  (forall p, (List.length (maskPhoneNumber p) <= 8)%nat)
  /\ maskPhoneNumber None = js "-" /\ maskPhoneNumber (Some []) = js "-"
  /\ (forall n, isE164 n ->
        maskPhoneNumber (Some n)
        = List.firstn 3 n ++ js "***" ++ List.skipn (List.length n - 2) n
        /\ List.length (maskPhoneNumber (Some n)) = 8%nat
        /\ (4 <= List.length n - 5)%nat)
  /\ (forall n1 n2, isE164 n1 -> isE164 n2 ->
        List.firstn 3 n1 = List.firstn 3 n2 ->
        List.skipn (List.length n1 - 2) n1 = List.skipn (List.length n2 - 2) n2 ->
        maskPhoneNumber (Some n1) = maskPhoneNumber (Some n2)).
Proof.
  assert (Hlong : forall n, isE164 n ->
            maskPhoneNumber (Some n)
            = List.firstn 3 n ++ js "***" ++ List.skipn (List.length n - 2) n
            /\ (9 <= List.length n)%nat).
  { intros n (digits & -> & Hlen & _).
    assert (H9 : (9 <= List.length (43%N :: digits))%nat) by (simpl; lia).
    split; auto. unfold maskPhoneNumber.
    destruct (Nat.leb_spec (List.length (43%N :: digits)) 5); [lia|reflexivity]. }
  split; [|split; [reflexivity|split; [reflexivity|split]]].
  - intros [[|c p]|]; [cbn; lia | | cbn; lia].
    unfold maskPhoneNumber.
    destruct (Nat.leb_spec (List.length (c :: p)) 5).
    + rewrite length_app, length_firstn.
      change (List.length (js "***")) with 3%nat. lia.
    + rewrite !length_app, length_firstn, length_skipn.
      change (List.length (js "***")) with 3%nat. lia.
  - intros n Hn. destruct (Hlong n Hn) as [Heq H9]. split; auto.
    rewrite Heq, !length_app, length_firstn, length_skipn.
    change (List.length (js "***")) with 3%nat. lia.
  - intros n1 n2 H1 H2 Hf Hl.
    destruct (Hlong n1 H1) as [-> _]. destruct (Hlong n2 H2) as [-> _].
    now rewrite Hf, Hl.
Qed.

(** ** The requester's address *)

Lemma dropWhile_head {A} (p : A -> bool) (l : list A) (x : A) (rest : list A) :
  dropWhile p l = x :: rest -> p x = false.
Proof.
  induction l as [|y l IH]; simpl; [discriminate|].
  destruct (p y) eqn:E; auto. intros H; injection H as <- _. exact E.
Qed.

Lemma dropWhile_Forall {A} (p : A -> bool) (P : A -> Prop) (l : list A) :
  List.Forall P l -> List.Forall P (dropWhile p l).
Proof.
  induction 1 as [|y l Hy Hl IH]; simpl; auto.
  destruct (p y); auto.
Qed.

Lemma takeWhile_Forall {A} (p : A -> bool) (l : list A) :
  List.Forall (fun x => p x = true) (takeWhile p l).
Proof.
  induction l as [|y l IH]; simpl; auto.
  destruct (p y) eqn:E; auto.
Qed.

Lemma dropWhile_snoc {A} (p : A -> bool) (l : list A) (x : A) :
  p x = false -> dropWhile p (l ++ [x]) = dropWhile p l ++ [x].
Proof.
  intros Hx. induction l as [|y l IH]; simpl.
  - now rewrite Hx.
  - destruct (p y); auto.
Qed.

Lemma trim_ends (s : jsstring) :
  (forall c rest, trim s = c :: rest -> isWhiteSpace c = false)
  /\ (forall c init, trim s = init ++ [c] -> isWhiteSpace c = false).
Proof.
  unfold trim. split.
  - intros c rest H.
    destruct (dropWhile isWhiteSpace s) as [|x l] eqn:E; [discriminate|].
    pose proof (dropWhile_head _ _ _ _ E) as Hx.
    cbn [List.rev] in H.
    rewrite (dropWhile_snoc _ _ _ Hx), rev_app_distr in H.
    simpl in H. now injection H as <- _.
  - intros c init H.
    apply (f_equal (@List.rev N)) in H. rewrite rev_involutive, rev_app_distr in H.
    simpl in H. now apply dropWhile_head in H.
Qed.

Lemma takeWhile_dropWhile {A} (p : A -> bool) (l : list A) :
  takeWhile p l ++ dropWhile p l = l.
Proof.
  induction l as [|y l IH]; simpl; auto.
  destruct (p y); simpl; [now rewrite IH | reflexivity].
Qed.

(** What [trim] removes: white space before and white space after. *)
Lemma trim_split (s : jsstring) :
  exists lead trail,
    s = lead ++ trim s ++ trail
    /\ List.Forall (fun ch => isWhiteSpace ch = true) lead
    /\ List.Forall (fun ch => isWhiteSpace ch = true) trail.
Proof.
  set (d := dropWhile isWhiteSpace s).
  exists (takeWhile isWhiteSpace s), (List.rev (takeWhile isWhiteSpace (List.rev d))).
  split; [|split].
  - unfold trim. fold d. rewrite <- rev_app_distr, takeWhile_dropWhile, rev_involutive.
    unfold d. now rewrite takeWhile_dropWhile.
  - apply takeWhile_Forall.
  - apply Forall_rev, takeWhile_Forall.
Qed.

(** What [split(',')[0]] keeps: the text up to the first comma. *)
Lemma firstCommaField_split (s : jsstring) :
  exists rest,
    s = firstCommaField s ++ rest
    /\ List.Forall (fun ch => ch <> 44%N) (firstCommaField s)
    /\ (rest = [] \/ exists r, rest = 44%N :: r).
Proof.
  unfold firstCommaField.
  exists (dropWhile (fun c => negb (N.eqb c 44)) s). split; [|split].
  - now rewrite takeWhile_dropWhile.
  - eapply Forall_impl; [|apply takeWhile_Forall]. cbv beta.
    intros ch Hch Heq. subst ch. discriminate.
  - destruct (dropWhile _ s) as [|x r] eqn:E; [now left|].
    right. exists r. apply dropWhile_head in E.
    apply negb_false_iff, N.eqb_eq in E. now subst x.
Qed.

(** X12.  The requester's address is never the empty string.  When
    [x-forwarded-for] is present and not empty, the header reads as some
    white space, the address, some white space, and then either nothing or
    a comma and the rest: the text before the first comma counts, with the
    white space at its two ends removed.  That address is what the function
    returns when it is not empty, and it returns [null] when it is empty,
    that is when the first field is blank; [x-real-ip] is not looked at in
    either case.  Only without [x-forwarded-for], or with an empty one, is
    [x-real-ip] returned, and [null] when that is absent or empty too. *)
Theorem getRequestIp_first_forwarded :
  (forall forwarded realIp, getRequestIp forwarded realIp <> Some [])
  /\ (forall c f realIp,
        exists lead ip trail rest,
          c :: f = lead ++ ip ++ trail ++ rest
          /\ List.Forall (fun ch => isWhiteSpace ch = true) lead
          /\ List.Forall (fun ch => isWhiteSpace ch = true) trail
          /\ List.Forall (fun ch => ch <> 44%N) (lead ++ ip ++ trail)
          /\ (rest = [] \/ exists r, rest = 44%N :: r)
          /\ (forall ch t, ip = ch :: t -> isWhiteSpace ch = false)
          /\ (forall ch i, ip = i ++ [ch] -> isWhiteSpace ch = false)
          /\ getRequestIp (Some (c :: f)) realIp
             = match ip with
               | [] => None
               | _ :: _ => Some ip
               end)
  /\ (forall realIp,
        getRequestIp None realIp = getRequestIp (Some []) realIp
        /\ getRequestIp None realIp
           = match realIp with
             | Some (c :: r) => Some (c :: r)
             | _ => None
             end).
Proof.
  split; [|split].
  - intros [[|c f]|] [[|c' r]|]; simpl; try discriminate;
      destruct (trim _); discriminate.
  - intros c f realIp.
    destruct (firstCommaField_split (c :: f)) as (rest & Hs & Hcomma & Hrest).
    destruct (trim_split (firstCommaField (c :: f))) as (lead & trail & Ht & Hl & Hr).
    exists lead, (trim (firstCommaField (c :: f))), trail, rest.
    repeat split.
    + rewrite Hs at 1. rewrite Ht at 1. now rewrite <- !app_assoc.
    + exact Hl.
    + exact Hr.
    + now rewrite <- Ht.
    + exact Hrest.
    + apply trim_ends.
    + apply trim_ends.
    + unfold getRequestIp, orNull.
      destruct (trim (firstCommaField (c :: f))); reflexivity.
  - intros realIp. split; [reflexivity|]. destruct realIp as [[|c r]|]; reflexivity.
Qed.

(** ** The issuer's purge and refusals *)

Lemma createdRow_live (env : Env) (now rnd stamp : Z) (input : IssueInput) (s : Store) :
  purgeable now (createdRow env now rnd stamp input s) = false.
Proof.
  unfold purgeable, createdRow, newRow, MAX_VERIFY_ATTEMPTS.
  cbn [expiresAt consumedAt attempts isSome].
  pose proof (getOtpTtlMinutes_range env).
  destruct (Z.ltb_spec (now + getOtpTtlMinutes env * 60 * 1000) now); [lia|].
  reflexivity.
Qed.

(** The table after a call of the issuer is the purged table, with the
    created row appended when the call succeeded. *)
Lemma issue_store_cases (env : Env) (now rnd stamp : Z) (input : IssueInput)
  (s : Store) :
  (exists e, issuePhoneLoginCode env now rnd stamp input s = (Throw e, purge now s))
  \/ (exists out, issuePhoneLoginCode env now rnd stamp input s
                  = (Ok out, {| rows := rows (purge now s)
                                        ++ [createdRow env now rnd stamp input (purge now s)];
                                nextId := N.succ (nextId s) |})).
Proof.
  rewrite issuePhoneLoginCode_eq. cbv zeta.
  destruct (MAX_REQUESTS_PER_WINDOW <=? _); [left; eauto|].
  destruct (latestFor _ _) as [l|];
    [destruct (_ <? RESEND_COOLDOWN_SECONDS); [left; eauto|]|];
    right; eauto.
Qed.

(** Rows that are neither expired, consumed nor exhausted survive a call of
    the issuer. *)
Lemma issue_keeps_live_rows (env : Env) (now rnd stamp : Z)
  (input : IssueInput) (s : Store) (r : PhoneLoginCode) :
  List.In r (rows s) -> purgeable now r = false ->
  List.In r (rows (snd (issuePhoneLoginCode env now rnd stamp input s))).
Proof.
  intros Hr Hp.
  assert (Hin : List.In r (rows (purge now s))).
  { unfold purge; cbn [rows]. apply filter_In. split; auto. now rewrite Hp. }
  destruct (issue_store_cases env now rnd stamp input s) as [(e & ->)|(out & ->)];
    cbn [snd rows]; auto. apply in_or_app. now left.
Qed.

(** X13.  Every call of the issuer, refused or not, cleans the whole table:
    afterwards no row of any phone number is expired at the time of the
    call, consumed or at 5 attempts, and every row that was in none of these
    states is still there. *)
Theorem issue_purges_every_phone (env : Env) (now rnd stamp : Z)
  (input : IssueInput) (s : Store) :
  let s' := snd (issuePhoneLoginCode env now rnd stamp input s) in
  List.Forall (fun r => now <= expiresAt r /\ consumedAt r = None
                        /\ attempts r < MAX_VERIFY_ATTEMPTS) (rows s')
  /\ List.Forall (fun r => purgeable now r = false -> List.In r (rows s')) (rows s).
Proof.
  intros s'.
  assert (Hlive : forall r, purgeable now r = false ->
            now <= expiresAt r /\ consumedAt r = None
            /\ attempts r < MAX_VERIFY_ATTEMPTS).
  { intros r Hr. unfold purgeable in Hr.
    apply orb_false_iff in Hr as [Hr Hatt]. apply orb_false_iff in Hr as [Hexp Hcons].
    apply Z.ltb_ge in Hexp. apply Z.leb_gt in Hatt.
    destruct (consumedAt r); [discriminate|]. auto. }
  assert (Hkept : forall r, List.In r (rows s) -> purgeable now r = false ->
            List.In r (rows (purge now s))).
  { intros r Hr Hp. unfold purge; cbn [rows]. apply filter_In. split; auto.
    now rewrite Hp. }
  subst s'.
  destruct (issue_store_cases env now rnd stamp input s) as [(e & ->)|(out & ->)];
    cbn [snd rows]; split; apply Forall_forall; intros r Hr.
  - apply Hlive. now apply purge_rows_incl in Hr as [_ Hr].
  - intros Hp. now apply Hkept.
  - apply in_app_or in Hr as [Hr|[<-|[]]].
    + apply Hlive. now apply purge_rows_incl in Hr as [_ Hr].
    + apply Hlive. apply createdRow_live.
  - intros Hp. apply in_or_app. left. now apply Hkept.
Qed.

(** X14.  The issuer throws nothing but its two 429 errors; a refused call
    creates no row and uses up no key: its only effect is the purge. *)
Theorem issue_refusal_only_purges (env : Env) (now rnd stamp : Z)
  (input : IssueInput) (s s1 : Store) (e : HttpError) :
  issuePhoneLoginCode env now rnd stamp input s = (Throw e, s1) ->
  s1 = purge now s /\ nextId s1 = nextId s /\ status e = 429
  /\ (e = rateLimitError
      \/ exists l, latestFor (issue_phoneNumber input) (purge now s) = Some l
                   /\ now - createdAt l < 60000
                   /\ e = cooldownError ((now - createdAt l) / 1000)).
Proof.
  rewrite issuePhoneLoginCode_eq. cbv zeta.
  destruct (MAX_REQUESTS_PER_WINDOW <=? _).
  - intros H; injection H as <- <-. repeat split. now left.
  - destruct (latestFor _ _) as [l|]; [|discriminate].
    destruct (Z.ltb_spec ((now - createdAt l) / 1000) RESEND_COOLDOWN_SECONDS)
      as [Hlt|Hge]; [|discriminate].
    intros H; injection H as <- <-. repeat split. right. exists l.
    repeat split. now apply seconds_lt_cooldown.
Qed.

(** ** What the verifier leaves alone *)

Lemma updateRow_rowCores (key : N) (data : PhoneLoginCode -> PhoneLoginCode)
  (s : Store) :
  (forall r, rowCore (data r) = rowCore r) ->
  List.map rowCore (rows (updateRow key data s)) = List.map rowCore (rows s).
Proof.
  intros Hd. unfold updateRow; cbn [rows]. rewrite map_map.
  apply map_ext. intros r. destruct (N.eqb (id r) key); auto.
Qed.

Lemma verify_rowCores (env : Env) (now : Z) (input : VerifyInput) (s : Store) :
  List.map rowCore (rows (snd (verifyPhoneLoginCode env now input s)))
  = List.map rowCore (rows s).
Proof.
  rewrite verifyPhoneLoginCode_eq.
  destruct (normalizeOtpCode _) as [c|e]; [|reflexivity].
  destruct (activeCode _ _ _) as [a|]; [|reflexivity].
  destruct (MAX_VERIFY_ATTEMPTS <=? _); [reflexivity|].
  destruct (secureEqualHex _ _); cbn [snd]; now apply updateRow_rowCores.
Qed.

Lemma Forall2_map_self {A} (R : A -> A -> Prop) (f : A -> A) (l : list A) :
  (forall x, R x (f x)) -> List.Forall2 R l (List.map f l).
Proof. intros H. induction l; simpl; constructor; auto. Qed.

(** X15.  The verifier neither adds nor removes rows and never touches a
    row's key, phone number, hash, expiry, requester address or creation
    time; row by row, the attempt counter stays or goes up by one and the
    consumed stamp stays or becomes the time of the call. *)
Theorem verify_preserves_rows (env : Env) (now : Z) (input : VerifyInput)
  (s : Store) :
  let s' := snd (verifyPhoneLoginCode env now input s) in
  nextId s' = nextId s
  /\ List.map rowCore (rows s') = List.map rowCore (rows s)
  /\ List.Forall2
       (fun r r' => attempts r <= attempts r' <= attempts r + 1
                    /\ (consumedAt r' = consumedAt r \/ consumedAt r' = Some now))
       (rows s) (rows s').
Proof.
  intros s'. subst s'. split; [apply verify_nextId|]. split; [apply verify_rowCores|].
  assert (Hsame : List.Forall2
            (fun r r' => attempts r <= attempts r' <= attempts r + 1
                         /\ (consumedAt r' = consumedAt r \/ consumedAt r' = Some now))
            (rows s) (rows s)).
  { rewrite <- (map_id (rows s)) at 2. apply Forall2_map_self. intros; lia || (split; [lia|auto]). }
  rewrite verifyPhoneLoginCode_eq.
  destruct (normalizeOtpCode _) as [c|e]; [|exact Hsame].
  destruct (activeCode _ _ _) as [a|]; [|exact Hsame].
  destruct (MAX_VERIFY_ATTEMPTS <=? _); [exact Hsame|].
  destruct (secureEqualHex _ _); cbn [snd updateRow rows];
    apply Forall2_map_self; intros r; destruct (N.eqb (id r) (id a));
    cbn [consume incrementAttempts attempts consumedAt]; split; auto; lia.
Qed.

(** ** Phone numbers do not interfere *)

Lemma filter_filter_implied {A} (p q : A -> bool) (l : list A) :
  (forall x, p x = true -> q x = true) ->
  List.filter p (List.filter q l) = List.filter p l.
Proof.
  intros H. induction l as [|x l IH]; simpl; auto.
  destruct (q x) eqn:Eq; simpl.
  - now rewrite IH.
  - destruct (p x) eqn:Ep; auto. apply H in Ep. congruence.
Qed.

Lemma filter_comm {A} (p q : A -> bool) (l : list A) :
  List.filter p (List.filter q l) = List.filter q (List.filter p l).
Proof.
  induction l as [|x l IH]; simpl; auto.
  destruct (p x) eqn:Ep, (q x) eqn:Eq; simpl; rewrite ?Ep, ?Eq, IH; reflexivity.
Qed.

Lemma activeCode_restrictTo (phone : jsstring) (now : Z) (s : Store) :
  activeCode phone now (restrictTo phone s) = activeCode phone now s.
Proof.
  unfold activeCode, restrictTo; cbn [rows]. f_equal.
  apply filter_filter_implied. intros r Hr. unfold activeFor in Hr.
  apply andb_true_iff in Hr as [Hr _]. now apply andb_true_iff in Hr as [Hr _].
Qed.

(** X16.  What the verifier answers for a phone number depends on the rows
    of that phone number only, and it leaves the rows of every other phone
    number as they are. *)
Theorem verify_isolated (env : Env) (now : Z) (input : VerifyInput) (s : Store) :
  fst (verifyPhoneLoginCode env now input s)
  = fst (verifyPhoneLoginCode env now input (restrictTo (verify_phoneNumber input) s))
  /\ (wellFormed s ->
      forall r, List.In r (rows s) -> phoneNumber r <> verify_phoneNumber input ->
                List.In r (rows (snd (verifyPhoneLoginCode env now input s)))).
Proof.
  split.
  - rewrite !verifyPhoneLoginCode_eq, activeCode_restrictTo.
    destruct (normalizeOtpCode _) as [c|e]; [|reflexivity].
    destruct (activeCode _ _ _) as [a|]; [|reflexivity].
    destruct (MAX_VERIFY_ATTEMPTS <=? _); [reflexivity|].
    destruct (secureEqualHex _ _); reflexivity.
  - intros Hwf r Hr Hph. rewrite verifyPhoneLoginCode_eq.
    destruct (normalizeOtpCode _) as [c|e]; [|exact Hr].
    destruct (activeCode _ _ _) as [a|] eqn:Ha; [|exact Hr].
    apply activeCode_Some in Ha as (Hin & Hpa & _).
    destruct (MAX_VERIFY_ATTEMPTS <=? _); [exact Hr|].
    assert (Hid : id r <> id a).
    { intros Hid. apply Hph. rewrite <- Hpa. f_equal.
      eapply wellFormed_same_key; eauto. }
    destruct (secureEqualHex _ _); cbn [snd]; now apply updateRow_In_other.
Qed.

Lemma purge_restrictTo_filter (phone : jsstring) (now : Z) (q : PhoneLoginCode -> bool)
  (s : Store) :
  (forall r, q r = true -> isFor phone r = true) ->
  List.filter q (rows (purge now (restrictTo phone s)))
  = List.filter q (rows (purge now s)).
Proof.
  intros Hq. unfold purge, restrictTo; cbn [rows].
  rewrite (filter_comm _ (isFor phone)).
  now apply filter_filter_implied.
Qed.

(** X17.  Whether the issuer accepts or refuses a request, and with which
    error, depends on the rows of the requesting phone number only: no other
    phone number's requests can use up its rate limit or cooldown.  To the
    rows of other phone numbers a call does nothing but the purge. *)
Theorem issue_isolated (env : Env) (now rnd stamp : Z) (input : IssueInput)
  (s : Store) :
  fst (issuePhoneLoginCode env now rnd stamp input s)
  = fst (issuePhoneLoginCode env now rnd stamp input
           (restrictTo (issue_phoneNumber input) s))
  /\ (forall r, List.In r (rows s) -> phoneNumber r <> issue_phoneNumber input ->
        (List.In r (rows (snd (issuePhoneLoginCode env now rnd stamp input s)))
         <-> purgeable now r = false)).
Proof.
  split.
  - rewrite !issuePhoneLoginCode_eq. cbv zeta.
    unfold recentCount, latestFor.
    rewrite !(purge_restrictTo_filter (issue_phoneNumber input) now).
    + destruct (MAX_REQUESTS_PER_WINDOW <=? _); [reflexivity|].
      destruct (newest _) as [l|];
        [destruct (_ <? RESEND_COOLDOWN_SECONDS)|]; reflexivity.
    + auto.
    + intros r Hr. unfold recentFor in Hr. now apply andb_true_iff in Hr as [Hr _].
  - intros r Hr Hph. split.
    + intros Hin.
      destruct (issue_store_cases env now rnd stamp input s) as [(e & E)|(out & E)];
        rewrite E in Hin; cbn [snd rows] in Hin.
      * now apply purge_rows_incl in Hin as [_ Hin].
      * apply in_app_or in Hin as [Hin|[<-|[]]].
        -- now apply purge_rows_incl in Hin as [_ Hin].
        -- now elim Hph.
    + intros Hp.
      pose proof (issue_keeps_live_rows env now rnd stamp input s r Hr Hp).
      assumption.
Qed.

(** ** Tables reached with sane clocks *)

Lemma In_rowCore (l l' : list PhoneLoginCode) (r' : PhoneLoginCode) :
  List.map rowCore l' = List.map rowCore l -> List.In r' l' ->
  exists r, List.In r l /\ id r = id r' /\ phoneNumber r = phoneNumber r'
            /\ expiresAt r = expiresAt r' /\ createdAt r = createdAt r'.
Proof.
  intros Hmap Hin. apply (in_map rowCore) in Hin. rewrite Hmap in Hin.
  apply in_map_iff in Hin as (r & Hcore & Hr). exists r. split; auto.
  unfold rowCore in Hcore. injection Hcore as H1 H2 H3 H4 H5 H6. auto.
Qed.

Lemma filter_map_comm {A} (p : A -> bool) (f : A -> A) (l : list A) :
  (forall x, p (f x) = p x) ->
  List.filter p (List.map f l) = List.map f (List.filter p l).
Proof.
  intros H. induction l as [|x l IH]; simpl; auto.
  rewrite H. destruct (p x); simpl; now rewrite IH.
Qed.

Lemma verify_count (env : Env) (now : Z) (input : VerifyInput) (s : Store)
  (p : jsstring) :
  List.length (List.filter (isFor p) (rows (snd (verifyPhoneLoginCode env now input s))))
  = List.length (List.filter (isFor p) (rows s)).
Proof.
  assert (Hupd : forall key data,
            (forall r, phoneNumber (data r) = phoneNumber r) ->
            List.length (List.filter (isFor p) (rows (updateRow key data s)))
            = List.length (List.filter (isFor p) (rows s))).
  { intros key data Hd. unfold updateRow; cbn [rows].
    rewrite filter_map_comm, length_map; auto.
    intros r. unfold isFor. destruct (N.eqb (id r) key); auto. now rewrite Hd. }
  rewrite verifyPhoneLoginCode_eq.
  destruct (normalizeOtpCode _) as [c|e]; [|reflexivity].
  destruct (activeCode _ _ _) as [a|]; [|reflexivity].
  destruct (MAX_VERIFY_ATTEMPTS <=? _); [reflexivity|].
  destruct (secureEqualHex _ _); cbn [snd]; now apply Hupd.
Qed.

Lemma orderly_empty : orderly emptyStore.
Proof.
  split; [exact wellFormed_empty|]. repeat split; cbn; try tauto. intros; lia.
Qed.

Lemma orderly_purge (now : Z) (s : Store) : orderly s -> orderly (purge now s).
Proof.
  intros (Hwf & Hexp & Hsp & Hcnt). split; [now apply wellFormed_purge|].
  repeat split.
  - intros r Hr. apply purge_rows_incl in Hr as [Hr _]. auto.
  - intros r1 r2 H1 H2. apply purge_rows_incl in H1 as [H1 _].
    apply purge_rows_incl in H2 as [H2 _]. auto.
  - intros p. unfold purge; cbn [rows]. rewrite filter_comm.
    etransitivity; [apply filter_length_le | apply Hcnt].
Qed.

Lemma orderly_issue (env : Env) (now rnd stamp : Z) (input : IssueInput) (s : Store) :
  now <= stamp -> orderly s ->
  orderly (snd (issuePhoneLoginCode env now rnd stamp input s)).
Proof.
  intros Hclock Hs. pose proof (orderly_purge now s Hs) as Hp.
  destruct (issue_store_cases env now rnd stamp input s) as [(e & E)|(out & E)];
    rewrite E; cbn [snd]; [exact Hp|].
  apply issue_Ok_inv in E as (_ & _ & Hcount & Hold).
  destruct Hp as (Hwf & Hexp & Hsp & Hcnt).
  set (c := createdRow env now rnd stamp input (purge now s)) in *.
  assert (Hc_exp : expiresAt c <= createdAt c + 900000).
  { cbn. pose proof (getOtpTtlMinutes_range env). lia. }
  split; [exact (wellFormed_create (purge now s) c eq_refl Hwf)|].
  cbn [rows]. repeat split.
  - intros r Hr. apply in_app_or in Hr as [Hr|[<-|[]]]; auto.
  - intros r1 r2 H1 H2 Hph.
    apply in_app_or in H1 as [H1|[<-|[]]]; apply in_app_or in H2 as [H2|[<-|[]]];
      auto.
    + right. assert (Hle : createdAt r1 + 60000 <= now) by (apply Hold; auto).
      change (createdAt c) with stamp. lia.
    + right. assert (Hle : createdAt r2 + 60000 <= now)
        by (apply Hold; auto; now rewrite <- Hph).
      change (createdAt c) with stamp. lia.
  - intros p. rewrite filter_app, length_app. cbn [List.filter].
    destruct (isFor p c) eqn:Ec; cbn [List.length]; [|specialize (Hcnt p); lia].
    unfold isFor in Ec. apply jsstring_eqb_eq in Ec. cbn in Ec. subst p.
    assert (Heq : List.filter (isFor (issue_phoneNumber input)) (rows (purge now s))
                  = List.filter (recentFor (issue_phoneNumber input)
                                   (now - REQUEST_WINDOW_MINUTES * 60 * 1000))
                      (rows (purge now s))).
    { apply filter_ext_in. intros r Hr. unfold recentFor, isFor.
      destruct (jsstring_eqb (phoneNumber r) (issue_phoneNumber input)); auto.
      specialize (Hexp r Hr). apply purge_rows_incl in Hr as [_ Hlive].
      unfold purgeable in Hlive. apply orb_false_iff in Hlive as [Hlive _].
      apply orb_false_iff in Hlive as [Hlive _]. apply Z.ltb_ge in Hlive.
      unfold REQUEST_WINDOW_MINUTES. symmetry. apply Z.leb_le. lia. }
    rewrite Heq. unfold recentCount, MAX_REQUESTS_PER_WINDOW in Hcount. lia.
Qed.

Lemma orderly_verify (env : Env) (now : Z) (input : VerifyInput) (s : Store) :
  orderly s -> orderly (snd (verifyPhoneLoginCode env now input s)).
Proof.
  intros (Hwf & Hexp & Hsp & Hcnt). split; [now apply wellFormed_verify|].
  pose proof (verify_rowCores env now input s) as Hcores.
  repeat split.
  - intros r' Hr'. destruct (In_rowCore _ _ _ Hcores Hr') as (r & Hr & _ & _ & He & Hc).
    rewrite <- He, <- Hc. auto.
  - intros r1' r2' H1 H2 Hph.
    destruct (In_rowCore _ _ _ Hcores H1) as (r1 & Hr1 & Hi1 & Hp1 & _ & Hc1).
    destruct (In_rowCore _ _ _ Hcores H2) as (r2 & Hr2 & Hi2 & Hp2 & _ & Hc2).
    rewrite <- Hi1, <- Hi2, <- Hc1, <- Hc2. apply Hsp; auto. congruence.
  - intros p. rewrite verify_count. apply Hcnt.
Qed.

Lemma orderly_run (ops : list Op) (s : Store) :
  List.Forall clockSane ops -> orderly s -> orderly (run ops s).
Proof.
  intros Hops. revert s. induction Hops as [|op ops Hop _ IH]; intros s Hs; simpl; auto.
  apply IH. destruct op as [env now rnd stamp input | env now input].
  - rewrite step_issue. now apply orderly_issue.
  - rewrite step_verify. now apply orderly_verify.
Qed.

(** X18.  In every table reached from the empty one by calls whose rows
    are stamped not before the call's own clock reading, two rows of one
    phone number were created at least 60 seconds apart; so the rows of a
    phone number never tie on creation time and its newest row is
    determined. *)
Theorem codes_spaced_by_cooldown (ops : list Op) :
  List.Forall clockSane ops ->
  forall r1 r2,
    List.In r1 (rows (run ops emptyStore)) -> List.In r2 (rows (run ops emptyStore)) ->
    phoneNumber r1 = phoneNumber r2 -> id r1 <> id r2 ->
    60000 <= Z.abs (createdAt r1 - createdAt r2).
Proof.
  intros Hops r1 r2 H1 H2 Hph Hid.
  destruct (orderly_run ops emptyStore Hops orderly_empty) as (_ & _ & Hsp & _).
  destruct (Hsp r1 r2 H1 H2 Hph); [contradiction | assumption].
Qed.

(** X19.  In every such table a phone number has at most five rows, and
    every row expires at most 15 minutes after it was created. *)
Theorem at_most_five_rows_per_phone (ops : list Op) :
  List.Forall clockSane ops ->
  (forall phone,
     (List.length (List.filter (isFor phone) (rows (run ops emptyStore))) <= 5)%nat)
  /\ List.Forall (fun r => expiresAt r <= createdAt r + 15 * 60 * 1000)
       (rows (run ops emptyStore)).
Proof.
  intros Hops.
  destruct (orderly_run ops emptyStore Hops orderly_empty) as (_ & Hexp & _ & Hcnt).
  split; [exact Hcnt|]. apply Forall_forall. intros r Hr. specialize (Hexp r Hr). lia.
Qed.

(** ** When the verifier says false, and when true *)

(** X20.  For a phone number without a live row (no row at all, or every
    row consumed or at or past its expiry) the verifier answers false to
    every well-formed code and leaves the table as it is. *)
Theorem verify_without_live_row (env : Env) (now : Z) (input : VerifyInput)
  (s : Store) :
  sixDigits (stripWhiteSpace (verify_code input)) ->
  (forall r, List.In r (rows s) -> phoneNumber r = verify_phoneNumber input ->
             consumedAt r <> None \/ expiresAt r <= now) ->
  verifyPhoneLoginCode env now input s = (Ok false, s).
Proof.
  intros Hcode Hdead. rewrite verifyPhoneLoginCode_eq.
  unfold normalizeOtpCode. apply testDigits_sixDigits in Hcode. rewrite Hcode.
  cbn [negb]. unfold activeCode.
  rewrite filter_none; [reflexivity|].
  intros r Hr. unfold activeFor.
  destruct (jsstring_eqb (phoneNumber r) (verify_phoneNumber input)) eqn:Eph; auto.
  apply jsstring_eqb_eq in Eph. destruct (Hdead r Hr Eph) as [Hc|He].
  - destruct (consumedAt r); [reflexivity | now elim Hc].
  - destruct (consumedAt r); cbn; auto. apply Z.ltb_ge. lia.
Qed.

(** X21.  The verifier answers true only when the submitted code, stripped
    of white space, is six digits whose keyed hash decodes, as
    [Buffer.from(_, 'hex')] decodes it, to the same bytes as the hash stored
    in a row of that phone number that is not consumed, not expired, below 5
    attempts and the newest of the phone number's live rows.  When both
    hashes are digests as the hash prints them, they are the same string. *)
Theorem verify_true_only_on_match (env : Env) (now : Z) (input : VerifyInput)
  (s s1 : Store) :
  verifyPhoneLoginCode env now input s = (Ok true, s1) ->
  exists a c,
    List.In a (rows s)
    /\ phoneNumber a = verify_phoneNumber input
    /\ consumedAt a = None /\ now < expiresAt a
    /\ attempts a < MAX_VERIFY_ATTEMPTS
    /\ c = stripWhiteSpace (verify_code input) /\ sixDigits c
    /\ bufferFromHex (codeHash a)
       = bufferFromHex (hashOtpCode env (verify_phoneNumber input) c)
    /\ (isHexDigest (codeHash a) ->
        isHexDigest (hashOtpCode env (verify_phoneNumber input) c) ->
        codeHash a = hashOtpCode env (verify_phoneNumber input) c)
    /\ (forall r, List.In r (rows s) ->
           activeFor (verify_phoneNumber input) now r = true ->
           createdAt r <= createdAt a).
Proof.
  intros H. apply verify_true_inv in H as (c & a & Hc & Ha & Hlt & Heq & _).
  pose proof (activeCode_Some _ _ _ _ Ha) as (Hin & Hph & Hcons & Hexp).
  apply normalizeOtpCode_Ok in Hc as [Hc Hsix].
  apply secureEqualHex_buffers in Heq.
  exists a, c. repeat split; auto; try apply Hsix.
  - intros Hda Hdh. now apply bufferFromHex_digest_inj.
  - intros r Hr Hact. unfold activeCode in Ha. apply newest_Some in Ha as [_ Hmax].
    apply Hmax. apply filter_In. auto.
Qed.

(** A matching code on the table of [OneLiveCode]. *)
Lemma verify_match_last (others : list PhoneLoginCode) (r : PhoneLoginCode)
  (nid : N) (phone : jsstring) (env : Env) (now k : Z) (w c : jsstring) :
  phoneNumber r = phone -> consumedAt r = None ->
  (forall x, List.In x others -> phoneNumber x = phone -> createdAt x < createdAt r) ->
  (forall x, List.In x others -> id x <> id r) ->
  now < expiresAt r -> k < MAX_VERIFY_ATTEMPTS ->
  normalizeOtpCode w = Ok c ->
  secureEqualHex (codeHash r) (hashOtpCode env phone c) = true ->
  verifyPhoneLoginCode env now
    {| verify_phoneNumber := phone; verify_code := w |}
    {| rows := others ++ [withAttempts k r]; nextId := nid |}
  = (Ok true,
     {| rows := others ++ [consume now (withAttempts k r)]; nextId := nid |}).
Proof.
  intros Hph Hcons Hold Hkeys Hexp Hk Hw Heq. rewrite verifyPhoneLoginCode_eq.
  cbn [verify_phoneNumber verify_code].
  rewrite Hw, (activeCode_last others r nid phone Hph Hcons Hold _ _ Hexp).
  cbn [withAttempts attempts codeHash id].
  destruct (Z.leb_spec MAX_VERIFY_ATTEMPTS k); [lia|].
  rewrite Heq. now rewrite (updateRow_last others r nid Hkeys).
Qed.

(** X22.  Up to four wrong tries do not block the right code: after a
    successful issuance, when at most four well-formed codes that do not
    match are submitted while the code is live, each is answered false, and
    the issued code submitted next, still before its expiry, is answered
    true; its row is then consumed and has counted every one of the
    submissions. *)
Theorem right_code_after_wrong_tries (env : Env) (now rnd stamp : Z)
  (input : IssueInput) (s s1 : Store) (out : IssueOutput)
  (wrong : list (Z * jsstring)) (t : Z) :
  wellFormed s -> now <= stamp -> 0 <= rnd < 10 ^ 6 ->
  issuePhoneLoginCode env now rnd stamp input s = (Ok out, s1) ->
  (List.length wrong <= 4)%nat ->
  (forall tw, List.In tw wrong ->
     fst tw < out_expiresAt out
     /\ exists c, normalizeOtpCode (snd tw) = Ok c
          /\ secureEqualHex
               (hashOtpCode env (issue_phoneNumber input) (out_code out))
               (hashOtpCode env (issue_phoneNumber input) c) = false) ->
  t < out_expiresAt out ->
  let ops := List.map (fun tw => OpVerify env (fst tw)
               {| verify_phoneNumber := issue_phoneNumber input;
                  verify_code := snd tw |}) wrong in
  trace ops s1 = List.repeat (Verified (Ok false)) (List.length wrong)
  /\ exists s2 consumed,
       verifyPhoneLoginCode env t
         {| verify_phoneNumber := issue_phoneNumber input;
            verify_code := out_code out |} (run ops s1)
       = (Ok true, s2)
       /\ List.In consumed (rows s2)
       /\ id consumed = nextId s
       /\ consumedAt consumed = Some t
       /\ attempts consumed = Z.of_nat (List.length wrong) + 1.
Proof.
  intros Hwf Hstamp Hrnd Hissue Hlen Hwrong Ht ops.
  apply issue_Ok_inv in Hissue as (-> & -> & _ & Hold).
  cbn [out_code out_expiresAt] in *.
  set (created := createdRow env now rnd stamp input (purge now s)) in *.
  change created with (withAttempts 0 created) in ops |- *.
  assert (Holder : forall x, List.In x (rows (purge now s)) ->
            phoneNumber x = issue_phoneNumber input ->
            createdAt x < createdAt created).
  { intros x Hx Hph. specialize (Hold x Hx Hph). cbn. lia. }
  assert (Hkeys : forall x, List.In x (rows (purge now s)) -> id x <> id created).
  { intros x Hx. apply purge_rows_incl in Hx as [Hx _].
    destruct Hwf as [Hk _]. unfold keysFresh in Hk.
    rewrite Forall_forall in Hk. specialize (Hk x Hx). cbn. lia. }
  destruct (wrong_attempts_last (rows (purge now s)) created
              (N.succ (nextId s)) (issue_phoneNumber input)
              eq_refl eq_refl Holder Hkeys env wrong 0) as [Htr Hrun].
  { unfold MAX_VERIFY_ATTEMPTS. lia. }
  { exact Hwrong. }
  fold ops in Htr, Hrun. split; [exact Htr|]. rewrite Hrun.
  eexists. exists (consume t (withAttempts (0 + Z.of_nat (List.length wrong)) created)).
  split.
  - apply (verify_match_last (rows (purge now s)) created (N.succ (nextId s))
             (issue_phoneNumber input) env t _ _ (issuedCode rnd)); auto.
    + unfold MAX_VERIFY_ATTEMPTS. lia.
    + apply normalizeOtpCode_sixDigits. now apply code_sixDigits.
    + apply secureEqualHex_refl.
  - cbn [rows]. split; [apply in_or_app; right; now left|].
    repeat split; cbn; lia.
Qed.

(** ** The request-code handler *)

(** The handler past its checks, for the number of a user with phone
    sign-in. *)
Lemma requestCode_known (env : Env) (renv : RouteEnv) (users : list User)
  (now rnd stamp : Z) (gateway : FetchOutcome)
  (forwarded realIp : option jsstring) (raw phone : jsstring) (s : Store) :
  (7 <= List.length raw <= 32)%nat ->
  normalizePhoneNumber (Some raw) = Ok (Some phone) ->
  findPhoneUser users phone = true ->
  requestCode env renv users now rnd stamp gateway forwarded realIp (Some raw) s
  = match issuePhoneLoginCode env now rnd stamp
            {| issue_phoneNumber := phone;
               issue_requestedByIp := getRequestIp forwarded realIp |} s with
    | (Throw e, s1) => (ThrewHttp e, s1, [])
    | (Ok result, s1) =>
        match dispatchPhoneCode renv gateway phone (out_code result) with
        | (Some failure, sent) => (failure, s1, sent)
        | (None, sent) =>
            (Responded
               {| resp_ok := true;
                  resp_message := js "Codul de autentificare a fost trimis catre "
                                  ++ maskPhoneNumber (Some phone) ++ js ".";
                  resp_expiresAt := Some (toISOString (out_expiresAt result));
                  resp_debugCode :=
                    if differsFrom (NODE_ENV renv) (js "production")
                       && differsFrom (PHONE_OTP_DEBUG renv) (js "false")
                    then Some (out_code result) else None |},
             s1, sent)
        end
    end.
Proof.
  intros Hlen Hnorm Huser. unfold requestCode.
  destruct (Nat.leb_spec 7 (List.length raw)); [|lia].
  destruct (Nat.leb_spec (List.length raw) 32); [|lia].
  cbn [andb negb]. rewrite Hnorm.
  destruct (normalizePhoneNumber_Some_isE164 _ _ Hnorm) as (digits & -> & _).
  rewrite Huser. reflexivity.
Qed.

(** X23.  The handler acts only for the number of a user with phone
    sign-in enabled: whenever it changes the code table, hands a message to
    the gateway or the console, or answers anything but its fixed
    "if the number exists" response, the body held a text of 7 to 32
    characters that normalizes to the number of such a user.  In every other
    case the table is not even purged. *)
Theorem requestCode_acts_only_for_users (env : Env) (renv : RouteEnv)
  (users : list User) (now rnd stamp : Z) (gateway : FetchOutcome)
  (forwarded realIp body : option jsstring) (s s' : Store)
  (outcome : RouteOutcome) (sent : list Dispatch) :
  requestCode env renv users now rnd stamp gateway forwarded realIp body s
  = (outcome, s', sent) ->
  (s' = s /\ sent = []
   /\ (outcome = ThrewSchema \/ outcome = ThrewHttp invalidPhoneError
       \/ outcome = Responded unknownNumberResponse))
  \/ (exists raw phone,
        body = Some raw /\ (7 <= List.length raw <= 32)%nat
        /\ normalizePhoneNumber (Some raw) = Ok (Some phone)
        /\ isE164 phone
        /\ findPhoneUser users phone = true).
Proof.
  unfold requestCode. destruct body as [raw|];
    [|intros Heq; injection Heq as <- <- <-; left; auto].
  destruct (Nat.leb_spec 7 (List.length raw));
    [|intros Heq; injection Heq as <- <- <-; left; auto].
  destruct (Nat.leb_spec (List.length raw) 32);
    [|intros Heq; injection Heq as <- <- <-; left; auto].
  cbn [andb negb].
  destruct (normalizePhoneNumber (Some raw)) as [[phone|]|e] eqn:Hnorm.
  - destruct (normalizePhoneNumber_Some_isE164 _ _ Hnorm) as (digits & -> & Hd).
    destruct (findPhoneUser users (43%N :: digits)) eqn:Huser; cbn [negb].
    + intros _. right. exists raw, (43%N :: digits). repeat split; auto; try lia.
      exists digits. auto.
    + intros Heq; injection Heq as <- <- <-; left; auto.
  - intros Heq; injection Heq as <- <- <-; left; auto.
  - assert (He : e = invalidPhoneError).
    { revert Hnorm. unfold normalizePhoneNumber.
      destruct (sanitizeOptionalText (Some raw) 32) as [[|c cleaned]|];
        try discriminate.
      destruct (testPhoneAllowed (c :: cleaned)); cbn [negb];
        [|intros Hthrow; now injection Hthrow as <-].
      cbv zeta.
      match goal with
      | |- context [testPhoneE164 ?m] => destruct (testPhoneE164 m)
      end; cbn [negb]; [discriminate | intros Hthrow; now injection Hthrow as <-]. }
    subst e. intros Heq; injection Heq as <- <- <-; left; auto.
Qed.

(** A response with an expiry comes from the branch past all checks. *)
Lemma requestCode_Responded_inv (env : Env) (renv : RouteEnv) (users : list User)
  (now rnd stamp : Z) (gateway : FetchOutcome)
  (forwarded realIp body : option jsstring) (s s' : Store)
  (r : RouteResponse) (sent : list Dispatch) :
  requestCode env renv users now rnd stamp gateway forwarded realIp body s
  = (Responded r, s', sent) ->
  resp_expiresAt r <> None ->
  exists raw phone,
    body = Some raw /\ (7 <= List.length raw <= 32)%nat
    /\ normalizePhoneNumber (Some raw) = Ok (Some phone)
    /\ findPhoneUser users phone = true.
Proof.
  unfold requestCode. destruct body as [raw|]; [|discriminate].
  destruct (Nat.leb_spec 7 (List.length raw)); [|discriminate].
  destruct (Nat.leb_spec (List.length raw) 32); [|discriminate].
  cbn [andb negb].
  destruct (normalizePhoneNumber (Some raw)) as [[phone|]|e] eqn:Hnorm;
    [|discriminate|discriminate].
  destruct (normalizePhoneNumber_Some_isE164 _ _ Hnorm) as (digits & -> & _).
  destruct (findPhoneUser users (43%N :: digits)) eqn:Huser; cbn [negb].
  - intros _ _. exists raw, (43%N :: digits). repeat split; auto; lia.
  - intros Heq Hexp. injection Heq as <- _ _. now elim Hexp.
Qed.

(** X24.  When the handler answers with an expiry, a code was issued for
    the normalized number and handed over exactly once: the table is the
    purged table plus the row of that code, stamped with the requester's
    address.  When [SMS_WEBHOOK_URL] is set to a non-empty string the one
    message goes to the gateway at that address, which answered ok, and
    nothing is written to the console; its text names the code and a
    validity of 5 minutes whatever the configured time to live.  When
    [SMS_WEBHOOK_URL] is unset or empty the one message goes to the console
    and names the number and the code.  The response names the masked
    number and the expiry, and it carries the code itself unless
    [NODE_ENV] is [production] or [PHONE_OTP_DEBUG] is [false]. *)
Theorem requestCode_success (env : Env) (renv : RouteEnv) (users : list User)
  (now rnd stamp : Z) (gateway : FetchOutcome)
  (forwarded realIp body : option jsstring) (s s' : Store)
  (r : RouteResponse) (sent : list Dispatch) :
  requestCode env renv users now rnd stamp gateway forwarded realIp body s
  = (Responded r, s', sent) ->
  resp_expiresAt r <> None ->
  exists raw phone,
    body = Some raw
    /\ normalizePhoneNumber (Some raw) = Ok (Some phone)
    /\ findPhoneUser users phone = true
    /\ rows s'
       = rows (purge now s)
         ++ [newRow (nextId s) phone (hashOtpCode env phone (issuedCode rnd))
               (now + getOtpTtlMinutes env * 60 * 1000)
               (getRequestIp forwarded realIp) stamp]
    /\ sent
       = match SMS_WEBHOOK_URL renv with
         | Some (u :: url) =>
             [ToWebhook (u :: url)
                {| sms_to := phone;
                   sms_message := js "Codul tau de autentificare este "
                                  ++ issuedCode rnd
                                  ++ js ". Valabil 5 minute.";
                   sms_channel := js "sms" |}]
         | Some [] | None =>
             [ToConsole (js "[phone-auth] OTP code for " ++ phone ++ js ": "
                         ++ issuedCode rnd)]
         end
    /\ (forall url, SMS_WEBHOOK_URL renv = Some url -> url <> [] ->
          gateway = FetchOk)
    /\ resp_message r = js "Codul de autentificare a fost trimis catre "
                        ++ maskPhoneNumber (Some phone) ++ js "."
    /\ resp_expiresAt r
       = Some (toISOString (now + getOtpTtlMinutes env * 60 * 1000))
    /\ resp_debugCode r
       = (if differsFrom (NODE_ENV renv) (js "production")
             && differsFrom (PHONE_OTP_DEBUG renv) (js "false")
          then Some (issuedCode rnd) else None)
    /\ (NODE_ENV renv = Some (js "production") -> resp_debugCode r = None).
Proof.
  intros Hreq Hexp.
  destruct (requestCode_Responded_inv _ _ _ _ _ _ _ _ _ _ _ _ _ _ Hreq Hexp)
    as (raw & phone & -> & Hlen & Hnorm & Huser).
  exists raw, phone. split; [reflexivity|]. split; [exact Hnorm|]. split; [exact Huser|].
  rewrite (requestCode_known _ _ _ _ _ _ _ _ _ _ _ _ Hlen Hnorm Huser) in Hreq.
  destruct (issuePhoneLoginCode _ _ _ _ _ s) as [[out|e] s1] eqn:Hissue;
    [|discriminate].
  apply issue_Ok_inv in Hissue as (-> & -> & _ & _).
  cbn [out_code out_expiresAt] in Hreq.
  unfold dispatchPhoneCode in Hreq.
  assert (Hprod : NODE_ENV renv = Some (js "production") ->
            (if differsFrom (NODE_ENV renv) (js "production")
                && differsFrom (PHONE_OTP_DEBUG renv) (js "false")
             then Some (issuedCode rnd) else None) = None).
  { intros ->. reflexivity. }
  destruct (SMS_WEBHOOK_URL renv) as [[|u url]|] eqn:Hurl.
  - injection Hreq as <- <- <-. cbn [rows resp_message resp_expiresAt resp_debugCode].
    repeat split; auto. intros url Heq Hne. injection Heq as <-. now elim Hne.
  - destruct gateway; try discriminate.
    injection Hreq as <- <- <-. cbn [rows resp_message resp_expiresAt resp_debugCode].
    repeat split; auto.
  - injection Hreq as <- <- <-. cbn [rows resp_message resp_expiresAt resp_debugCode].
    repeat split; auto. intros url Heq. discriminate Heq.
Qed.




End PhoneAuth.

(** * The model on concrete calls

    The examples below run the operations with the stand-in primitives, the
    default environment and the phone number +40711111111; times are in
    milliseconds. *)

Local Abbreviation runS := (run sampleHmac sampleNumber).
Local Abbreviation traceS := (trace sampleHmac sampleNumber).
Local Abbreviation execS := (exec sampleHmac sampleNumber).
Local Abbreviation issueS := (issuePhoneLoginCode sampleHmac sampleNumber).
Local Abbreviation verifyS := (verifyPhoneLoginCode sampleHmac).

(** C4: the rate limit does not hold as stated.  With the default time to
    live of 5 minutes, codes are requested at 0, 60, 120, 180 and 240
    seconds.  A sixth request at 300 seconds is refused by the rate limit,
    but one millisecond later the first row has expired, the purge deletes
    it before the count, and the sixth request succeeds although five codes
    were created in the preceding 15 minutes.  Neither outcome depends on
    the primitives. *)
Theorem rate_limit_undone_by_purge
  (hmac : jsstring -> jsstring -> jsstring) (number : jsstring -> JsNumber) :
  let five := [issueAt 0 1; issueAt 60000 2; issueAt 120000 3;
               issueAt 180000 4; issueAt 240000 5] in
  List.map (fun r => createdAt r) (rows (run hmac number five emptyStore))
  = [0; 60000; 120000; 180000; 240000]
  /\ fst (exec hmac number (issueAt 300000 6) (run hmac number five emptyStore))
     = Issued (Throw rateLimitError)
  /\ fst (exec hmac number (issueAt 300001 6) (run hmac number five emptyStore))
     = Issued (Ok {| out_code := js "000006"; out_expiresAt := 600001 |}).
Proof.
  intros five. subst five. repeat split; vm_compute; reflexivity.
Qed.

(** C1 on the scenario of the specification: a code issued at time 0 and
    submitted before it expires. *)
Lemma issue_then_verify_witness :
  exists code expires s1 created,
    issueS sampleEnv 0 123456 0 sampleIssueInput emptyStore
    = (Ok {| out_code := code; out_expiresAt := expires |}, s1)
    /\ sixDigits code
    /\ rows s1 = rows (purge 0 emptyStore) ++ [created]
    /\ id created = nextId emptyStore
    /\ phoneNumber created = issue_phoneNumber sampleIssueInput
    /\ consumedAt created = None
    /\ expiresAt created = expires
    /\ forall t, t < expires ->
         verifyS sampleEnv t
           {| verify_phoneNumber := issue_phoneNumber sampleIssueInput;
              verify_code := code |} s1
         = (Ok true, updateRow (id created) (consume t) s1)
         /\ List.In (consume t created)
              (rows (updateRow (id created) (consume t) s1))
         /\ (forall r, List.In r (rows (updateRow (id created) (consume t) s1)) ->
                id r = id created -> consumedAt r = Some t).
Proof.
  apply (issue_then_verify sampleHmac sampleNumber sampleEnv 0 123456 0
           sampleIssueInput emptyStore).
  - lia.
  - intros r Hr. simpl in Hr. destruct Hr.
Defined.

(** C2 fails as stated: the same code drawn twice, 60 seconds apart, is
    verified twice. *)
Lemma same_code_verified_twice :
  traceS [issueAt 0 123456; issueAt 60000 123456;
          verifyAt 61000 "123456"; verifyAt 62000 "123456"] emptyStore
  = [Issued (Ok {| out_code := js "123456"; out_expiresAt := 300000 |});
     Issued (Ok {| out_code := js "123456"; out_expiresAt := 360000 |});
     Verified (Ok true); Verified (Ok true)].
Proof. vm_compute. reflexivity. Qed.

(** C2, as amended, on a code issued at time 0 and verified one second
    later. *)
Lemma consumed_row_never_validated_again_witness :
  let s := runS [issueAt 0 123456] emptyStore in
  let input := {| verify_phoneNumber := samplePhone; verify_code := js "123456" |} in
  let s1 := snd (verifyS sampleEnv 1000 input s) in
  exists a,
    activeCode (verify_phoneNumber input) 1000 s = Some a
    /\ List.In (consume 1000 a) (rows s1)
    /\ forall ops,
         let s' := runS ops s1 in
         (forall r', List.In r' (rows s') -> id r' = id a -> r' = consume 1000 a)
         /\ forall env' t' res s2,
              verifyS env' t' input s' = (res, s2) ->
              res = Ok false
              \/ (res = Ok true
                  /\ exists b c,
                       activeCode (verify_phoneNumber input) t' s' = Some b
                       /\ id b <> id a
                       /\ consumedAt b = None
                       /\ t' < expiresAt b
                       /\ attempts b < MAX_VERIFY_ATTEMPTS
                       /\ normalizeOtpCode (verify_code input) = Ok c
                       /\ secureEqualHex (codeHash b)
                            (hashOtpCode sampleHmac env' (verify_phoneNumber input) c)
                          = true
                       /\ List.In (consume t' b) (rows s2)).
Proof.
  intros s input s1.
  apply (consumed_row_never_validated_again sampleHmac sampleNumber sampleEnv 1000
           input s s1).
  - apply wellFormed_run. exact wellFormed_empty.
  - vm_compute. reflexivity.
Defined.

(** C3 on a code issued at time 0: five wrong codes, then the right one. *)
Lemma attempts_exhausted_witness :
  let wrong := [(1000, js "000000"); (2000, js "000001"); (3000, js "000002");
                (4000, js "000003"); (5000, js "000004")] in
  let ops := List.map (fun tw => OpVerify sampleEnv (fst tw)
               {| verify_phoneNumber := samplePhone; verify_code := snd tw |}) wrong in
  let s1 := runS [issueAt 0 123456] emptyStore in
  traceS ops s1 = List.repeat (Verified (Ok false)) 5
  /\ verifyS sampleEnv 6000
       {| verify_phoneNumber := samplePhone; verify_code := js "123456" |}
       (runS ops s1)
     = (Ok false, runS ops s1).
Proof.
  intros wrong ops s1.
  apply (proj2 (attempts_exhausted sampleHmac sampleNumber) sampleEnv 0 123456 0
           sampleIssueInput emptyStore s1
           {| out_code := js "123456"; out_expiresAt := 300000 |} wrong 6000).
  - exact wellFormed_empty.
  - lia.
  - lia.
  - vm_compute. reflexivity.
  - reflexivity.
  - intros tw Htw. simpl in Htw.
    repeat (destruct Htw as [<-|Htw];
            [split; [reflexivity | eexists; split; vm_compute; reflexivity]|]).
    destruct Htw.
  - reflexivity.
Defined.

(** C5 fails as stated: ten seconds after the fifth code the refusal is
    the rate-limit error, which reports no seconds, not the cooldown
    error. *)
Lemma rate_limit_hides_cooldown :
  traceS [issueAt 0 1; issueAt 60000 2; issueAt 120000 3; issueAt 180000 4;
          issueAt 240000 5; issueAt 250000 6] emptyStore
  = [Issued (Ok {| out_code := js "000001"; out_expiresAt := 300000 |});
     Issued (Ok {| out_code := js "000002"; out_expiresAt := 360000 |});
     Issued (Ok {| out_code := js "000003"; out_expiresAt := 420000 |});
     Issued (Ok {| out_code := js "000004"; out_expiresAt := 480000 |});
     Issued (Ok {| out_code := js "000005"; out_expiresAt := 540000 |});
     Issued (Throw {| status := 429;
                      message := js "Prea multe coduri solicitate. Incearca din nou in cateva minute." |})].
Proof. vm_compute. reflexivity. Qed.

(** C5, as amended, on a second request 30 seconds after the first: the
    one row of the table is live and half a minute old. *)
Lemma cooldown_after_rate_limit_witness :
  let s := runS [issueAt 0 1] emptyStore in
  List.map (fun r => (expiresAt r, consumedAt r, attempts r, createdAt r)) (rows s)
  = [(300000, None, 0, 0)]
  /\ issueS sampleEnv 30000 2 30000 sampleIssueInput s
     = (Throw {| status := 429;
                 message := js "Asteapta 30s inainte de o noua solicitare" |}, s).
Proof.
  intros s. split; [vm_compute; reflexivity|].
  destruct (cooldown_after_rate_limit sampleHmac sampleNumber sampleEnv 30000 2 30000
              sampleIssueInput s) as [Hcool _].
  destruct (Hcool (createdRow sampleHmac sampleNumber sampleEnv 0 1 0
                     sampleIssueInput emptyStore)) as (_ & Heq & _).
  - intros r [<-|[]] _. vm_compute. repeat split; discriminate.
  - vm_compute. reflexivity.
  - vm_compute. reflexivity.
  - exact Heq.
Defined.

(** C6 fails as stated: once the counter is at 5 a further check leaves the
    table as it is, and on an empty table there is nothing to count. *)
Lemma exhausted_check_not_counted :
  let s5 := runS [issueAt 0 123456; verifyAt 1000 "000000"; verifyAt 2000 "000000";
                  verifyAt 3000 "000000"; verifyAt 4000 "000000";
                  verifyAt 5000 "000000"] emptyStore in
  List.map (fun r => attempts r) (rows s5) = [5]
  /\ execS (verifyAt 6000 "000000") s5 = (Verified (Ok false), s5)
  /\ execS (verifyAt 6000 "123456") s5 = (Verified (Ok false), s5)
  /\ execS (verifyAt 6000 "123456") emptyStore = (Verified (Ok false), emptyStore).
Proof. vm_compute. repeat split. Qed.

(** C6, as amended, on a first wrong code. *)
Lemma attempt_counted_on_comparison_witness :
  let s := runS [issueAt 0 123456] emptyStore in
  let input := {| verify_phoneNumber := samplePhone; verify_code := js "000000" |} in
  match activeCode (verify_phoneNumber input) 1000 s with
  | None => verifyS sampleEnv 1000 input s = (Ok false, s)
  | Some a =>
      if MAX_VERIFY_ATTEMPTS <=? attempts a
      then verifyS sampleEnv 1000 input s = (Ok false, s)
      else
        let valid :=
          secureEqualHex (codeHash a)
            (hashOtpCode sampleHmac sampleEnv (verify_phoneNumber input) (js "000000")) in
        let a' := if valid then consume 1000 a else incrementAttempts a in
        exists s',
          verifyS sampleEnv 1000 input s = (Ok valid, s')
          /\ List.In a' (rows s')
          /\ attempts a' = attempts a + 1
          /\ consumedAt a' = (if valid then Some 1000 else None)
          /\ (forall r, List.In r (rows s') ->
                 r = a' \/ (List.In r (rows s) /\ id r <> id a))
          /\ (forall r, List.In r (rows s) -> id r <> id a -> List.In r (rows s'))
  end.
Proof.
  intros s input.
  apply (attempt_counted_on_comparison sampleHmac sampleEnv 1000 input s
           (js "000000")).
  - apply wellFormed_run. exact wellFormed_empty.
  - vm_compute. reflexivity.
Defined.

(** C7 on a first code, the row stamped 7 milliseconds after the call. *)
Lemma issue_postcondition_witness :
  rows (snd (issueS sampleEnv 0 123456 7 sampleIssueInput emptyStore))
  = [ {| id := 0;
         phoneNumber := samplePhone;
         codeHash := sampleHmac (js "phone-otp-fallback-secret-change-me")
                       (samplePhone ++ 58%N :: js "123456");
         expiresAt := 300000;
         attempts := 0;
         consumedAt := None;
         requestedByIp := None;
         createdAt := 7 |} ]
  /\ getOtpTtlMinutes sampleNumber sampleEnv = 5.
Proof.
  destruct (issue_postcondition sampleHmac sampleNumber sampleEnv 0 123456 7
              sampleIssueInput emptyStore
              (snd (issueS sampleEnv 0 123456 7 sampleIssueInput emptyStore))
              {| out_code := js "123456"; out_expiresAt := 300000 |})
    as (Hrows & _ & _ & _ & Hunset & _).
  - vm_compute. reflexivity.
  - split; [exact Hrows | apply Hunset; reflexivity].
Defined.

(** C8 on a code of five digits. *)
Lemma malformed_code_rejected_witness :
  verifyS sampleEnv 1000
    {| verify_phoneNumber := samplePhone; verify_code := js "12 345" |}
    (runS [issueAt 0 123456] emptyStore)
  = (Throw {| status := 400; message := js "Codul trebuie sa aiba 6 cifre" |},
     runS [issueAt 0 123456] emptyStore).
Proof.
  apply (malformed_code_rejected sampleHmac).
  intros [Hlen _]. vm_compute in Hlen. discriminate Hlen.
Defined.

(** C10 fails as stated: when the newest row is at 5 attempts, the older
    row's code is answered false and no counter moves. *)
Lemma older_code_newest_exhausted :
  let s := runS [issueAt 0 111111; issueAt 60000 222222;
                 verifyAt 61000 "000000"; verifyAt 61000 "000000";
                 verifyAt 61000 "000000"; verifyAt 61000 "000000";
                 verifyAt 61000 "000000"] emptyStore in
  List.map (fun r => (id r, attempts r, consumedAt r, expiresAt r)) (rows s)
  = [(0%N, 0, None, 300000); (1%N, 5, None, 360000)]
  /\ execS (verifyAt 62000 "111111") s = (Verified (Ok false), s).
Proof. vm_compute. split; reflexivity. Qed.

(** C10, as amended, on two live codes. *)
Lemma older_code_checked_against_newest_witness :
  let s := runS [issueAt 0 111111; issueAt 60000 222222] emptyStore in
  let older := newRow 0 samplePhone
                 (hashOtpCode sampleHmac sampleEnv samplePhone (js "111111"))
                 300000 None 0 in
  let newestRow := newRow 1 samplePhone
                     (hashOtpCode sampleHmac sampleEnv samplePhone (js "222222"))
                     360000 None 60000 in
  exists s',
    verifyS sampleEnv 61000
      {| verify_phoneNumber := samplePhone; verify_code := js "111111" |} s
    = (Ok false, s')
    /\ List.In (incrementAttempts newestRow) (rows s')
    /\ List.In older (rows s')
    /\ (forall r, List.In r (rows s') ->
           r = incrementAttempts newestRow
           \/ (List.In r (rows s) /\ id r <> id newestRow)).
Proof.
  intros s older newestRow.
  destruct (older_code_checked_against_newest sampleHmac sampleEnv 61000
              samplePhone s newestRow older (js "111111")) as (_ & Hlive & _).
  - apply wellFormed_run. exact wellFormed_empty.
  - vm_compute. reflexivity.
  - left. vm_compute. reflexivity.
  - vm_compute. reflexivity.
  - vm_compute. discriminate.
  - split; [reflexivity | repeat constructor].
  - reflexivity.
  - vm_compute. reflexivity.
  - apply Hlive. vm_compute. reflexivity.
Defined.

(** * The further properties on concrete inputs *)

Local Abbreviation normalizePhoneS := (normalizePhoneNumber sampleSanitize).
Local Abbreviation requestCodeS :=
  (requestCode sampleHmac sampleNumber sampleSanitize sampleToISOString).

(** X1 on a code typed with blanks. *)
Lemma normalizeOtpCode_canonical_witness :
  sixDigits (js "123456")
  /\ List.Forall (fun ch => isWhiteSpace ch = false) (js "123456")
  /\ js "123456" = stripWhiteSpace (js " 12 34 56 ")
  /\ normalizeOtpCode (js "123456") = Ok (js "123456").
Proof.
  apply (normalizeOtpCode_canonical (js " 12 34 56 ") (js "123456")).
  vm_compute. reflexivity.
Defined.

(** X2 on a code typed in two groups. *)
Lemma verify_ignores_white_space_witness :
  verifyS sampleEnv 1000
    {| verify_phoneNumber := samplePhone; verify_code := js "123" ++ js "  " ++ js "456" |}
    (runS [issueAt 0 123456] emptyStore)
  = verifyS sampleEnv 1000
      {| verify_phoneNumber := samplePhone; verify_code := js "123" ++ js "456" |}
      (runS [issueAt 0 123456] emptyStore).
Proof.
  apply (verify_ignores_white_space sampleHmac).
  repeat constructor.
Defined.

(** X3 on two digests of two bytes. *)
Lemma secureEqualHex_digests_witness :
  secureEqualHex (js "0a1f") (js "0a2f") = true <-> js "0a1f" = js "0a2f".
Proof.
  apply (secureEqualHex_digests (js "0a1f") (js "0a2f")).
  - split; [exists 2%nat; reflexivity | repeat constructor].
  - split; [exists 2%nat; reflexivity | repeat constructor].
Defined.

(** X6 on the sample number and a code. *)
Lemma otpMessage_determines_phone_and_code_witness :
  hashOtpCode sampleHmac sampleEnv samplePhone (js "123456")
  = sampleHmac (getOtpSecret sampleEnv) (otpMessage samplePhone (js "123456"))
  /\ (otpMessage samplePhone (js "123456") = otpMessage (js "+4071111") (js "111456")
      -> samplePhone = js "+4071111" /\ js "123456" = js "111456").
Proof.
  apply (otpMessage_determines_phone_and_code sampleHmac sampleEnv).
  - split; [reflexivity | repeat constructor].
  - split; [reflexivity | repeat constructor].
Defined.

(** X8 on the sample number written with 00. *)
Lemma normalizePhoneNumber_spellings_witness :
  normalizePhoneS (Some (js "0040711111111")) = Ok (Some samplePhone).
Proof.
  apply (normalizePhoneNumber_spellings sampleSanitize (js "40711111111")).
  - simpl. lia.
  - repeat constructor.
  - right. left. vm_compute. reflexivity.
Defined.

(** X9 on the sample number written with 00 and blanks. *)
Lemma normalizePhoneNumber_idempotent_witness :
  normalizePhoneS (Some samplePhone) = Ok (Some samplePhone).
Proof.
  apply (normalizePhoneNumber_idempotent sampleSanitize
           (Some (js "0040 711 111 111")) samplePhone).
  - vm_compute. reflexivity.
  - vm_compute. reflexivity.
Defined.

(** X10 on the sample number written with blanks and with hyphens. *)
Lemma normalizePhoneNumber_separators_witness :
  normalizePhoneS (Some (js "+40 711 111 111"))
  = normalizePhoneS (Some (js "+40-711-111-111")).
Proof.
  apply (normalizePhoneNumber_separators sampleSanitize _ _
           (js "+40 711 111 111") (js "+40-711-111-111"));
    vm_compute; reflexivity.
Defined.

(** X14 on a second request 30 seconds after the first. *)
Lemma issue_refusal_only_purges_witness :
  let s := runS [issueAt 0 1] emptyStore in
  let e := {| status := 429;
              message := js "Asteapta 30s inainte de o noua solicitare" |} in
  purge 30000 s = purge 30000 s /\ nextId (purge 30000 s) = nextId s
  /\ status e = 429
  /\ (e = rateLimitError
      \/ exists l, latestFor (issue_phoneNumber sampleIssueInput) (purge 30000 s) = Some l
                   /\ 30000 - createdAt l < 60000
                   /\ e = cooldownError ((30000 - createdAt l) / 1000)).
Proof.
  intros s e.
  apply (issue_refusal_only_purges sampleHmac sampleNumber sampleEnv 30000 2 30000
           sampleIssueInput s (purge 30000 s) e).
  vm_compute. reflexivity.
Defined.

(** X18 on two codes requested a minute apart. *)
Lemma codes_spaced_by_cooldown_witness :
  let ops := [issueAt 0 1; issueAt 60000 2] in
  let r1 := newRow 0 samplePhone
              (hashOtpCode sampleHmac sampleEnv samplePhone (js "000001")) 300000 None 0 in
  let r2 := newRow 1 samplePhone
              (hashOtpCode sampleHmac sampleEnv samplePhone (js "000002")) 360000 None 60000 in
  List.Forall clockSane ops
  /\ 60000 <= Z.abs (createdAt r1 - createdAt r2).
Proof.
  intros ops r1 r2.
  assert (Hops : List.Forall clockSane ops) by (repeat constructor; simpl; lia).
  split; [exact Hops|].
  apply (codes_spaced_by_cooldown sampleHmac sampleNumber ops Hops r1 r2).
  - left. vm_compute. reflexivity.
  - right. left. vm_compute. reflexivity.
  - reflexivity.
  - vm_compute. discriminate.
Defined.

(** X19 on six requests, the sixth just after the first code expired. *)
Lemma at_most_five_rows_per_phone_witness :
  let ops := [issueAt 0 1; issueAt 60000 2; issueAt 120000 3; issueAt 180000 4;
              issueAt 240000 5; issueAt 300001 6] in
  (forall phone,
     (List.length (List.filter (isFor phone) (rows (runS ops emptyStore))) <= 5)%nat)
  /\ List.Forall (fun r => expiresAt r <= createdAt r + 15 * 60 * 1000)
       (rows (runS ops emptyStore)).
Proof.
  intros ops.
  apply (at_most_five_rows_per_phone sampleHmac sampleNumber ops).
  repeat constructor; simpl; lia.
Defined.

(** X20 on a code submitted at the very instant of its expiry. *)
Lemma verify_without_live_row_witness :
  verifyS sampleEnv 300000
    {| verify_phoneNumber := samplePhone; verify_code := js "123456" |}
    (runS [issueAt 0 123456] emptyStore)
  = (Ok false, runS [issueAt 0 123456] emptyStore).
Proof.
  apply (verify_without_live_row sampleHmac).
  - split; [reflexivity | repeat constructor].
  - intros r Hr _. right. vm_compute in Hr. destruct Hr as [<-|[]].
    vm_compute. discriminate.
Defined.

(** X21 on a code issued at time 0 and submitted a second later. *)
Lemma verify_true_only_on_match_witness :
  let s := runS [issueAt 0 123456] emptyStore in
  let input := {| verify_phoneNumber := samplePhone; verify_code := js "12 34 56" |} in
  exists a c,
    List.In a (rows s)
    /\ phoneNumber a = verify_phoneNumber input
    /\ consumedAt a = None /\ 1000 < expiresAt a
    /\ attempts a < MAX_VERIFY_ATTEMPTS
    /\ c = stripWhiteSpace (verify_code input) /\ sixDigits c
    /\ bufferFromHex (codeHash a)
       = bufferFromHex (hashOtpCode sampleHmac sampleEnv (verify_phoneNumber input) c)
    /\ (isHexDigest (codeHash a) ->
        isHexDigest (hashOtpCode sampleHmac sampleEnv (verify_phoneNumber input) c) ->
        codeHash a = hashOtpCode sampleHmac sampleEnv (verify_phoneNumber input) c)
    /\ (forall r, List.In r (rows s) ->
           activeFor (verify_phoneNumber input) 1000 r = true ->
           createdAt r <= createdAt a).
Proof.
  intros s input.
  apply (verify_true_only_on_match sampleHmac sampleEnv 1000 input s
           (snd (verifyS sampleEnv 1000 input s))).
  vm_compute. reflexivity.
Defined.

(** X22 on two wrong codes, then the right one. *)
Lemma right_code_after_wrong_tries_witness :
  let wrong := [(1000, js "000000"); (2000, js "000001")] in
  let ops := List.map (fun tw => OpVerify sampleEnv (fst tw)
               {| verify_phoneNumber := samplePhone; verify_code := snd tw |}) wrong in
  let s1 := runS [issueAt 0 123456] emptyStore in
  traceS ops s1 = List.repeat (Verified (Ok false)) 2
  /\ exists s2 consumed,
       verifyS sampleEnv 3000
         {| verify_phoneNumber := samplePhone; verify_code := js "123456" |}
         (runS ops s1)
       = (Ok true, s2)
       /\ List.In consumed (rows s2)
       /\ id consumed = nextId emptyStore
       /\ consumedAt consumed = Some 3000
       /\ attempts consumed = Z.of_nat 2 + 1.
Proof.
  intros wrong ops s1.
  apply (right_code_after_wrong_tries sampleHmac sampleNumber sampleEnv 0 123456 0
           sampleIssueInput emptyStore s1
           {| out_code := js "123456"; out_expiresAt := 300000 |} wrong 3000).
  - exact wellFormed_empty.
  - lia.
  - lia.
  - vm_compute. reflexivity.
  - simpl. lia.
  - intros tw Htw. simpl in Htw.
    repeat (destruct Htw as [<-|Htw];
            [split; [reflexivity | eexists; split; vm_compute; reflexivity]|]).
    destruct Htw.
  - reflexivity.
Defined.

(** X23 on a request for a number no user has. *)
Lemma requestCode_acts_only_for_users_witness :
  let s := runS [issueAt 0 123456] emptyStore in
  let body := Some (js "+40 722 222 222") in
  (s = s /\ @nil Dispatch = []
   /\ (Responded unknownNumberResponse = ThrewSchema
       \/ Responded unknownNumberResponse = ThrewHttp invalidPhoneError
       \/ Responded unknownNumberResponse = Responded unknownNumberResponse))
  \/ (exists raw phone,
        body = Some raw /\ (7 <= List.length raw <= 32)%nat
        /\ normalizePhoneS (Some raw) = Ok (Some phone)
        /\ isE164 phone
        /\ findPhoneUser sampleUsers phone = true).
Proof.
  intros s body.
  apply (requestCode_acts_only_for_users sampleHmac sampleNumber sampleSanitize
           sampleToISOString sampleEnv sampleRouteEnv sampleUsers 400000 7 400000
           FetchOk None None body s s (Responded unknownNumberResponse) []).
  vm_compute. reflexivity.
Defined.

(** X24 on a request of the sample user in production with a gateway that
    answers ok: the message goes to the gateway and the response does not
    carry the code. *)
Lemma requestCode_success_witness :
  let body := Some (js "0040 711 111 111") in
  let forwarded := Some (js "10.0.0.7, 10.0.0.1") in
  let r := {| resp_ok := true;
              resp_message := js "Codul de autentificare a fost trimis catre +40***11.";
              resp_expiresAt := Some (js "300000");
              resp_debugCode := None |} in
  let sent := [ToWebhook (js "https://sms.example/send")
                 {| sms_to := samplePhone;
                    sms_message :=
                      js "Codul tau de autentificare este 123456. Valabil 5 minute.";
                    sms_channel := js "sms" |}] in
  exists raw phone,
    body = Some raw
    /\ normalizePhoneS (Some raw) = Ok (Some phone)
    /\ findPhoneUser sampleUsers phone = true
    /\ rows (snd (fst (requestCodeS sampleEnv sampleProductionEnv sampleUsers 0 123456 0
                         FetchOk forwarded None body emptyStore)))
       = rows (purge 0 emptyStore)
         ++ [newRow (nextId emptyStore) phone
               (hashOtpCode sampleHmac sampleEnv phone (issuedCode 123456))
               (0 + getOtpTtlMinutes sampleNumber sampleEnv * 60 * 1000)
               (getRequestIp forwarded None) 0]
    /\ sent
       = match SMS_WEBHOOK_URL sampleProductionEnv with
         | Some (u :: url) =>
             [ToWebhook (u :: url)
                {| sms_to := phone;
                   sms_message := js "Codul tau de autentificare este "
                                  ++ issuedCode 123456
                                  ++ js ". Valabil 5 minute.";
                   sms_channel := js "sms" |}]
         | Some [] | None =>
             [ToConsole (js "[phone-auth] OTP code for " ++ phone ++ js ": "
                         ++ issuedCode 123456)]
         end
    /\ (forall url, SMS_WEBHOOK_URL sampleProductionEnv = Some url -> url <> [] ->
          FetchOk = FetchOk)
    /\ resp_message r = js "Codul de autentificare a fost trimis catre "
                        ++ maskPhoneNumber (Some phone) ++ js "."
    /\ resp_expiresAt r
       = Some (sampleToISOString (0 + getOtpTtlMinutes sampleNumber sampleEnv * 60 * 1000))
    /\ resp_debugCode r
       = (if differsFrom (NODE_ENV sampleProductionEnv) (js "production")
             && differsFrom (PHONE_OTP_DEBUG sampleProductionEnv) (js "false")
          then Some (issuedCode 123456) else None)
    /\ (NODE_ENV sampleProductionEnv = Some (js "production") -> resp_debugCode r = None).
Proof.
  intros body forwarded r sent.
  apply (requestCode_success sampleHmac sampleNumber sampleSanitize sampleToISOString
           sampleEnv sampleProductionEnv sampleUsers 0 123456 0 FetchOk forwarded None body
           emptyStore).
  - vm_compute. reflexivity.
  - discriminate.
Defined.

